(** * python-executor-service: the claim / execute / report core

    A shallow embedding of the Python package [python_executor_service]
    (modules [models], [config], [runner_registry], [cl_client],
    [pylabrobot_bridge], [runners.integra_assist] and [claim_loop]) and the
    properties of its lifecycle protocol.

    Conventions of the embedding:
    - Python [int] is [Z]; Python [str] is [string], and [strip], [lower],
      [upper] and [repr] are those of Python on ASCII text; a character
      outside ASCII is carried as its UTF-8 bytes, which they leave alone,
      so the properties that rest on them are stated for ASCII text; values
      decoded from JSON are [json] (numbers with a fractional part are
      outside the model);
    - a Python [dict] with string keys is an association list looked up by
      key ([dict_get]); [None] in an [Optional] field is [None];
    - a computation that can raise is a [Result]; a computation that also
      talks to the outside world is an [M]: it reads the trace of everything
      that happened so far and extends it with the events it causes;
    - the outside world (task-queue server, HTTP transport, runners) is an
      oracle over the trace, so it may answer differently each time. *)

From Stdlib Require Import ZArith String Ascii List Bool Lia.
From stdpp Require Import base tactics option list strings pretty gmap.

Local Open Scope string_scope.
Local Open Scope Z_scope.
Local Open Scope list_scope.
Local Set Warnings "-register-all".

(** ** Python values *)

Inductive json : Type :=
| JNull
| JBool (b : bool)
| JInt (n : Z)
| JStr (s : string)
| JArr (items : list json)
| JObj (fields : list (string * json)).

Abbreviation dict := (list (string * json)).

Fixpoint dict_get (d : dict) (key : string) : option json :=
  match d with
  | [] => None
  | (k, v) :: d' => if String.eqb k key then Some v else dict_get d' key
  end.

(** [d.get(key, dflt)] *)
Definition dict_get_default (d : dict) (key : string) (dflt : json) : json :=
  match dict_get d key with
  | Some v => v
  | None => dflt
  end.

(** [type(v).__name__] *)
Definition type_name (v : json) : string :=
  match v with
  | JNull => "NoneType"
  | JBool _ => "bool"
  | JInt _ => "int"
  | JStr _ => "str"
  | JArr _ => "list"
  | JObj _ => "dict"
  end.

(** Truth value of a Python object, as tested by [if x:] and [bool(x)]. *)
Definition truthy_json (v : json) : bool :=
  match v with
  | JNull => false
  | JBool b => b
  | JInt n => negb (n =? 0)
  | JStr s => negb (String.eqb s EmptyString)
  | JArr l => match l with [] => false | _ => true end
  | JObj d => match d with [] => false | _ => true end
  end.

Definition truthy_list {A} (l : list A) : bool :=
  match l with [] => false | _ => true end.

Definition truthy_str (s : string) : bool :=
  match s with EmptyString => false | _ => true end.

(** An [Optional[...]] value is true when it is not [None] and its content
    is true. *)
Definition truthy_opt {A} (t : A -> bool) (o : option A) : bool :=
  match o with
  | Some a => t a
  | None => false
  end.

(** ** [str.strip()], [str.lower()] and [repr] on strings *)

(** [str.isspace] on one character: TAB..CR, FS..US and SPACE. *)
Definition is_space (c : ascii) : bool :=
  let n := N_of_ascii c in
  ((9 <=? n) && (n <=? 13) || (28 <=? n) && (n <=? 32))%N.

Fixpoint lstrip (s : string) : string :=
  match s with
  | EmptyString => EmptyString
  | String c s' => if is_space c then lstrip s' else s
  end.

(** Drop trailing white space: a character is kept when it is not white
    space or something is kept after it. *)
Fixpoint rstrip (s : string) : string :=
  match s with
  | EmptyString => EmptyString
  | String c s' =>
      match rstrip s' with
      | EmptyString => if is_space c then EmptyString else String c EmptyString
      | r => String c r
      end
  end.

Definition strip (s : string) : string := rstrip (lstrip s).

Definition is_upper (c : ascii) : bool :=
  let n := N_of_ascii c in ((65 <=? n) && (n <=? 90))%N.

Definition is_lower (c : ascii) : bool :=
  let n := N_of_ascii c in ((97 <=? n) && (n <=? 122))%N.

Definition lower_char (c : ascii) : ascii :=
  if is_upper c then ascii_of_N (N_of_ascii c + 32) else c.

Fixpoint lower (s : string) : string :=
  match s with
  | EmptyString => EmptyString
  | String c s' => String (lower_char c) (lower s')
  end.

Definition is_ascii_char (c : ascii) : bool := (N_of_ascii c <? 128)%N.

Fixpoint is_ascii_str (s : string) : bool :=
  match s with
  | EmptyString => true
  | String c s' => is_ascii_char c && is_ascii_str s'
  end.

Definition squote : ascii := ascii_of_N 39.
Definition dquote : ascii := ascii_of_N 34.
Definition backslash : ascii := ascii_of_N 92.

Fixpoint has_char (c : ascii) (s : string) : bool :=
  match s with
  | EmptyString => false
  | String c' s' => Ascii.eqb c c' || has_char c s'
  end.

Definition hex_digit (n : N) : ascii :=
  if (n <? 10)%N then ascii_of_N (48 + n) else ascii_of_N (87 + n).

Definition repr_char (quote c : ascii) : string :=
  let n := N_of_ascii c in
  if Ascii.eqb c quote || Ascii.eqb c backslash then String backslash (String c EmptyString)
  else if (n =? 9)%N then String backslash "t"
  else if (n =? 10)%N then String backslash "n"
  else if (n =? 13)%N then String backslash "r"
  else if (n <? 32)%N || (n =? 127)%N then
    String backslash (String "x" (String (hex_digit (n / 16)) (String (hex_digit (n mod 16)) EmptyString)))
  else String c EmptyString.

Fixpoint repr_chars (quote : ascii) (s : string) : string :=
  match s with
  | EmptyString => String quote EmptyString
  | String c s' => repr_char quote c +:+ repr_chars quote s'
  end.

(** [repr(s)] for a string: single quotes unless the text has a single
    quote and no double quote. *)
Definition py_repr (s : string) : string :=
  let quote := if has_char squote s && negb (has_char dquote s) then dquote else squote in
  String quote (repr_chars quote s).

(** ** [str.upper()], [str.split], [str.endswith] and stripping of given characters *)

Definition upper_char (c : ascii) : ascii :=
  if is_lower c then ascii_of_N (N_of_ascii c - 32) else c.

Fixpoint upper (s : string) : string :=
  match s with
  | EmptyString => EmptyString
  | String c s' => String (upper_char c) (upper s')
  end.

(** [s.endswith(suffix)]: the suffix is the text itself or ends its tail. *)
Fixpoint ends_with (suffix s : string) : bool :=
  String.eqb suffix s
  || match s with
     | EmptyString => false
     | String _ s' => ends_with suffix s'
     end.


(** [s.split(sep, 1)] when [sep] occurs in [s]: the text before the first
    occurrence and the text after it. *)
Fixpoint split_first (sep : ascii) (s : string) : option (string * string) :=
  match s with
  | EmptyString => None
  | String c s' =>
      if Ascii.eqb c sep then Some (EmptyString, s')
      else match split_first sep s' with
           | Some (before, after) => Some (String c before, after)
           | None => None
           end
  end.


(** [s[:n]] *)
Fixpoint take_chars (n : nat) (s : string) : string :=
  match n, s with
  | S n', String c s' => String c (take_chars n' s')
  | _, _ => EmptyString
  end.

(** ** Exceptions and results *)

Inductive ExcClass :=
| RuntimeError
| KeyError
| TypeError
| AttributeError
| ValueError
| URLError
| OtherException (name : string).

(** An instance of (a subclass of) [Exception], raised with one text
    argument. *)
Record exn := Exn { exc_class : ExcClass; exc_arg : string }.

(** [str(exc)]: the argument, except that [KeyError] shows its [repr]. *)
Definition str_exc (e : exn) : string :=
  match exc_class e with
  | KeyError => py_repr (exc_arg e)
  | _ => exc_arg e
  end.

Inductive Result (A : Type) : Type :=
| Ok (a : A)
| Raise (e : exn).
Arguments Ok {A} a.
Arguments Raise {A} e.

Definition is_ok {A} (r : Result A) : bool :=
  match r with Ok _ => true | Raise _ => false end.

Global Instance Result_ret : MRet Result := fun A a => Ok a.
Global Instance Result_bind : MBind Result := fun A B f r =>
  match r with
  | Ok a => f a
  | Raise e => Raise e
  end.

(** Collect the results of [f] over a list, stopping at the first raise. *)
Fixpoint map_result {A B} (f : A -> Result B) (l : list A) : Result (list B) :=
  match l with
  | [] => Ok []
  | a :: l' =>
      match f a with
      | Raise e => Raise e
      | Ok b =>
          match map_result f l' with
          | Raise e => Raise e
          | Ok bs => Ok (b :: bs)
          end
      end
  end.

(** ** models.py *)

(** The fields hold what the claim response carried: [claim_tasks] stores
    the decoded JSON values without checking their types. *)
Record ExecutionTask := {
  task_id : json;
  execution_run_id : json;
  robot_plan_id : json;
  adapter_id : json;
  target_platform : json;
  contract_version : json;
  runtime_parameters : json;
  artifact_refs : json;
  lease_expires_at : json
}.

Record LogEntry := {
  message : string;
  level : string;
  code : option string;
  data : option dict;
  timestamp : option string
}.

Record RunnerResult := {
  final_status : string;
  logs : list LogEntry;
  artifacts : list json;
  measurements : list json;
  failure : option dict;
  external : option dict
}.

(** ** config.py *)

Record ExecutorConfig := {
  api_base_url : string;
  executor_id : string;
  executor_token : string;
  capabilities : option (list string);
  max_tasks : Z;
  lease_duration_ms : Z;
  poll_interval_ms : Z;
  run_once : bool
}.

(** ** The outside world *)

(** One invocation of a reporting operation of the client, with the
    arguments it was given. *)
Inductive Call :=
| Heartbeat (task : ExecutionTask) (sequence : Z) (progress : option dict)
| AppendLogs (task : ExecutionTask) (sequence : Z) (entries : list LogEntry)
| UpdateStatus (task : ExecutionTask) (sequence : Z) (status : string)
    (failure external : option dict)
| Complete (task : ExecutionTask) (sequence : Z) (final_status : string)
    (artifacts measurements : option (list json)).

(** What [urllib.request.urlopen] is asked. *)
Record Request := {
  req_url : string;
  req_method : string;
  req_headers : list (string * string);
  req_payload : dict;
  req_timeout : Z
}.

(** The decoded body of a response: empty, a JSON text, or a text that
    [decode] or [json.loads] rejects with the given exception. *)
Inductive Body :=
| BodyEmpty
| BodyJson (v : json)
| BodyMalformed (e : exn).

(** What [urlopen] does: a success response, an [HTTPError] with the status
    code and the decoded error body, or another exception (no response). *)
Inductive HttpOutcome :=
| HttpResponse (body : Body)
| HTTPError (status_code : Z) (detail : string)
| HttpFault (e : exn).

Inductive Event :=
| EvClaim (outcome : Result (list ExecutionTask))
| EvCall (c : Call) (outcome : Result json)
| EvRun (task : ExecutionTask) (outcome : Result RunnerResult)
| EvLog (event : string) (fields : dict)
| EvSleep (millis : Z)
| EvRequest (req : Request) (outcome : HttpOutcome).

Abbreviation Trace := (list Event).

(** ** Computations with effects *)

Definition M (A : Type) : Type := Trace -> Result A * Trace.

Global Instance M_ret : MRet M := fun A a tr => (Ok a, tr).
Global Instance M_bind : MBind M := fun A B f m tr =>
  match m tr with
  | (Ok a, tr') => f a tr'
  | (Raise e, tr') => (Raise e, tr')
  end.

Definition raise {A} (e : exn) : M A := fun tr => (Raise e, tr).

Definition lift {A} (r : Result A) : M A := fun tr => (r, tr).

(** [try: m  except Exception as exc: h exc]. Every [exn] is an
    [Exception]; [KeyboardInterrupt] and [SystemExit], which the handler
    would let through, end the process and are not part of the model. *)
Definition try_except {A} (m : M A) (h : exn -> M A) : M A := fun tr =>
  match m tr with
  | (Ok a, tr') => (Ok a, tr')
  | (Raise e, tr') => h e tr'
  end.

(** An effect answered by the world: the answer depends on the trace so
    far, and the event records the question and the answer. *)
Definition ask {A} (answer : Trace -> Result A) (ev : Result A -> Event) : M A :=
  fun tr => let r := answer tr in (r, tr ++ [ev r]).

Definition emit (ev : Event) : M unit := fun tr => (Ok tt, tr ++ [ev]).

(** ** [time.sleep] *)

(** [time.sleep(ms / 1000.0)] for an integer [ms >= 0], as CPython does it.
    The duration is first turned into a count of nanoseconds that has to
    fit a signed 64-bit integer: [9223372036854 / 1000.0 * 1e9] still rounds
    below [2 ** 63] and [9223372036855 / 1000.0 * 1e9] does not, so from
    [9223372036855] milliseconds on [time.sleep] raises [OverflowError]; an
    [int] from [2 ** 1024 - 2 ** 970] on is refused earlier, by the division
    by [1000.0]. *)
Definition sleep_limit_ms : Z := 9223372036855.
Definition float_limit : Z := 2 ^ 1024 - 2 ^ 970.

Definition OverflowError : ExcClass := OtherException "OverflowError".

Definition sleep_error (ms : Z) : option exn :=
  if ms <? sleep_limit_ms then None
  else if ms <? float_limit
       then Some (Exn OverflowError "timestamp too large to convert to C _PyTime_t")
       else Some (Exn OverflowError "int too large to convert to float").

(** A duration that passed is handed to the operating system, which sleeps
    ([None]) or refuses ([Some exc], an [OSError]: on Linux
    [clock_nanosleep] fails when the deadline, the time since boot plus the
    duration, is out of its range). *)
Definition OsSleep := Z -> option exn.

Definition time_sleep (os_sleep : Trace -> OsSleep) (ms : Z) : M unit := fun tr =>
  match sleep_error ms with
  | Some exc => (Raise exc, tr)
  | None =>
      match os_sleep tr ms with
      | Some exc => (Raise exc, tr)
      | None => (Ok tt, tr ++ [EvSleep ms])
      end
  end.

(** The same call where the time spent is not observed. *)
Definition slept (os_sleep : OsSleep) (ms : Z) : Result unit :=
  match sleep_error ms with
  | Some exc => Raise exc
  | None =>
      match os_sleep ms with
      | Some exc => Raise exc
      | None => Ok tt
      end
  end.

(** ** runner_base.py *)

(** A runner returns a result or raises; it may answer differently at each
    invocation, and it does not use the reporting client. *)
Definition TaskRunner := Trace -> ExecutionTask -> Result RunnerResult.

Definition run (runner : TaskRunner) (task : ExecutionTask) : M RunnerResult :=
  ask (fun tr => runner tr task) (EvRun task).

(** The operations of the client that the claim loop uses. *)
Record Client := {
  claim_tasks : M (list ExecutionTask);
  heartbeat : ExecutionTask -> Z -> option dict -> M json;
  append_logs : ExecutionTask -> Z -> list LogEntry -> M json;
  update_status : ExecutionTask -> Z -> string -> option dict -> option dict -> M json;
  complete : ExecutionTask -> Z -> string -> option (list json) -> option (list json) -> M json
}.

(** A client observed from outside, in the way of the test suite's
    [FakeClient]: every operation is recorded, and the server decides the
    outcome. *)
Definition Server := Trace -> Call -> Result json.
Definition ClaimSource := Trace -> Result (list ExecutionTask).

Definition report (srv : Server) (c : Call) : M json :=
  ask (fun tr => srv tr c) (EvCall c).

Definition observed_client (src : ClaimSource) (srv : Server) : Client := {|
  claim_tasks := ask src EvClaim;
  heartbeat task sequence progress := report srv (Heartbeat task sequence progress);
  append_logs task sequence entries := report srv (AppendLogs task sequence entries);
  update_status task sequence status failure external :=
    report srv (UpdateStatus task sequence status failure external);
  complete task sequence final_status artifacts measurements :=
    report srv (Complete task sequence final_status artifacts measurements)
|}.

(** [repr(v)] and [str(v)] of a decoded JSON value, as an f-string prints
    it. *)
Fixpoint repr_json (v : json) : string :=
  match v with
  | JNull => "None"
  | JBool b => if b then "True" else "False"
  | JInt n => pretty n
  | JStr s => py_repr s
  | JArr l => "[" +:+ String.concat ", " (map repr_json l) +:+ "]"
  | JObj d =>
      "{" +:+ String.concat ", "
        (map (fun kv => match kv with (k, x) => py_repr k +:+ ": " +:+ repr_json x end) d)
      +:+ "}"
  end.

Definition py_str (v : json) : string :=
  match v with
  | JStr s => s
  | _ => repr_json v
  end.

(** ** Subscripts, [get] and iteration on decoded values *)

(** [item[key]] *)
Definition subscript (item : json) (key : string) : Result json :=
  match item with
  | JObj d =>
      match dict_get d key with
      | Some v => Ok v
      | None => Raise (Exn KeyError key)
      end
  | JStr _ => Raise (Exn TypeError "string indices must be integers, not 'str'")
  | JArr _ => Raise (Exn TypeError "list indices must be integers or slices, not str")
  | v => Raise (Exn TypeError ("'" +:+ type_name v +:+ "' object is not subscriptable"))
  end.

(** [item.get(key, dflt)] *)
Definition get_default (item : json) (key : string) (dflt : json) : Result json :=
  match item with
  | JObj d => Ok (dict_get_default d key dflt)
  | v => Raise (Exn AttributeError ("'" +:+ type_name v +:+ "' object has no attribute 'get'"))
  end.

(** The items that [for item in v] visits. *)
Definition iterate (v : json) : Result (list json) :=
  match v with
  | JArr l => Ok l
  | JObj d => Ok (map (fun kv => JStr (fst kv)) d)
  | JStr s => Ok (map (fun c => JStr (String c EmptyString)) (list_ascii_of_string s))
  | v => Raise (Exn TypeError ("'" +:+ type_name v +:+ "' object is not iterable"))
  end.

(** ** runner_registry.py *)

Module RunnerRegistry.

(** [RunnerRegistry.get], over the dictionary [self._runners]. *)
Definition get (_runners : gmap string TaskRunner) (adapter_id : json) : Result TaskRunner :=
  match adapter_id with
  | JStr s =>
      let key := lower (strip s) in
      match _runners !! key with
      | None => Raise (Exn KeyError ("No runner registered for adapter: " +:+ s))
      | Some runner => Ok runner
      end
  | v => Raise (Exn AttributeError ("'" +:+ type_name v +:+ "' object has no attribute 'strip'"))
  end.

(** [RunnerRegistry.__init__], given the [IntegraAssistRunner] instance. *)
Definition init (integra : TaskRunner) : gmap string TaskRunner :=
  {[ "integra_assist" := integra ]}.

End RunnerRegistry.

(** ** claim_loop.py *)

Module ClaimLoop.

(** [registry] is the [get] method of the registry object given to the
    constructor. *)
Record t := {
  cfg : ExecutorConfig;
  client : Client;
  registry : json -> Result TaskRunner
}.

(** [_log] prints one JSON line; the time stamp [at] is left out. *)
Definition _log (event : string) (fields : dict) : M unit :=
  emit (EvLog event fields).

Definition _process_task (self : t) (task : ExecutionTask) : M unit :=
  let seq := 1 in
  _log "task_claimed"
    [("executorId", JStr (executor_id (cfg self)));
     ("taskId", task_id task);
     ("executionRunId", execution_run_id task);
     ("adapterId", adapter_id task)];;
  heartbeat (client self) task seq (Some [("state", JStr "starting")]);;
  let seq := seq + 1 in
  runner ← lift (registry self (adapter_id task));
  result ← run runner task;
  seq ← (if truthy_list (logs result)
         then append_logs (client self) task seq (logs result);; mret (seq + 1)
         else mret seq);
  seq ← (if truthy_opt truthy_list (failure result)
         then update_status (client self) task seq "failed" (failure result) (external result);;
              mret (seq + 1)
         else update_status (client self) task seq "running" None (external result);;
              mret (seq + 1));
  complete (client self) task seq (final_status result)
    (Some (artifacts result)) (Some (measurements result));;
  _log "task_completed"
    [("executorId", JStr (executor_id (cfg self)));
     ("taskId", task_id task);
     ("executionRunId", execution_run_id task);
     ("finalStatus", JStr (final_status result))].

(** The [failure] argument of the recovery report. *)
Definition executor_exception (exc : exn) : dict :=
  [("code", JStr "EXECUTOR_EXCEPTION");
   ("class", JStr "transient");
   ("message", JStr (str_exc exc))].

(** The body of the [for] loop of [run_cycle], from the current count to
    the next. *)
Definition run_cycle_task (self : t) (task : ExecutionTask) (processed : Z) : M Z :=
  try_except
    (_process_task self task;; mret (processed + 1))
    (fun exc =>
       _log "task_error"
         [("executorId", JStr (executor_id (cfg self)));
          ("taskId", task_id task);
          ("executionRunId", execution_run_id task);
          ("error", JStr (str_exc exc))];;
       try_except
         (update_status (client self) task 999999 "failed"
            (Some (executor_exception exc)) None;; mret tt)
         (fun _ => mret tt);;
       mret processed).

Fixpoint run_cycle_loop (self : t) (tasks : list ExecutionTask) (processed : Z) : M Z :=
  match tasks with
  | [] => mret processed
  | task :: rest =>
      processed ← run_cycle_task self task processed;
      run_cycle_loop self rest processed
  end.

Definition run_cycle (self : t) : M Z :=
  tasks ← claim_tasks (client self);
  if negb (truthy_list tasks)
  then _log "idle" [("executorId", JStr (executor_id (cfg self)))];; mret 0
  else run_cycle_loop self tasks 0.

(** [time.sleep(max(100, poll_interval_ms) / 1000.0)], in milliseconds. *)
Definition poll_sleep_ms (c : ExecutorConfig) : Z := Z.max 100 (poll_interval_ms c).

(** [run_forever], unrolled for at most [fuel] turns of the [while True]
    loop: [Some tt] when the [return] was reached, [None] when the loop is
    still going after [fuel] turns. *)
Fixpoint run_forever (os_sleep : Trace -> OsSleep) (fuel : nat) (self : t)
    : M (option unit) :=
  match fuel with
  | O => mret None
  | S fuel' =>
      run_cycle self;;
      if run_once (cfg self) then mret (Some tt)
      else time_sleep os_sleep (poll_sleep_ms (cfg self));; run_forever os_sleep fuel' self
  end.

End ClaimLoop.

(** ** cl_client.py *)

Module CLClient.

(** The network behind [urllib.request.urlopen]. *)
Definition Transport := Trace -> Request -> HttpOutcome.

Record t := {
  cfg : ExecutorConfig;
  net : Transport
}.

Definition urlopen (self : t) (req : Request) : M HttpOutcome := fun tr =>
  let out := net self tr req in (Ok out, tr ++ [EvRequest req out]).

Definition _headers (self : t) : list (string * string) :=
  ("content-type", "application/json") ::
  (if truthy_str (executor_token (cfg self))
   then [("authorization", "Bearer " +:+ executor_token (cfg self))]
   else []).

(** The [urllib.request.Request] that [_post] builds, with the time-out it
    gives to [urlopen]. *)
Definition request (self : t) (path : string) (payload : dict) : Request :=
  let url := api_base_url (cfg self) +:+ path in
  {| req_url := url; req_method := "POST"; req_headers := _headers self;
     req_payload := payload; req_timeout := 30 |}.

Definition _post (self : t) (path : string) (payload : dict) : M json :=
  let req := request self path payload in
  out ← urlopen self req;
  match out with
  | HttpResponse BodyEmpty => mret (JObj [])
  | HttpResponse (BodyJson v) => mret v
  | HttpResponse (BodyMalformed e) => raise e
  | HTTPError status_code detail =>
      raise (Exn RuntimeError ("HTTP " +:+ pretty status_code +:+ " " +:+ path +:+ ": " +:+ detail))
  | HttpFault e => raise e
  end.

(** The [ExecutionTask(...)] expression of [claim_tasks]: the keyword
    arguments are evaluated in the order written. *)
Definition task_of_item (item : json) : Result ExecutionTask :=
  task_id ← subscript item "taskId";
  execution_run_id ← subscript item "executionRunId";
  robot_plan_id ← subscript item "robotPlanId";
  adapter_id ← subscript item "adapterId";
  target_platform ← subscript item "targetPlatform";
  contract_version ← get_default item "contractVersion" (JStr "execution-task/v1");
  runtime_parameters ← get_default item "runtimeParameters" (JObj []);
  artifact_refs ← get_default item "artifactRefs" (JArr []);
  lease_expires_at ← get_default item "leaseExpiresAt" JNull;
  mret {| task_id := task_id; execution_run_id := execution_run_id;
          robot_plan_id := robot_plan_id; adapter_id := adapter_id;
          target_platform := target_platform; contract_version := contract_version;
          runtime_parameters := runtime_parameters; artifact_refs := artifact_refs;
          lease_expires_at := lease_expires_at |}.

(** What [claim_tasks] makes of the decoded response. *)
Definition tasks_of_response (result : json) : Result (list ExecutionTask) :=
  items ← get_default result "tasks" (JArr []);
  items ← iterate items;
  map_result task_of_item items.

Definition json_of_capabilities (caps : option (list string)) : json :=
  match caps with
  | None => JNull
  | Some l => JArr (map JStr l)
  end.

Definition claim_payload (self : t) : dict :=
  [("executorId", JStr (executor_id (cfg self)));
   ("capabilities", json_of_capabilities (capabilities (cfg self)));
   ("maxTasks", JInt (max_tasks (cfg self)));
   ("leaseDurationMs", JInt (lease_duration_ms (cfg self)))].

Definition claim_tasks (self : t) : M (list ExecutionTask) :=
  result ← _post self "/execution-tasks/claim" (claim_payload self);
  lift (tasks_of_response result).

Definition task_path (task : ExecutionTask) (op : string) : string :=
  "/execution-tasks/" +:+ py_str (task_id task) +:+ "/" +:+ op.

(** [**({key: v} if v else {})] *)
Definition optional {A} (key : string) (t : A -> bool) (j : A -> json) (o : option A) : dict :=
  match o with
  | Some a => if t a then [(key, j a)] else []
  | None => []
  end.

Definition heartbeat (self : t) (task : ExecutionTask) (sequence : Z)
    (progress : option dict) : M json :=
  _post self (task_path task "heartbeat")
    ([("executorId", JStr (executor_id (cfg self)));
      ("sequence", JInt sequence);
      ("status", JStr "running")]
     ++ optional "progress" truthy_list JObj progress).

Definition entry_payload (entry : LogEntry) : json :=
  JObj ([("message", JStr (message entry));
         ("level", JStr (level entry))]
        ++ optional "code" truthy_str JStr (code entry)
        ++ optional "data" (fun _ => true) JObj (data entry)
        ++ optional "timestamp" truthy_str JStr (timestamp entry)).

Definition append_logs (self : t) (task : ExecutionTask) (sequence : Z)
    (entries : list LogEntry) : M json :=
  let payload_entries := map entry_payload entries in
  _post self (task_path task "logs")
    [("executorId", JStr (executor_id (cfg self)));
     ("sequence", JInt sequence);
     ("entries", JArr payload_entries)].

Definition update_status (self : t) (task : ExecutionTask) (sequence : Z) (status : string)
    (failure external : option dict) : M json :=
  _post self (task_path task "status")
    ([("executorId", JStr (executor_id (cfg self)));
      ("sequence", JInt sequence);
      ("status", JStr status)]
     ++ optional "failure" truthy_list JObj failure
     ++ optional "external" truthy_list JObj external).

Definition complete (self : t) (task : ExecutionTask) (sequence : Z) (final_status : string)
    (artifacts measurements : option (list json)) : M json :=
  _post self (task_path task "complete")
    ([("executorId", JStr (executor_id (cfg self)));
      ("sequence", JInt sequence);
      ("finalStatus", JStr final_status)]
     ++ optional "artifacts" truthy_list JArr artifacts
     ++ optional "measurements" truthy_list JArr measurements).

(** A [CLClient] as the claim loop's client. *)
Definition as_client (self : t) : Client :=
  Build_Client (claim_tasks self) (heartbeat self) (append_logs self)
    (update_status self) (complete self).

End CLClient.

(** ** pylabrobot_bridge.py *)

Module pylabrobot_bridge.

Definition valid_final_status (s : string) : bool :=
  String.eqb s "completed" || String.eqb s "failed" || String.eqb s "canceled".

(** [str(entry[key]) if key in entry and entry[key] is not None else None] *)
Definition str_field (entry : dict) (key : string) : option string :=
  match dict_get entry key with
  | None | Some JNull => None
  | Some v => Some (py_str v)
  end.

(** [v if isinstance(v, dict) else None], for [v = d.get(key)] *)
Definition dict_field (d : dict) (key : string) : option dict :=
  match dict_get d key with
  | Some (JObj f) => Some f
  | _ => None
  end.

(** [v if isinstance(v, list) else []], for [v = d.get(key, [])] *)
Definition list_field (d : dict) (key : string) : list json :=
  match dict_get d key with
  | Some (JArr l) => l
  | _ => []
  end.

Definition log_of_entry (entry : json) : option LogEntry :=
  match entry with
  | JObj e =>
      Some {| message := py_str (dict_get_default e "message" (JStr EmptyString));
              level := py_str (dict_get_default e "level" (JStr "info"));
              code := str_field e "code";
              data := dict_field e "data";
              timestamp := str_field e "timestamp" |}
  | _ => None
  end.

Definition _coerce_result (payload : dict) : Result RunnerResult :=
  let final_status := py_str (dict_get_default payload "final_status" (JStr "failed")) in
  if negb (valid_final_status final_status)
  then Raise (Exn RuntimeError ("Invalid final_status from hook/command: " +:+ final_status))
  else
    entries ← iterate (dict_get_default payload "logs" (JArr []));
    mret {| final_status := final_status;
            logs := omap log_of_entry entries;
            artifacts := list_field payload "artifacts";
            measurements := list_field payload "measurements";
            failure := dict_field payload "failure";
            external := dict_field payload "external" |}.

(** [run_integra_task]: [hook] is what the import of pylabrobot followed by
    [_run_command] or [_run_hook] gives for the task, a dictionary or an
    exception. *)
Definition run_integra_task (hook : ExecutionTask -> Result dict) (task : ExecutionTask)
    : Result RunnerResult :=
  payload ← hook task;
  _coerce_result payload.

(** [_parse_hook_spec] *)
Definition _parse_hook_spec (spec : string) : Result (string * string) :=
  match split_first ":" spec with
  | None => Raise (Exn ValueError "Hook spec must be in module:function format")
  | Some (module_name, func_name) =>
      let module_name := strip module_name in
      let func_name := strip func_name in
      if negb (truthy_str module_name) || negb (truthy_str func_name)
      then Raise (Exn ValueError "Hook spec must include module and function names")
      else Ok (module_name, func_name)
  end.

(** [_run_hook]: [import_attr module function] is
    [getattr(importlib.import_module(module), function, None)], an exception
    when the import fails and [None] when there is no such attribute or it
    is not callable. *)
Definition _run_hook
    (import_attr : string -> string -> Result (option (dict -> Result json)))
    (spec : string) (task_payload : dict) : Result dict :=
  names ← _parse_hook_spec spec;
  func ← import_attr (fst names) (snd names);
  match func with
  | None => Raise (Exn RuntimeError ("Hook function not found or not callable: " +:+ spec))
  | Some f =>
      result ← f task_payload;
      match result with
      | JObj d => Ok d
      | _ => Raise (Exn RuntimeError "Hook return value must be a dict")
      end
  end.

(** What [subprocess.run] returns. *)
Record CompletedProcess := {
  returncode : Z;
  stdout : string;
  stderr : string
}.

(** [_run_command] once [subprocess.run] has returned [proc]; [json_loads]
    is [json.loads], [None] where it raises [JSONDecodeError]. *)
Definition _run_command (json_loads : string -> option json) (proc : CompletedProcess)
    : Result dict :=
  if negb (returncode proc =? 0)
  then Raise (Exn RuntimeError
                ("Command failed (" +:+ pretty (returncode proc) +:+ "): "
                 +:+ strip (stderr proc)))
  else
    let stdout := strip (stdout proc) in
    if negb (truthy_str stdout) then Raise (Exn RuntimeError "Command returned empty stdout")
    else
      match json_loads stdout with
      | None =>
          Raise (Exn RuntimeError
                   ("Command stdout was not valid JSON: " +:+ take_chars 300 stdout))
      | Some (JObj payload) => Ok payload
      | Some _ => Raise (Exn RuntimeError "Command JSON output must be an object")
      end.

(** [dataclasses.asdict(task)] *)
Definition asdict (task : ExecutionTask) : dict :=
  [("task_id", task_id task);
   ("execution_run_id", execution_run_id task);
   ("robot_plan_id", robot_plan_id task);
   ("adapter_id", adapter_id task);
   ("target_platform", target_platform task);
   ("contract_version", contract_version task);
   ("runtime_parameters", runtime_parameters task);
   ("artifact_refs", artifact_refs task);
   ("lease_expires_at", lease_expires_at task)].

(** The choice that [run_integra_task] makes between the configured
    command, the configured hook and the default hook, after the import of
    pylabrobot. *)
Definition configured_hook (getenv : string -> option string)
    (import_pylabrobot : Result unit)
    (run_command run_hook : string -> dict -> Result dict)
    (task : ExecutionTask) : Result dict :=
  _ ← import_pylabrobot;
  let task_payload := asdict task in
  let command := strip (default EmptyString (getenv "INTEGRA_ASSIST_PYLABROBOT_COMMAND")) in
  let hook := strip (default EmptyString (getenv "INTEGRA_ASSIST_PYLABROBOT_HOOK")) in
  if truthy_str command then run_command command task_payload
  else if truthy_str hook then run_hook hook task_payload
  else run_hook "python_executor_service.pyalab_integra_hook:run_task" task_payload.

(** [builtin_test_hook], at the time [now]. *)
Definition builtin_test_hook (now : string) (task_payload : dict) : dict :=
  let task_id := py_str (dict_get_default task_payload "task_id" (JStr "unknown")) in
  let run_id := py_str (dict_get_default task_payload "execution_run_id" (JStr "unknown")) in
  [("final_status", JStr "completed");
   ("logs", JArr [JObj [("message", JStr ("pylabrobot hook executed for " +:+ task_id));
                        ("level", JStr "info");
                        ("code", JStr "PYLABROBOT_HOOK");
                        ("timestamp", JStr now)]]);
   ("artifacts", JArr [JObj [("role", JStr "telemetry_csv");
                             ("uri", JStr ("records/artifacts/" +:+ run_id
                                           +:+ "/telemetry.csv"))]]);
   ("external", JObj [("runId", JStr ("pylabrobot-" +:+ task_id));
                      ("rawStatus", JStr "completed")])].

End pylabrobot_bridge.

(** ** runners/integra_assist.py *)

Module IntegraAssistRunner.

(** The process environment as [run] reads it: the variables, the outcome
    of [int(os.getenv("INTEGRA_ASSIST_SIM_MS", "300"))], what the operating
    system makes of a sleep, the clock and the configured command or
    hook. *)
Record Env := {
  getenv : string -> option string;
  sim_ms : Result Z;
  os_sleep : OsSleep;
  iso_now : string;
  hook : ExecutionTask -> Result dict
}.

Definition os_getenv (env : Env) (name dflt : string) : string :=
  match getenv env name with
  | Some v => v
  | None => dflt
  end.

Definition run_in (env : Env) (task : ExecutionTask) : Result RunnerResult :=
  let backend :=
    let b := lower (strip (os_getenv env "INTEGRA_ASSIST_BACKEND" "simulate")) in
    if truthy_str b then b else "simulate" in
  force_simulate ←
    (if String.eqb (os_getenv env "INTEGRA_ASSIST_SIMULATE" "1") "1" then Ok true
     else v ← get_default (runtime_parameters task) "simulate" JNull; mret (truthy_json v));
  if String.eqb backend "pylabrobot" && negb force_simulate then
    match pylabrobot_bridge.run_integra_task (hook env) task with
    | Ok r => Ok r
    | Raise exc =>
        Ok {| final_status := "failed";
              logs := [{| message := "pylabrobot execution failed: " +:+ str_exc exc;
                          level := "error";
                          code := Some "PYLABROBOT_EXECUTION_FAILED";
                          data := None;
                          timestamp := Some (iso_now env) |}];
              artifacts := [];
              measurements := [];
              failure := Some [("code", JStr "PYLABROBOT_EXECUTION_FAILED");
                               ("class", JStr "transient");
                               ("message", JStr (str_exc exc))];
              external := None |}
    end
  else
    sleep_ms ← sim_ms env;
    _ ← slept (os_sleep env) (Z.max 0 sleep_ms);
    mret {| final_status := "completed";
            logs := [{| message := "Simulated INTEGRA run for " +:+ py_str (robot_plan_id task);
                        level := "info";
                        code := Some "SIMULATED_RUN";
                        data := Some [("adapter", adapter_id task);
                                      ("taskId", task_id task);
                                      ("backend", JStr backend)];
                        timestamp := Some (iso_now env) |}];
            artifacts := [JObj [("role", JStr "telemetry_csv");
                                ("uri", JStr ("records/artifacts/"
                                              +:+ py_str (execution_run_id task)
                                              +:+ "/telemetry.csv"))]];
            measurements := [];
            failure := None;
            external := Some [("runId", JStr ("sim-" +:+ py_str (task_id task)));
                              ("rawStatus", JStr "completed")] |}.

(** [IntegraAssistRunner.run] as a runner of the registry: the environment
    may change between invocations. *)
Definition run (world : Trace -> Env) : TaskRunner :=
  fun tr task => run_in (world tr) task.

End IntegraAssistRunner.

(** ** config.py: [ExecutorConfig.from_env] *)

Module config.

Definition os_getenv (getenv : string -> option string) (name dflt : string) : string :=
  match getenv name with
  | Some v => v
  | None => dflt
  end.




End config.

(** ** pyalab_integra_hook.py *)

Module pyalab_integra_hook.

(** An element of the parsed XML document: tag, attributes, children. *)
Inductive element :=
| Element (tag : string) (attrib : list (string * string)) (children : list element).

Definition tag_of (el : element) : string :=
  match el with Element tag _ _ => tag end.

Definition children_of (el : element) : list element :=
  match el with Element _ _ children => children end.

(** [el.attrib.get(key, dflt)] *)
Fixpoint attrib_get (attrib : list (string * string)) (key dflt : string) : string :=
  match attrib with
  | [] => dflt
  | (k, v) :: rest => if String.eqb k key then v else attrib_get rest key dflt
  end.

Definition attrib_of (el : element) (key dflt : string) : string :=
  match el with Element _ attrib _ => attrib_get attrib key dflt end.

(** The dictionary [{"id": ..., "role": ..., "orientation": ...}] of one
    slot. *)
Record slot := {
  slot_id : string;
  slot_role : string;
  slot_orientation : string
}.

(** [root.findall("./Deck/Slot")]: the [Slot] children of the [Deck]
    children of the root, in document order. *)
Definition find_slots (root : element) : list element :=
  flat_map
    (fun deck => List.filter (fun el => String.eqb (tag_of el) "Slot") (children_of deck))
    (List.filter (fun el => String.eqb (tag_of el) "Deck") (children_of root)).

Definition slot_of_element (el : element) : option slot :=
  let slot_id := strip (attrib_of el "id" EmptyString) in
  let role := strip (attrib_of el "labwareRole" EmptyString) in
  let orientation := lower (strip (attrib_of el "orientation" "landscape")) in
  if negb (truthy_str slot_id) then None
  else Some {| slot_id := slot_id; slot_role := role; slot_orientation := orientation |}.

(** [_extract_slots]; [parse xml_path] is
    [ET.fromstring(xml_path.read_text(encoding="utf-8"))]: it gives the root
    element, or raises when the file cannot be read ([OSError]), is not
    UTF-8 ([UnicodeDecodeError]) or is not well-formed ([ParseError]). *)
Definition _extract_slots (parse : string -> Result element) (xml_path : string)
    : Result (list slot) :=
  root ← parse xml_path;
  if negb (String.eqb (tag_of root) "VialabProtocol")
  then Raise (Exn ValueError ("Expected VialabProtocol root, got: " +:+ tag_of root))
  else
    let slots := omap slot_of_element (find_slots root) in
    if negb (truthy_list slots)
    then Raise (Exn ValueError ("No deck slots found in " +:+ xml_path))
    else Ok slots.

Definition aliases : list (string * string) :=
  [("SLOT_1", "A"); ("SLOT_2", "B"); ("SLOT_3", "C"); ("SLOT_4", "D");
   ("1", "A"); ("2", "B"); ("3", "C"); ("4", "D")].

Definition is_section (s : string) : bool :=
  String.eqb s "A" || String.eqb s "B" || String.eqb s "C" || String.eqb s "D".

Definition _normalize_section_name (slot_id : string) (slot_map : dict) : Result string :=
  match dict_get_default slot_map slot_id (JStr slot_id) with
  | JStr candidate =>
      let normalized := upper (strip candidate) in
      let normalized := attrib_get aliases normalized normalized in
      if negb (is_section normalized)
      then Raise (Exn ValueError
                    ("Unsupported slot mapping '" +:+ slot_id +:+ "' -> '" +:+ normalized
                     +:+ "'. Expected A/B/C/D"))
      else Ok normalized
  | v => Raise (Exn AttributeError ("'" +:+ type_name v +:+ "' object has no attribute 'strip'"))
  end.

Definition _orientation_to_pyalab (orientation : string) : string :=
  let o := lower (strip orientation) in
  if String.eqb o "portrait" then "A1_SW_CORNER" else "A1_NW_CORNER".

(** [v.strip()] when [v] is a string that is not blank *)
Definition stripped_name (v : option json) : option string :=
  match v with
  | Some (JStr text) => if truthy_str (strip text) then Some (strip text) else None
  | _ => None
  end.

Definition _pick_labware_name (slot_section role : string) (slot_cfg role_cfg : dict)
    : Result string :=
  let section_cfg := dict_get slot_cfg slot_section in
  let from_section :=
    match section_cfg with
    | Some (JObj d) => stripped_name (dict_get d "labware")
    | Some (JStr _) => stripped_name section_cfg
    | _ => None
    end in
  match from_section with
  | Some name => Ok name
  | None =>
      match (if truthy_str role then stripped_name (dict_get role_cfg role) else None) with
      | Some name => Ok name
      | None =>
          Raise (Exn ValueError
                   ("No labware mapping for section '" +:+ slot_section +:+ "' (role='"
                    +:+ role +:+ "'). Provide INTEGRA_ASSIST_PYALAB_SLOT_LAYOUT_JSON and/or "
                    +:+ "INTEGRA_ASSIST_PYALAB_ROLE_MAP_JSON"))
      end
  end.

(** [_load_json_env]; [json_loads] is [json.loads]. *)
Definition _load_json_env (getenv : string -> option string)
    (json_loads : string -> Result json) (name : string) (dflt : dict) : Result dict :=
  let raw := strip (default EmptyString (getenv name)) in
  if negb (truthy_str raw) then Ok dflt
  else
    parsed ← json_loads raw;
    match parsed with
    | JObj d => Ok d
    | _ => Raise (Exn ValueError (name +:+ " must be a JSON object"))
    end.

Definition default_slot_map : dict :=
  [("slot_1", JStr "A"); ("slot_2", JStr "B"); ("slot_3", JStr "C"); ("slot_4", JStr "D")].

(** The classes of pyalab that the hook tries for a labware name. *)
Inductive LabwareClass := Plate | Reservoir | Tubeholder.

Definition class_name (cls : LabwareClass) : string :=
  match cls with
  | Plate => "Plate"
  | Reservoir => "Reservoir"
  | Tubeholder => "Tubeholder"
  end.

(** The inner loop of [_build_program_from_slots]: [load cls name] is
    [cls(name=name, ...).load_xml()], which returns or raises. *)
Fixpoint try_classes (load : LabwareClass -> string -> Result unit) (labware_name : string)
    (classes : list LabwareClass) (errors : list string) : Result LabwareClass :=
  match classes with
  | [] =>
      Raise (Exn RuntimeError
               ("Could not resolve labware '" +:+ labware_name +:+ "' in pyalab library: "
                +:+ String.concat " | " errors))
  | cls :: rest =>
      match load cls labware_name with
      | Ok _ => Ok cls
      | Raise exc =>
          try_classes load labware_name rest
            (errors ++ [class_name cls +:+ ": " +:+ str_exc exc])
      end
  end.

(** What the loop of [_build_program_from_slots] puts on the deck for one
    slot: the section and orientation of the position, and the labware. *)
Record placement := {
  section : string;
  orientation_name : string;
  labware_class : LabwareClass;
  labware_name : string;
  display_name : string
}.

Definition place_slot (load : LabwareClass -> string -> Result unit)
    (slot_map slot_layout role_map : dict) (s : slot) : Result placement :=
  section ← _normalize_section_name (slot_id s) slot_map;
  let orientation_name := _orientation_to_pyalab (slot_orientation s) in
  labware_name ← _pick_labware_name section (slot_role s) slot_layout role_map;
  cls ← try_classes load labware_name [Plate; Reservoir; Tubeholder] [];
  mret {| section := section; orientation_name := orientation_name;
          labware_class := cls; labware_name := labware_name;
          display_name := slot_role s |}.

(** Two placements at the same [DeckPosition]: the same section and the same
    orientation. *)
Definition same_position (q p : placement) : bool :=
  String.eqb (section q) (section p) && String.eqb (orientation_name q) (orientation_name p).

(** [labware_by_position[position] = labware] on a dictionary kept as the
    list of its entries in insertion order: the labware of an entry at the
    same position is replaced where it stands, a new position is added at
    the end. *)
Fixpoint set_position (labware_by_position : list placement) (p : placement)
    : list placement :=
  match labware_by_position with
  | [] => [p]
  | q :: rest => if same_position q p then p :: rest else q :: set_position rest p
  end.

(** The [for slot in slots] loop of [_build_program_from_slots], with the
    three mappings that [_load_json_env] gave, from the current dictionary
    [labware_by_position] to the one after the loop. *)
Fixpoint place_slots (load : LabwareClass -> string -> Result unit)
    (slot_map slot_layout role_map : dict) (slots : list slot)
    (labware_by_position : list placement) : Result (list placement) :=
  match slots with
  | [] => Ok labware_by_position
  | s :: rest =>
      p ← place_slot load slot_map slot_layout role_map s;
      place_slots load slot_map slot_layout role_map rest
        (set_position labware_by_position p)
  end.

(** The loop of [run_task] over [artifact_refs], from the current value of
    [xml_uri] to the value after the loop. *)
Fixpoint find_xml_uri (artifact_refs : list json) (xml_uri : string) : string :=
  match artifact_refs with
  | [] => xml_uri
  | JObj item :: rest =>
      let role := py_str (dict_get_default item "role" (JStr EmptyString)) in
      let uri := py_str (dict_get_default item "uri" (JStr EmptyString)) in
      if String.eqb role "integra_vialab_xml" && truthy_str uri then uri
      else if ends_with ".xml" uri && negb (truthy_str xml_uri) then find_xml_uri rest uri
      else find_xml_uri rest xml_uri
  | _ :: rest => find_xml_uri rest xml_uri
  end.

(** The dictionary that [run_task] returns. *)
Definition result_payload (xml_uri rel_path robot_plan_id execution_run_id : string)
    (slots_mapped : Z) (now : string) : dict :=
  [("final_status", JStr "completed");
   ("logs", JArr [JObj [("message", JStr ("Mapped " +:+ xml_uri
                                          +:+ " to pyalab deck and generated AssistConfig"));
                        ("level", JStr "info");
                        ("code", JStr "PYALAB_DECK_MAPPED");
                        ("data", JObj [("sourceArtifact", JStr xml_uri);
                                       ("mappedArtifact", JStr rel_path);
                                       ("robotPlanId", JStr robot_plan_id);
                                       ("executionRunId", JStr execution_run_id);
                                       ("slotsMapped", JInt slots_mapped)]);
                        ("timestamp", JStr now)]]);
   ("artifacts", JArr [JObj [("role", JStr "integra_assist_config");
                             ("uri", JStr rel_path);
                             ("mimeType", JStr "application/xml")]]);
   ("external", JObj [("runId", JStr ("pyalab-" +:+ execution_run_id));
                      ("rawStatus", JStr "completed")])].

(** The file system, pyalab and the clock as [run_task] uses them:
    [resolve_repo_root] is [_resolve_repo_root()], which gives the path of
    the repository root or raises (a home directory that cannot be found, a
    path that cannot be resolved); [resolve_artifact_path uri repo_root] is
    [_resolve_artifact_path], which gives the path of the artifact or raises
    [FileNotFoundError]; [parse_xml] reads and parses a file;
    [build_and_save slots robot_plan_id repo_root] is
    [_build_program_from_slots] followed by [mkdir] and [save_program],
    giving the path of the saved file relative to the repository root. *)
Record World := {
  resolve_repo_root : Result string;
  resolve_artifact_path : string -> string -> Result string;
  parse_xml : string -> Result element;
  build_and_save : list slot -> string -> string -> Result string;
  iso_now : string
}.

Definition run_task (w : World) (task_payload : dict) : Result dict :=
  repo_root ← resolve_repo_root w;
  match dict_get_default task_payload "artifact_refs" (JArr []) with
  | JArr artifact_refs =>
      let xml_uri := find_xml_uri artifact_refs EmptyString in
      if negb (truthy_str xml_uri)
      then Raise (Exn ValueError "No XML artifact found in task artifact_refs")
      else
        xml_path ← resolve_artifact_path w xml_uri repo_root;
        slots ← _extract_slots (parse_xml w) xml_path;
        let robot_plan_id :=
          py_str (dict_get_default task_payload "robot_plan_id" (JStr "unknown")) in
        let execution_run_id :=
          py_str (dict_get_default task_payload "execution_run_id" (JStr "unknown")) in
        rel_path ← build_and_save w slots robot_plan_id repo_root;
        mret (result_payload xml_uri rel_path robot_plan_id execution_run_id
                (Z.of_nat (length slots)) (iso_now w))
  | _ => Raise (Exn ValueError "task_payload.artifact_refs must be a list")
  end.

End pyalab_integra_hook.

(** ** Reading a trace *)

(** The reporting calls of a trace, in the order they were made. *)
Fixpoint calls_of (tr : Trace) : list Call :=
  match tr with
  | [] => []
  | EvCall c _ :: tr' => c :: calls_of tr'
  | _ :: tr' => calls_of tr'
  end.

Definition call_task (c : Call) : ExecutionTask :=
  match c with
  | Heartbeat t _ _ | AppendLogs t _ _ | UpdateStatus t _ _ _ _ | Complete t _ _ _ _ => t
  end.

Definition call_sequence (c : Call) : Z :=
  match c with
  | Heartbeat _ s _ | AppendLogs _ s _ | UpdateStatus _ s _ _ _ | Complete _ s _ _ _ => s
  end.

Definition is_log (name : string) (ev : Event) : bool :=
  match ev with
  | EvLog event _ => String.eqb event name
  | _ => false
  end.

(** Give the calls of a list the sequence numbers [first], [first + 1], ... *)
Fixpoint numbered (first : Z) (calls : list (Z -> Call)) : list Call :=
  match calls with
  | [] => []
  | mk :: rest => mk first :: numbered (first + 1) rest
  end.

Definition starting : option dict := Some [("state", JStr "starting")].


(** The same, with the test the code makes on the failure field: it counts
    as a failure when it is a non-empty dictionary. *)
Definition success_calls (task : ExecutionTask) (r : RunnerResult) : list Call :=
  numbered 1
    ([fun s => Heartbeat task s starting]
     ++ (match logs r with
         | [] => []
         | _ => [fun s => AppendLogs task s (logs r)]
         end)
     ++ [fun s => match failure r with
                  | Some (kv :: f) => UpdateStatus task s "failed" (Some (kv :: f)) (external r)
                  | _ => UpdateStatus task s "running" None (external r)
                  end]
     ++ [fun s => Complete task s (final_status r)
                    (Some (artifacts r)) (Some (measurements r))]).

(** A claim loop whose client is observed. *)
Definition observed_loop (c : ExecutorConfig) (src : ClaimSource) (srv : Server)
    (registry : json -> Result TaskRunner) : ClaimLoop.t :=
  {| ClaimLoop.cfg := c;
     ClaimLoop.client := observed_client src srv;
     ClaimLoop.registry := registry |}.

(** The [task_claimed] line that opens the processing of a task. *)
Definition claimed_log (c : ExecutorConfig) (task : ExecutionTask) : Event :=
  EvLog "task_claimed"
    [("executorId", JStr (executor_id c));
     ("taskId", task_id task);
     ("executionRunId", execution_run_id task);
     ("adapterId", adapter_id task)].

Definition error_log (c : ExecutorConfig) (task : ExecutionTask) (exc : exn) : Event :=
  EvLog "task_error"
    [("executorId", JStr (executor_id c));
     ("taskId", task_id task);
     ("executionRunId", execution_run_id task);
     ("error", JStr (str_exc exc))].

Definition idle_log (c : ExecutorConfig) : Event :=
  EvLog "idle" [("executorId", JStr (executor_id c))].

(** The recovery report of the exception handler. *)
Definition recovery_call (task : ExecutionTask) (exc : exn) : Call :=
  UpdateStatus task 999999 "failed" (Some (ClaimLoop.executor_exception exc)) None.

(** A stretch of trace took the success path when it has the
    [task_completed] line, the exception path when it has the [task_error]
    line. *)
Definition succeeded (seg : Trace) : bool := existsb (is_log "task_completed") seg.
Definition took_exception_path (seg : Trace) : bool := existsb (is_log "task_error") seg.

(** The events of the processing of a task: lines, reporting calls and the
    runner; no claim and no sleep. *)
Definition task_event (ev : Event) : bool :=
  match ev with
  | EvCall _ _ | EvRun _ _ | EvLog _ _ => true
  | _ => false
  end.

(** What one task leaves in the trace: it opens with the [task_claimed] line
    and the first heartbeat of that task, it is made of task events, every
    reporting call in it is about that task, and it took exactly one of the
    two paths. *)
Definition task_segment (c : ExecutorConfig) (task : ExecutionTask) (seg : Trace) : Prop :=
  (exists out rest,
      seg = claimed_log c task :: EvCall (Heartbeat task 1 starting) out :: rest)
  /\ forallb task_event seg = true
  /\ Forall (fun call => call_task call = task) (calls_of seg)
  /\ took_exception_path seg = negb (succeeded seg).



(** The number of complete calls that the server accepted. *)
Fixpoint accepted_completes (tr : Trace) : nat :=
  match tr with
  | [] => 0
  | EvCall (Complete _ _ _ _ _) (Ok _) :: tr' => S (accepted_completes tr')
  | _ :: tr' => accepted_completes tr'
  end.


Fixpoint last_event (tr : Trace) : option Event :=
  match tr with
  | [] => None
  | [ev] => Some ev
  | _ :: tr' => last_event tr'
  end.






(** What one cycle leaves in the trace: the claim, then task events. *)
Definition is_cycle (cyc : Trace) : Prop :=
  exists claimed rest, cyc = EvClaim claimed :: rest /\ forallb task_event rest = true.

(** Two characters that are the same letter, in either case: equal, or an
    upper-case letter and the lower-case letter 32 code points above it. *)
Definition same_letter (c1 c2 : ascii) : bool :=
  Ascii.eqb c1 c2
  || (is_upper c1 && (N_of_ascii c2 =? N_of_ascii c1 + 32)%N)
  || (is_upper c2 && (N_of_ascii c1 =? N_of_ascii c2 + 32)%N).

(** Two identifiers that differ at most in the case of their letters. *)
Fixpoint same_modulo_case (s1 s2 : string) : bool :=
  match s1, s2 with
  | EmptyString, EmptyString => true
  | String c1 s1', String c2 s2' => same_letter c1 c2 && same_modulo_case s1' s2'
  | _, _ => false
  end.




(** The runner a lookup resolves to, if any. *)
Definition resolved (r : Result TaskRunner) : option TaskRunner :=
  match r with
  | Ok runner => Some runner
  | Raise _ => None
  end.

(** A response to the claim that contains no tasks: an empty body, or an
    object without [tasks] or with an empty [tasks] list. *)
Definition no_tasks (out : HttpOutcome) : Prop :=
  match out with
  | HttpResponse BodyEmpty => True
  | HttpResponse (BodyJson (JObj d)) =>
      dict_get d "tasks" = None \/ dict_get d "tasks" = Some (JArr [])
  | _ => False
  end.

(** The computation makes one request to the network, whatever the
    answer. *)
Definition one_request {A} (self : CLClient.t) (m : M A) : Prop :=
  forall tr, exists req, snd (m tr) = tr ++ [EvRequest req (CLClient.net self tr req)].

Definition required_keys : list string :=
  ["taskId"; "executionRunId"; "robotPlanId"; "adapterId"; "targetPlatform"].

(** The task that the specification describes for a claim item: the
    required fields as the item has them, the optional ones as the item
    has them or, when absent, their default. *)
Definition filled (d : dict) (task : ExecutionTask) : Prop :=
  dict_get d "taskId" = Some (task_id task)
  /\ dict_get d "executionRunId" = Some (execution_run_id task)
  /\ dict_get d "robotPlanId" = Some (robot_plan_id task)
  /\ dict_get d "adapterId" = Some (adapter_id task)
  /\ dict_get d "targetPlatform" = Some (target_platform task)
  /\ contract_version task = default (JStr "execution-task/v1") (dict_get d "contractVersion")
  /\ runtime_parameters task = default (JObj []) (dict_get d "runtimeParameters")
  /\ artifact_refs task = default (JArr []) (dict_get d "artifactRefs")
  /\ lease_expires_at task = default JNull (dict_get d "leaseExpiresAt").

(** A call that is not a complete, or a complete with one of the three
    final statuses. *)
Definition complete_status_valid (call : Call) : bool :=
  match call with
  | Complete _ _ final_status _ _ => pylabrobot_bridge.valid_final_status final_status
  | _ => true
  end.

(** The final status that [_coerce_result] reads from a payload. *)
Definition payload_status (payload : dict) : string :=
  py_str (dict_get_default payload "final_status" (JStr "failed")).

(** ** Concrete inputs

    The task, configuration, client, runner and registry of
    [tests/test_claim_loop.py], and some variations. *)

Module Sample.

Definition task : ExecutionTask :=
  {| task_id := JStr "EXT-000001";
     execution_run_id := JStr "EXR-000001";
     robot_plan_id := JStr "RP-000001";
     adapter_id := JStr "integra_assist";
     target_platform := JStr "integra_assist";
     contract_version := JStr "execution-task/v1";
     runtime_parameters := JObj [("simulate", JBool true)];
     artifact_refs := JArr [];
     lease_expires_at := JNull |}.

(** A task for an adapter that no registry knows. *)
Definition unknown_task : ExecutionTask :=
  {| task_id := JStr "EXT-000002";
     execution_run_id := JStr "EXR-000002";
     robot_plan_id := JStr "RP-000002";
     adapter_id := JStr "x";
     target_platform := JStr "x";
     contract_version := JStr "execution-task/v1";
     runtime_parameters := JObj [];
     artifact_refs := JArr [];
     lease_expires_at := JNull |}.

Definition config : ExecutorConfig :=
  {| api_base_url := "http://localhost:3001/api";
     executor_id := "pyexec-test";
     executor_token := EmptyString;
     capabilities := Some ["integra_assist"];
     max_tasks := 1;
     lease_duration_ms := 60000;
     poll_interval_ms := 10;
     run_once := true |}.

Definition polling_config : ExecutorConfig :=
  {| api_base_url := "http://localhost:3001/api";
     executor_id := "pyexec-test";
     executor_token := EmptyString;
     capabilities := Some ["integra_assist"];
     max_tasks := 1;
     lease_duration_ms := 60000;
     poll_interval_ms := 10;
     run_once := false |}.

(** An operating system that sleeps as long as it is asked. *)
Definition rested : Trace -> OsSleep := fun _ _ => None.

(** A polling configuration whose interval [time.sleep] refuses. *)
Definition slow_polling_config : ExecutorConfig :=
  {| api_base_url := "http://localhost:3001/api";
     executor_id := "pyexec-test";
     executor_token := EmptyString;
     capabilities := Some ["integra_assist"];
     max_tasks := 1;
     lease_duration_ms := 60000;
     poll_interval_ms := 10 ^ 13;
     run_once := false |}.

Definition ack : json := JObj [("success", JBool true); ("accepted", JBool true)].

(** [FakeClient]: every report is accepted. *)
Definition accepting : Server := fun _ _ => Ok ack.

Definition done : RunnerResult :=
  {| final_status := "completed";
     logs := [{| message := "done"; level := "info"; code := None; data := None;
                 timestamp := None |}];
     artifacts := [JObj [("role", JStr "telemetry_csv");
                         ("uri", JStr "records/artifacts/EXR-000001/telemetry.csv")]];
     measurements := [];
     failure := None;
     external := None |}.

(** [FakeRegistry] with a runner that returns [r]. *)
Definition fake_registry (r : RunnerResult) (adapter_id : json) : Result TaskRunner :=
  match adapter_id with
  | JStr "integra_assist" => Ok (fun _ _ => Ok r)
  | v => Raise (Exn KeyError (py_str v))
  end.

(** A failed result whose failure detail is the empty dictionary, as
    [_coerce_result] makes it from the payload
    [{"final_status": "failed", "failure": {}}]. *)
Definition empty_failure : RunnerResult :=
  {| final_status := "failed";
     logs := [];
     artifacts := [];
     measurements := [];
     failure := Some [];
     external := None |}.

(** The result of a runner that invents a final status of its own. *)
Definition aborted : RunnerResult :=
  {| final_status := "aborted";
     logs := [];
     artifacts := [];
     measurements := [];
     failure := None;
     external := None |}.

Definition server_down : exn := Exn URLError "<urlopen error [Errno 111] Connection refused>".

(** One claim item with nothing but the required fields, and one that
    lacks [adapterId]. *)
Definition bare_item : dict :=
  [("taskId", JStr "EXT-000001");
   ("executionRunId", JStr "EXR-000001");
   ("robotPlanId", JStr "RP-000001");
   ("adapterId", JStr "integra_assist");
   ("targetPlatform", JStr "integra_assist")].

Definition short_item : dict :=
  [("taskId", JStr "EXT-000001");
   ("executionRunId", JStr "EXR-000001");
   ("robotPlanId", JStr "RP-000001");
   ("targetPlatform", JStr "integra_assist")].

(** A [CLClient] whose network always gives the same answer. *)
Definition cl_client (out : HttpOutcome) : CLClient.t :=
  {| CLClient.cfg := config; CLClient.net := fun _ _ => out |}.

End Sample.

(** ** Words for the further properties *)

Definition first_char (s : string) : option ascii :=
  match s with
  | EmptyString => None
  | String c _ => Some c
  end.

Fixpoint last_char (s : string) : option ascii :=
  match s with
  | EmptyString => None
  | String c EmptyString => Some c
  | String _ s' => last_char s'
  end.

Definition is_space_opt (o : option ascii) : bool :=
  match o with
  | Some c => is_space c
  | None => false
  end.

(** A text with no white space at either end. *)
Definition trimmed (s : string) : bool :=
  negb (is_space_opt (first_char s)) && negb (is_space_opt (last_char s)).

(** Every attribute value of the element is ASCII text. *)
Definition ascii_attribs (el : pyalab_integra_hook.element) : bool :=
  match el with
  | pyalab_integra_hook.Element _ attrib _ =>
      forallb (fun kv => is_ascii_str (snd kv)) attrib
  end.

(** Every text in the decoded value is ASCII text. *)
Fixpoint ascii_json (v : json) : bool :=
  match v with
  | JStr s => is_ascii_str s
  | JArr items => forallb ascii_json items
  | JObj fields => forallb (fun kv => is_ascii_str (fst kv) && ascii_json (snd kv)) fields
  | _ => true
  end.

(** The three texts of the slot are ASCII text. *)
Definition ascii_slot (s : pyalab_integra_hook.slot) : bool :=
  is_ascii_str (pyalab_integra_hook.slot_id s)
  && is_ascii_str (pyalab_integra_hook.slot_role s)
  && is_ascii_str (pyalab_integra_hook.slot_orientation s).

(** The [DeckPosition] of a placement. *)
Definition position_of (p : pyalab_integra_hook.placement) : string * string :=
  (pyalab_integra_hook.section p, pyalab_integra_hook.orientation_name p).

(** What holds of a placement that reaches pyalab: a section among A, B, C,
    D, one of the two corners, and a labware whose name is not empty, has no
    white space at its ends, and was loaded by the class recorded for it. *)
Definition well_formed (load : pyalab_integra_hook.LabwareClass -> string -> Result unit)
    (p : pyalab_integra_hook.placement) : Prop :=
  In (pyalab_integra_hook.section p) ["A"; "B"; "C"; "D"]
  /\ In (pyalab_integra_hook.orientation_name p) ["A1_SW_CORNER"; "A1_NW_CORNER"]
  /\ pyalab_integra_hook.labware_name p <> EmptyString
  /\ trimmed (pyalab_integra_hook.labware_name p) = true
  /\ is_ok (load (pyalab_integra_hook.labware_class p) (pyalab_integra_hook.labware_name p))
     = true.

(** The spellings that name a deck section, apart from letter case and
    surrounding white space. *)
Definition section_spellings : list (string * string) :=
  [("A", "A"); ("B", "B"); ("C", "C"); ("D", "D");
   ("SLOT_1", "A"); ("SLOT_2", "B"); ("SLOT_3", "C"); ("SLOT_4", "D");
   ("1", "A"); ("2", "B"); ("3", "C"); ("4", "D")].

(** The role and the location of an artifact reference, as [run_task]
    reads them. *)
Definition ref_role (item : dict) : string :=
  py_str (dict_get_default item "role" (JStr EmptyString)).

Definition ref_uri (item : dict) : string :=
  py_str (dict_get_default item "uri" (JStr EmptyString)).

(** A reference that names the XML of the robot plan by its role, and one
    that only looks like XML by its name. *)
Definition is_primary_ref (item : json) : bool :=
  match item with
  | JObj d => String.eqb (ref_role d) "integra_vialab_xml" && truthy_str (ref_uri d)
  | _ => false
  end.

Definition is_fallback_ref (item : json) : bool :=
  match item with
  | JObj d => ends_with ".xml" (ref_uri d)
  | _ => false
  end.

Definition uri_of_ref (item : option json) : string :=
  match item with
  | Some (JObj d) => ref_uri d
  | _ => EmptyString
  end.

(** The choice of the specification of [run_task]'s loop: the first
    reference with the role, else the first that ends in ".xml", else
    nothing. *)
Definition chosen_xml_uri (artifact_refs : list json) : string :=
  match List.find is_primary_ref artifact_refs with
  | Some item => uri_of_ref (Some item)
  | None => uri_of_ref (List.find is_fallback_ref artifact_refs)
  end.

(** The runner is made to simulate: the variable INTEGRA_ASSIST_SIMULATE is
    unset or "1", or the task has a true [simulate] parameter. *)
Definition forced_simulation (env : IntegraAssistRunner.Env) (task : ExecutionTask) : Prop :=
  IntegraAssistRunner.os_getenv env "INTEGRA_ASSIST_SIMULATE" "1" = "1"
  \/ exists d v,
       runtime_parameters task = JObj d
       /\ dict_get d "simulate" = Some v
       /\ truthy_json v = true.

(** The runner goes through the bridge: the backend is pylabrobot,
    simulation is switched off in the environment, and the parameters of
    the task, a mapping, do not ask for it. *)
Definition bridge_mode (env : IntegraAssistRunner.Env) (task : ExecutionTask) : Prop :=
  lower (strip (IntegraAssistRunner.os_getenv env "INTEGRA_ASSIST_BACKEND" "simulate"))
  = "pylabrobot"
  /\ IntegraAssistRunner.os_getenv env "INTEGRA_ASSIST_SIMULATE" "1" <> "1"
  /\ exists d,
       runtime_parameters task = JObj d
       /\ truthy_json (dict_get_default d "simulate" JNull) = false.

(** The failure detail and the log entry that the runner makes of an
    exception of the bridge. *)
Definition bridge_failure_detail (exc : exn) : dict :=
  [("code", JStr "PYLABROBOT_EXECUTION_FAILED");
   ("class", JStr "transient");
   ("message", JStr (str_exc exc))].

Definition bridge_failure_log (now : string) (exc : exn) : LogEntry :=
  {| message := "pylabrobot execution failed: " +:+ str_exc exc;
     level := "error";
     code := Some "PYLABROBOT_EXECUTION_FAILED";
     data := None;
     timestamp := Some now |}.

(** Two environments that differ at most in the configured hook. *)
Definition same_but_hook (env env' : IntegraAssistRunner.Env) : Prop :=
  (forall name, IntegraAssistRunner.getenv env' name = IntegraAssistRunner.getenv env name)
  /\ IntegraAssistRunner.sim_ms env' = IntegraAssistRunner.sim_ms env
  /\ IntegraAssistRunner.os_sleep env' = IntegraAssistRunner.os_sleep env
  /\ IntegraAssistRunner.iso_now env' = IntegraAssistRunner.iso_now env.

(** The number of runner invocations in a stretch of trace, the number of
    complete calls that the server accepted, and whether the first
    reporting call was accepted. *)
Fixpoint runs_of (tr : Trace) : nat :=
  match tr with
  | [] => 0
  | EvRun _ _ :: tr' => S (runs_of tr')
  | _ :: tr' => runs_of tr'
  end.

Fixpoint first_call_accepted (tr : Trace) : bool :=
  match tr with
  | [] => false
  | EvCall _ outcome :: _ => is_ok outcome
  | _ :: tr' => first_call_accepted tr'
  end.

(** The sequence numbers 1, ..., n. *)
Definition first_numbers (n : nat) : list Z := map Z.of_nat (seq 1 n).

(** What the reports of one task look like, whatever happened. On the
    success path they are three or four calls numbered from 1 and the
    server accepted one complete. On the exception path they are one to
    four calls numbered from 1, followed by the recovery report 999999, and
    the server accepted no complete. *)
Definition task_report (seg : Trace) : Prop :=
  let sequences := map call_sequence (calls_of seg) in
  let n := length (calls_of seg) in
  if succeeded seg
  then sequences = first_numbers n /\ (3 <= n <= 4)%nat /\ accepted_completes seg = 1%nat
  else sequences = first_numbers (n - 1) ++ [999999] /\ (2 <= n <= 5)%nat
       /\ accepted_completes seg = 0%nat.

(** The runner was not invoked, or it was invoked once after an accepted
    first heartbeat. *)
Definition task_runs (seg : Trace) : Prop :=
  runs_of seg = 0%nat \/ (runs_of seg = 1%nat /\ first_call_accepted seg = true).

(** ** Any client that reports *)

(** The operation of a client that a call stands for. *)
Definition perform (cl : Client) (call : Call) : M json :=
  match call with
  | Heartbeat task sequence progress => heartbeat cl task sequence progress
  | AppendLogs task sequence entries => append_logs cl task sequence entries
  | UpdateStatus task sequence status failure external =>
      update_status cl task sequence status failure external
  | Complete task sequence final_status artifacts measurements =>
      complete cl task sequence final_status artifacts measurements
  end.

(** A client each of whose reporting operations adds one event to the
    trace, [ev], and has the outcome [srv]. *)
Definition reports_as (cl : Client) (srv : Server) (ev : Trace -> Call -> Event) : Prop :=
  forall call tr, perform cl call tr = (srv tr call, tr ++ [ev tr call]).

(** Lines and runner invocations: the events of a task that are not
    reports. *)
Definition is_local (e : Event) : bool :=
  match e with
  | EvLog _ _ | EvRun _ _ => true
  | _ => false
  end.

(** [grown ev tr tr' calls]: the trace [tr'] is [tr] followed by lines,
    runner invocations and the events of the reporting calls [calls], in
    that order. *)
Inductive grown (ev : Trace -> Call -> Event) (tr : Trace) : Trace -> list Call -> Prop :=
| grown_start : grown ev tr tr []
| grown_call (tr' : Trace) (calls : list Call) (call : Call) :
    grown ev tr tr' calls -> grown ev tr (tr' ++ [ev tr' call]) (calls ++ [call])
| grown_local (tr' : Trace) (calls : list Call) (e : Event) :
    is_local e = true -> grown ev tr tr' calls -> grown ev tr (tr' ++ [e]) calls.

(** The reporting calls of one task: all about that task, two to five of
    them, numbered from 1 without gaps, but for a last one that may be the
    recovery report 999999. *)
Definition task_calls (task : ExecutionTask) (calls : list Call) : Prop :=
  Forall (fun call => call_task call = task) calls
  /\ (2 <= length calls <= 5)%nat
  /\ (map call_sequence calls = first_numbers (length calls)
      \/ map call_sequence calls = first_numbers (length calls - 1) ++ [999999]).

(** What the HTTP client sends for a call: the path and the payload. *)
Definition call_path (call : Call) : string :=
  match call with
  | Heartbeat task _ _ => CLClient.task_path task "heartbeat"
  | AppendLogs task _ _ => CLClient.task_path task "logs"
  | UpdateStatus task _ _ _ _ => CLClient.task_path task "status"
  | Complete task _ _ _ _ => CLClient.task_path task "complete"
  end.

Definition call_payload (self : CLClient.t) (call : Call) : dict :=
  [("executorId", JStr (executor_id (CLClient.cfg self)));
   ("sequence", JInt (call_sequence call))]
  ++ match call with
     | Heartbeat _ _ progress =>
         [("status", JStr "running")]
         ++ CLClient.optional "progress" truthy_list JObj progress
     | AppendLogs _ _ entries => [("entries", JArr (map CLClient.entry_payload entries))]
     | UpdateStatus _ _ status failure external =>
         [("status", JStr status)]
         ++ CLClient.optional "failure" truthy_list JObj failure
         ++ CLClient.optional "external" truthy_list JObj external
     | Complete _ _ final_status artifacts measurements =>
         [("finalStatus", JStr final_status)]
         ++ CLClient.optional "artifacts" truthy_list JArr artifacts
         ++ CLClient.optional "measurements" truthy_list JArr measurements
     end.

Definition call_request (self : CLClient.t) (call : Call) : Request :=
  CLClient.request self (call_path call) (call_payload self call).

(** What [_post] makes of the answer of the network. *)
Definition post_result (path : string) (out : HttpOutcome) : Result json :=
  match out with
  | HttpResponse BodyEmpty => Ok (JObj [])
  | HttpResponse (BodyJson v) => Ok v
  | HttpResponse (BodyMalformed e) => Raise e
  | HTTPError status_code detail =>
      Raise (Exn RuntimeError
               ("HTTP " +:+ pretty status_code +:+ " " +:+ path +:+ ": " +:+ detail))
  | HttpFault e => Raise e
  end.

(** The requests of a trace, in order. *)
Fixpoint requests_of (tr : Trace) : list Request :=
  match tr with
  | [] => []
  | EvRequest req _ :: tr' => req :: requests_of tr'
  | _ :: tr' => requests_of tr'
  end.

(** A claim loop over the HTTP client. *)
Definition http_loop (c : ExecutorConfig) (self : CLClient.t)
    (registry : json -> Result TaskRunner) : ClaimLoop.t :=
  {| ClaimLoop.cfg := c;
     ClaimLoop.client := CLClient.as_client self;
     ClaimLoop.registry := registry |}.

(** A request that reports on a task: a POST with the client's headers and
    time-out to one of the four endpoints of that task, carrying the
    executor's identity. *)
Definition report_request (self : CLClient.t) (task : ExecutionTask) (req : Request) : Prop :=
  req_method req = "POST"
  /\ req_timeout req = 30
  /\ req_headers req = CLClient._headers self
  /\ (exists op,
        In op ["heartbeat"; "logs"; "status"; "complete"]
        /\ req_url req
           = api_base_url (CLClient.cfg self) +:+ "/execution-tasks/"
             +:+ py_str (task_id task) +:+ "/" +:+ op)
  /\ dict_get (req_payload req) "executorId" = Some (JStr (executor_id (CLClient.cfg self))).

(** The sequence number that a request carries. *)
Definition request_sequence (req : Request) : option json :=
  dict_get (req_payload req) "sequence".


(** A log entry as it comes back from its transmitted form: an empty code or
    time stamp is not transmitted. *)
Definition transmitted (entry : LogEntry) : LogEntry :=
  {| message := message entry;
     level := level entry;
     code := match code entry with Some EmptyString => None | o => o end;
     data := data entry;
     timestamp := match timestamp entry with Some EmptyString => None | o => o end |}.

(** The value under which an optional mapping or list is transmitted: none
    when it is absent or empty. *)
Definition sent_dict (o : option dict) : option json :=
  match o with
  | Some (kv :: d) => Some (JObj (kv :: d))
  | _ => None
  end.

Definition sent_list (o : option (list json)) : option json :=
  match o with
  | Some (x :: l) => Some (JArr (x :: l))
  | _ => None
  end.

(** ** Concrete inputs for the further properties

    The document, environment and task of [tests/test_pyalab_hook.py] and
    [tests/test_integra_runner.py], and some variations. *)

Module Lab.

(** The VialabProtocol document of the test, as parsed. *)
Definition protocol : pyalab_integra_hook.element :=
  pyalab_integra_hook.Element "VialabProtocol" [("id", "RP-000001"); ("name", "demo")]
    [pyalab_integra_hook.Element "Deck" []
       [pyalab_integra_hook.Element "Slot"
          [("id", "slot_1"); ("labwareRole", "source"); ("orientation", "landscape")] [];
        pyalab_integra_hook.Element "Slot"
          [("id", "slot_2"); ("labwareRole", "destination"); ("orientation", " Portrait ")]
          []];
     pyalab_integra_hook.Element "Steps" [] []].

Definition portrait_slot : pyalab_integra_hook.element :=
  pyalab_integra_hook.Element "Slot"
    [("id", "slot_2"); ("labwareRole", "destination"); ("orientation", " Portrait ")] [].

Definition slot_layout : dict :=
  [("A", JObj [("labware", JStr "Plate A")]); ("B", JObj [("labware", JStr " Plate B ")])].

(** [_FakeLabware]: every class loads every name. *)
Definition fake_load (cls : pyalab_integra_hook.LabwareClass) (name : string) : Result unit :=
  Ok tt.

Definition xml_uri : string := "records/robot-artifact/integra_assist/RP-000001.xml".

Definition task_payload : dict :=
  [("task_id", JStr "EXT-000001");
   ("execution_run_id", JStr "EXR-000001");
   ("robot_plan_id", JStr "RP-000001");
   ("artifact_refs", JArr [JObj [("role", JStr "integra_vialab_xml");
                                 ("uri", JStr xml_uri)]])].

(** The file system of the test: every artifact is found under the
    repository root and holds the document above. *)
Definition parse (xml_path : string) : Result pyalab_integra_hook.element := Ok protocol.

Definition world : pyalab_integra_hook.World :=
  {| pyalab_integra_hook.resolve_repo_root := Ok "/repo";
     pyalab_integra_hook.resolve_artifact_path := fun uri repo_root =>
       Ok (repo_root +:+ "/" +:+ uri);
     pyalab_integra_hook.parse_xml := parse;
     pyalab_integra_hook.build_and_save := fun _ robot_plan_id _ =>
       Ok ("records/robot-artifact/integra_assist/mapped/" +:+ robot_plan_id
           +:+ ".assistconfig.xml");
     pyalab_integra_hook.iso_now := "2026-01-01T00:00:00+00:00" |}.

(** A world without a home directory: [CL_REPO_ROOT] starts with a tilde
    and [expanduser] raises. *)
Definition homeless_world : pyalab_integra_hook.World :=
  {| pyalab_integra_hook.resolve_repo_root :=
       Raise (Exn RuntimeError "Could not determine home directory.");
     pyalab_integra_hook.resolve_artifact_path := fun uri repo_root =>
       Ok (repo_root +:+ "/" +:+ uri);
     pyalab_integra_hook.parse_xml := parse;
     pyalab_integra_hook.build_and_save := fun _ robot_plan_id _ =>
       Ok ("records/robot-artifact/integra_assist/mapped/" +:+ robot_plan_id
           +:+ ".assistconfig.xml");
     pyalab_integra_hook.iso_now := "2026-01-01T00:00:00+00:00" |}.

(** The task of the runner's tests: no runtime parameters. *)
Definition task : ExecutionTask :=
  {| task_id := JStr "EXT-000001";
     execution_run_id := JStr "EXR-000001";
     robot_plan_id := JStr "RP-000001";
     adapter_id := JStr "integra_assist";
     target_platform := JStr "integra_assist";
     contract_version := JStr "execution-task/v1";
     runtime_parameters := JObj [];
     artifact_refs := JArr [];
     lease_expires_at := JNull |}.

(** The same task as a claim response with "runtimeParameters": null makes
    it. *)
Definition null_parameters_task : ExecutionTask :=
  {| task_id := JStr "EXT-000001";
     execution_run_id := JStr "EXR-000001";
     robot_plan_id := JStr "RP-000001";
     adapter_id := JStr "integra_assist";
     target_platform := JStr "integra_assist";
     contract_version := JStr "execution-task/v1";
     runtime_parameters := JNull;
     artifact_refs := JArr [];
     lease_expires_at := JNull |}.

Definition now : string := "2026-01-01T00:00:00+00:00".

(** The environment of [test_pylabrobot_hook_path], with the hook [h]. *)
Definition bridge_env (h : ExecutionTask -> Result dict) : IntegraAssistRunner.Env :=
  {| IntegraAssistRunner.getenv := fun name =>
       if String.eqb name "INTEGRA_ASSIST_BACKEND" then Some "pylabrobot"
       else if String.eqb name "INTEGRA_ASSIST_SIMULATE" then Some "0"
       else None;
     IntegraAssistRunner.sim_ms := Ok 300;
     IntegraAssistRunner.os_sleep := fun _ => None;
     IntegraAssistRunner.iso_now := now;
     IntegraAssistRunner.hook := h |}.

(** The environment of [test_simulate_default]. *)
Definition simulate_env (h : ExecutionTask -> Result dict) : IntegraAssistRunner.Env :=
  {| IntegraAssistRunner.getenv := fun name =>
       if String.eqb name "INTEGRA_ASSIST_BACKEND" then Some "simulate"
       else if String.eqb name "INTEGRA_ASSIST_SIMULATE" then Some "1"
       else None;
     IntegraAssistRunner.sim_ms := Ok 300;
     IntegraAssistRunner.os_sleep := fun _ => None;
     IntegraAssistRunner.iso_now := now;
     IntegraAssistRunner.hook := h |}.

(** The same with INTEGRA_ASSIST_SIM_MS set to [10 ** 13]. *)
Definition oversleeping_env : IntegraAssistRunner.Env :=
  {| IntegraAssistRunner.getenv := fun name =>
       if String.eqb name "INTEGRA_ASSIST_BACKEND" then Some "simulate"
       else if String.eqb name "INTEGRA_ASSIST_SIMULATE" then Some "1"
       else if String.eqb name "INTEGRA_ASSIST_SIM_MS" then Some "10000000000000"
       else None;
     IntegraAssistRunner.sim_ms := Ok (10 ^ 13);
     IntegraAssistRunner.os_sleep := fun _ => None;
     IntegraAssistRunner.iso_now := now;
     IntegraAssistRunner.hook := fun _ => Ok [] |}.

Definition import_error : exn := Exn (OtherException "ModuleNotFoundError")
                                   "No module named 'pylabrobot'".

Definition failing_hook (t : ExecutionTask) : Result dict := Raise import_error.

Definition builtin_hook (t : ExecutionTask) : Result dict :=
  Ok (pylabrobot_bridge.builtin_test_hook now (pylabrobot_bridge.asdict t)).

End Lab.

(** * Properties *)

Lemma calls_of_app (tr1 tr2 : Trace) : calls_of (tr1 ++ tr2) = calls_of tr1 ++ calls_of tr2.
Proof.
  induction tr1 as [|ev tr1 IH]; simpl; [reflexivity|].
  destruct ev; simpl; rewrite ?IH; reflexivity.
Qed.

Lemma bind_run {A B} (m : M A) (f : A -> M B) (tr : Trace) :
  (m ≫= f) tr =
  match m tr with
  | (Ok a, tr') => f a tr'
  | (Raise e, tr') => (Raise e, tr')
  end.
Proof. reflexivity. Qed.

(** Unfold the operations of the claim loop over an observed client. *)
Ltac unfold_loop :=
  unfold ClaimLoop._process_task, observed_loop, ClaimLoop._log, emit, run, ask, lift; simpl;
  unfold mbind, M_bind, report, ask, mret, M_ret.

(** Split on the outcome of every reporting call in the goal. *)
Ltac split_calls srv :=
  repeat match goal with
    | |- context [srv ?t ?call] => destruct (srv t call)
    end.

(** Close a goal [(res, tr ++ e1 ++ ...) = (res, tr ++ ?events)]. *)
Ltac close_trace := rewrite <- ?app_assoc; simpl; reflexivity.

(** ** The success path *)


Lemma process_task_success_calls (c : ExecutorConfig) (src : ClaimSource) (srv : Server)
    (registry : json -> Result TaskRunner) (task : ExecutionTask)
    (runner : TaskRunner) (r : RunnerResult) (tr : Trace) :
  registry (adapter_id task) = Ok runner ->
  (forall tr', runner tr' task = Ok r) ->
  (forall tr' call, exists ack, srv tr' call = Ok ack) ->
  exists events,
    ClaimLoop._process_task (observed_loop c src srv registry) task tr = (Ok tt, tr ++ events)
    /\ calls_of events = success_calls task r.
Proof.
  intros resolved returned accepted.
  unfold_loop. rewrite resolved, returned. unfold success_calls.
  destruct (logs r) as [|entry entries]; destruct (failure r) as [[|kv f]|]; simpl;
    repeat match goal with
      | |- context [srv ?t ?call] =>
          let a := fresh "ack" in
          let E := fresh "E" in
          destruct (accepted t call) as [a E]; rewrite E; clear E
      end;
    (eexists; split; [close_trace | reflexivity]).
Qed.


(** ** The exception path *)

Lemma executor_exception_fields (exc : exn) :
  dict_get (ClaimLoop.executor_exception exc) "code" = Some (JStr "EXECUTOR_EXCEPTION")
  /\ dict_get (ClaimLoop.executor_exception exc) "class" = Some (JStr "transient")
  /\ dict_get (ClaimLoop.executor_exception exc) "message" = Some (JStr (str_exc exc)).
Proof. repeat split. Qed.

Lemma run_cycle_task_raise (c : ExecutorConfig) (src : ClaimSource) (srv : Server)
    (registry : json -> Result TaskRunner) (task : ExecutionTask) (processed : Z)
    (tr tr1 : Trace) (exc : exn) :
  ClaimLoop._process_task (observed_loop c src srv registry) task tr = (Raise exc, tr1) ->
  ClaimLoop.run_cycle_task (observed_loop c src srv registry) task processed tr
  = (Ok processed,
     tr1 ++ [error_log c task exc;
             EvCall (recovery_call task exc)
               (srv (tr1 ++ [error_log c task exc]) (recovery_call task exc))]).
Proof.
  intros Hraise.
  unfold ClaimLoop.run_cycle_task, try_except. rewrite bind_run, Hraise.
  unfold observed_loop, ClaimLoop._log, emit; simpl.
  unfold mbind, M_bind, report, ask, mret, M_ret, recovery_call, error_log; simpl.
  destruct (srv _ _); rewrite <- app_assoc; reflexivity.
Qed.

Lemma run_cycle_task_return (self : ClaimLoop.t) (task : ExecutionTask) (processed : Z)
    (tr tr1 : Trace) :
  ClaimLoop._process_task self task tr = (Ok tt, tr1) ->
  ClaimLoop.run_cycle_task self task processed tr = (Ok (processed + 1), tr1).
Proof.
  intros Hret. unfold ClaimLoop.run_cycle_task, try_except. rewrite bind_run, Hret.
  reflexivity.
Qed.

(** C2. When the processing of a task raises [exc], having brought the trace
    to [tr1], the loop body adds exactly two events: the [task_error] line
    and one update_status with sequence 999999, status "failed" and the
    failure code EXECUTOR_EXCEPTION of class transient. So no complete and
    no append_logs follows the exception. Whether the recovery report is
    accepted or raises, the body ends normally with the count unchanged. *)
Theorem exception_path_recovery (c : ExecutorConfig) (src : ClaimSource) (srv : Server)
    (registry : json -> Result TaskRunner) (task : ExecutionTask) (processed : Z)
    (tr tr1 : Trace) (exc : exn) :
  ClaimLoop._process_task (observed_loop c src srv registry) task tr = (Raise exc, tr1) ->
  exists after,
    ClaimLoop.run_cycle_task (observed_loop c src srv registry) task processed tr
    = (Ok processed, tr1 ++ after)
    /\ after = [error_log c task exc;
                EvCall (recovery_call task exc) (srv (tr1 ++ [error_log c task exc])
                                                     (recovery_call task exc))]
    /\ calls_of after
       = [UpdateStatus task 999999 "failed" (Some (ClaimLoop.executor_exception exc)) None]
    /\ dict_get (ClaimLoop.executor_exception exc) "code" = Some (JStr "EXECUTOR_EXCEPTION")
    /\ dict_get (ClaimLoop.executor_exception exc) "class" = Some (JStr "transient").
Proof.
  intros Hraise. eexists. split; [|split; [reflexivity|split; [reflexivity|split; reflexivity]]].
  apply run_cycle_task_raise, Hraise.
Qed.

(** The four ways into the exception path that the specification names. *)
Lemma heartbeat_failure_raises (c : ExecutorConfig) (src : ClaimSource) (srv : Server)
    (registry : json -> Result TaskRunner) (task : ExecutionTask) (tr : Trace) (exc : exn) :
  srv (tr ++ [claimed_log c task]) (Heartbeat task 1 starting) = Raise exc ->
  ClaimLoop._process_task (observed_loop c src srv registry) task tr
  = (Raise exc, tr ++ [claimed_log c task; EvCall (Heartbeat task 1 starting) (Raise exc)]).
Proof.
  intros H. unfold_loop. unfold claimed_log, starting in H. rewrite H. close_trace.
Qed.

Lemma lookup_miss_raises (c : ExecutorConfig) (src : ClaimSource) (srv : Server)
    (registry : json -> Result TaskRunner) (task : ExecutionTask) (tr : Trace)
    (ack : json) (exc : exn) :
  srv (tr ++ [claimed_log c task]) (Heartbeat task 1 starting) = Ok ack ->
  registry (adapter_id task) = Raise exc ->
  ClaimLoop._process_task (observed_loop c src srv registry) task tr
  = (Raise exc, tr ++ [claimed_log c task; EvCall (Heartbeat task 1 starting) (Ok ack)]).
Proof.
  intros H Hreg. unfold_loop. unfold claimed_log, starting in H. rewrite H, Hreg. close_trace.
Qed.

Lemma runner_failure_raises (c : ExecutorConfig) (src : ClaimSource) (srv : Server)
    (registry : json -> Result TaskRunner) (task : ExecutionTask) (tr : Trace)
    (ack : json) (runner : TaskRunner) (exc : exn) :
  srv (tr ++ [claimed_log c task]) (Heartbeat task 1 starting) = Ok ack ->
  registry (adapter_id task) = Ok runner ->
  (forall tr', runner tr' task = Raise exc) ->
  ClaimLoop._process_task (observed_loop c src srv registry) task tr
  = (Raise exc, tr ++ [claimed_log c task; EvCall (Heartbeat task 1 starting) (Ok ack);
                       EvRun task (Raise exc)]).
Proof.
  intros H Hreg Hrun. unfold_loop. unfold claimed_log, starting in H.
  rewrite H, Hreg, Hrun. close_trace.
Qed.

(** ** The cycle *)

(** C5. When the claim returns no task, [run_cycle] adds the [idle] line to
    what the claim left in the trace and nothing else, so it makes no
    reporting call, and it returns 0. *)
Theorem idle_cycle (self : ClaimLoop.t) (tr tr' : Trace) :
  claim_tasks (ClaimLoop.client self) tr = (Ok [], tr') ->
  ClaimLoop.run_cycle self tr = (Ok 0, tr' ++ [idle_log (ClaimLoop.cfg self)])
  /\ calls_of (tr' ++ [idle_log (ClaimLoop.cfg self)]) = calls_of tr'.
Proof.
  intros Hclaim. split.
  - unfold ClaimLoop.run_cycle. rewrite bind_run, Hclaim. reflexivity.
  - rewrite calls_of_app. simpl. apply app_nil_r.
Qed.

(** C9. When the claim raises, [run_cycle] raises the same exception and
    the trace is as the claim left it: no task is processed, no report and
    no recovery report is made, no line is printed, no count is returned. *)
Theorem claim_failure_propagates (self : ClaimLoop.t) (tr tr' : Trace) (exc : exn) :
  claim_tasks (ClaimLoop.client self) tr = (Raise exc, tr') ->
  ClaimLoop.run_cycle self tr = (Raise exc, tr').
Proof.
  intros Hclaim. unfold ClaimLoop.run_cycle. rewrite bind_run, Hclaim. reflexivity.
Qed.

(** Whatever happens, [_process_task] leaves a stretch of trace that opens
    with the claimed line and the first heartbeat, reports on its own task
    only, prints no [task_error] line, and has the [task_completed] line
    exactly when it returns normally. *)
Lemma process_task_segment (c : ExecutorConfig) (src : ClaimSource) (srv : Server)
    (registry : json -> Result TaskRunner) (task : ExecutionTask) (tr : Trace) :
  exists res seg,
    ClaimLoop._process_task (observed_loop c src srv registry) task tr = (res, tr ++ seg)
    /\ (exists out rest,
          seg = claimed_log c task :: EvCall (Heartbeat task 1 starting) out :: rest)
    /\ forallb task_event seg = true
    /\ Forall (fun call => call_task call = task) (calls_of seg)
    /\ took_exception_path seg = false
    /\ succeeded seg = is_ok res.
Proof.
  unfold_loop.
  destruct (srv _ (Heartbeat _ _ _)) as [ack|e] eqn:Hhb.
  2:{ do 2 eexists. split; [close_trace|]. split; [do 2 eexists; reflexivity|].
      split; [reflexivity|]. split; [repeat constructor | split; reflexivity]. }
  destruct (registry (adapter_id task)) as [runner|e].
  2:{ do 2 eexists. split; [close_trace|]. split; [do 2 eexists; reflexivity|].
      split; [reflexivity|]. split; [repeat constructor | split; reflexivity]. }
  destruct (runner _ task) as [r|e].
  2:{ do 2 eexists. split; [close_trace|]. split; [do 2 eexists; reflexivity|].
      split; [reflexivity|]. split; [repeat constructor | split; reflexivity]. }
  destruct (logs r) as [|entry entries]; destruct (failure r) as [[|kv f]|]; simpl;
    split_calls srv;
    (do 2 eexists; split; [close_trace|]; split; [do 2 eexists; reflexivity|];
     split; [reflexivity|]; split; [repeat constructor | split; reflexivity]).
Qed.

Lemma run_cycle_task_segment (c : ExecutorConfig) (src : ClaimSource) (srv : Server)
    (registry : json -> Result TaskRunner) (task : ExecutionTask) (processed : Z)
    (tr : Trace) :
  exists seg,
    ClaimLoop.run_cycle_task (observed_loop c src srv registry) task processed tr
    = (Ok (if succeeded seg then processed + 1 else processed), tr ++ seg)
    /\ task_segment c task seg.
Proof.
  destruct (process_task_segment c src srv registry task tr)
    as (res & seg & Hrun & Hopen & Hevents & Hcalls & Hnoerr & Hdone).
  destruct res as [[]|exc]; simpl in Hdone.
  - exists seg. rewrite Hdone. split; [apply run_cycle_task_return, Hrun|].
    split; [exact Hopen|]. split; [exact Hevents|]. split; [exact Hcalls|].
    rewrite Hnoerr, Hdone. reflexivity.
  - eexists. rewrite (run_cycle_task_raise _ _ _ _ _ _ _ _ _ Hrun), <- app_assoc.
    split.
    + f_equal. unfold succeeded. rewrite existsb_app.
      fold (succeeded seg). rewrite Hdone. reflexivity.
    + split; [|split; [|split]].
      * destruct Hopen as (out & rest & ->). do 2 eexists. reflexivity.
      * rewrite forallb_app, Hevents. reflexivity.
      * rewrite calls_of_app. apply Forall_app. split; [exact Hcalls|].
        repeat constructor.
      * unfold took_exception_path, succeeded. rewrite !existsb_app.
        fold (succeeded seg). rewrite Hdone. simpl. apply orb_true_r.
Qed.

(** The count after the loop: one more for each stretch on the success
    path. *)
Definition count_succeeded (segs : list Trace) : Z :=
  Z.of_nat (length (List.filter succeeded segs)).

Lemma run_cycle_loop_segments (c : ExecutorConfig) (src : ClaimSource) (srv : Server)
    (registry : json -> Result TaskRunner) (tasks : list ExecutionTask) :
  forall (processed : Z) (tr : Trace),
  exists segs,
    ClaimLoop.run_cycle_loop (observed_loop c src srv registry) tasks processed tr
    = (Ok (processed + count_succeeded segs), tr ++ concat segs)
    /\ Forall2 (task_segment c) tasks segs.
Proof.
  induction tasks as [|task rest IH]; intros processed tr.
  - exists []. simpl. unfold count_succeeded. simpl.
    rewrite Z.add_0_r, app_nil_r. split; [reflexivity|constructor].
  - destruct (run_cycle_task_segment c src srv registry task processed tr)
      as (seg & Hseg & Htask).
    destruct (IH (if succeeded seg then processed + 1 else processed) (tr ++ seg))
      as (segs & Hrest & Hall).
    exists (seg :: segs). split; [|constructor; assumption].
    cbn [ClaimLoop.run_cycle_loop]. rewrite bind_run, Hseg, Hrest.
    f_equal; [f_equal|simpl; rewrite app_assoc; reflexivity].
    unfold count_succeeded. simpl. destruct (succeeded seg); simpl length; lia.
Qed.


Lemma last_event_succeeded (seg : Trace) (ev : Event) :
  last_event seg = Some ev -> is_log "task_completed" ev = true -> succeeded seg = true.
Proof.
  intros Hlast Hlog. induction seg as [|e seg IH]; [discriminate|].
  unfold succeeded in *. simpl. destruct seg as [|e' seg].
  - injection Hlast as ->. rewrite Hlog. reflexivity.
  - rewrite (IH Hlast). apply orb_true_r.
Qed.




(** ** The polling loop *)

Lemma segments_task_events (c : ExecutorConfig) (tasks : list ExecutionTask)
    (segs : list Trace) :
  Forall2 (task_segment c) tasks segs -> forallb task_event (concat segs) = true.
Proof.
  induction 1 as [|task seg tasks segs Hseg _ IH]; [reflexivity|].
  destruct Hseg as (_ & Hevents & _). simpl. rewrite forallb_app, Hevents, IH. reflexivity.
Qed.

(** A cycle over an observed client leaves the claim followed by task
    events, and it raises only when the claim raised. *)
Lemma run_cycle_is_cycle (c : ExecutorConfig) (src : ClaimSource) (srv : Server)
    (registry : json -> Result TaskRunner) (tr : Trace) :
  exists res cyc,
    ClaimLoop.run_cycle (observed_loop c src srv registry) tr = (res, tr ++ cyc)
    /\ is_cycle cyc
    /\ (forall exc, res = Raise exc -> cyc = [EvClaim (Raise exc)]).
Proof.
  unfold ClaimLoop.run_cycle. rewrite bind_run.
  change (claim_tasks (ClaimLoop.client (observed_loop c src srv registry)))
    with (ask src EvClaim).
  unfold ask. destruct (src tr) as [[|task rest]|exc].
  - exists (Ok 0), [EvClaim (Ok []); idle_log c].
    split; [cbn [negb truthy_list]; rewrite bind_run; unfold ClaimLoop._log, emit; simpl;
            rewrite <- app_assoc; reflexivity|].
    split; [do 2 eexists; split; reflexivity | discriminate].
  - change (negb (truthy_list (task :: rest))) with false. cbv iota.
    destruct (run_cycle_loop_segments c src srv registry (task :: rest) 0
                (tr ++ [EvClaim (Ok (task :: rest))])) as (segs & Hloop & Hall).
    rewrite Hloop, <- app_assoc. do 2 eexists. split; [reflexivity|].
    split; [|discriminate].
    do 2 eexists. split; [reflexivity|]. eapply segments_task_events, Hall.
  - do 2 eexists. split; [reflexivity|].
    split; [do 2 eexists; split; reflexivity|]. intros exc' [= ->]. reflexivity.
Qed.

Lemma sleep_error_small (ms : Z) : ms < sleep_limit_ms -> sleep_error ms = None.
Proof.
  intros Hsmall. unfold sleep_error.
  destruct (Z.ltb_spec ms sleep_limit_ms); [reflexivity|lia].
Qed.

Lemma sleep_error_large (ms : Z) :
  sleep_limit_ms <= ms ->
  exists exc, sleep_error ms = Some exc /\ exc_class exc = OverflowError.
Proof.
  intros Hlarge. unfold sleep_error.
  destruct (Z.ltb_spec ms sleep_limit_ms); [lia|].
  destruct (ms <? float_limit); eexists; split; reflexivity.
Qed.

Lemma slept_small (os_sleep : OsSleep) (ms : Z) :
  ms < sleep_limit_ms -> os_sleep ms = None -> slept os_sleep ms = Ok tt.
Proof.
  intros Hsmall Hos. unfold slept. rewrite sleep_error_small, Hos by exact Hsmall.
  reflexivity.
Qed.

Lemma slept_refused (os_sleep : OsSleep) (ms : Z) (exc : exn) :
  ms < sleep_limit_ms -> os_sleep ms = Some exc -> slept os_sleep ms = Raise exc.
Proof.
  intros Hsmall Hos. unfold slept. rewrite sleep_error_small, Hos by exact Hsmall.
  reflexivity.
Qed.

Lemma slept_large (os_sleep : OsSleep) (ms : Z) :
  sleep_limit_ms <= ms ->
  exists exc, slept os_sleep ms = Raise exc /\ exc_class exc = OverflowError.
Proof.
  intros Hlarge. destruct (sleep_error_large ms Hlarge) as (exc & Herr & Hclass).
  exists exc. unfold slept. rewrite Herr. split; [reflexivity|exact Hclass].
Qed.

Lemma run_forever_step (os_sleep : Trace -> OsSleep) (self : ClaimLoop.t) (fuel : nat)
    (tr : Trace) :
  ClaimLoop.run_forever os_sleep (S fuel) self tr =
  match ClaimLoop.run_cycle self tr with
  | (Ok _, tr') =>
      if run_once (ClaimLoop.cfg self) then (Ok (Some tt), tr')
      else
        let ms := Z.max 100 (poll_interval_ms (ClaimLoop.cfg self)) in
        match sleep_error ms with
        | Some exc => (Raise exc, tr')
        | None =>
            match os_sleep tr' ms with
            | Some exc => (Raise exc, tr')
            | None => ClaimLoop.run_forever os_sleep fuel self (tr' ++ [EvSleep ms])
            end
        end
  | (Raise exc, tr') => (Raise exc, tr')
  end.
Proof.
  cbn [ClaimLoop.run_forever]. rewrite bind_run.
  destruct (ClaimLoop.run_cycle self tr) as [[n|exc] tr']; [|reflexivity].
  destruct (run_once (ClaimLoop.cfg self)); [reflexivity|].
  rewrite bind_run. unfold time_sleep, ClaimLoop.poll_sleep_ms. cbv zeta.
  destruct (sleep_error (Z.max 100 (poll_interval_ms (ClaimLoop.cfg self)))); [reflexivity|].
  destruct (os_sleep tr' _); reflexivity.
Qed.

(** C8, amended. With [run_once] set, [run_forever] runs one cycle and
    stops: the trace is that of the one cycle (a single claim, no sleep),
    and it returns as soon as the cycle returned. With [run_once] unset it
    never returns. When [time.sleep] accepts [max(100, poll_interval_ms)]
    milliseconds - the interval is below 9223372036855 and the operating
    system does not refuse it - after [fuel] turns of the loop either every
    cycle so far returned and the trace is [fuel] cycles, each followed by
    one sleep of that length, or a claim raised and the trace is the
    completed cycles, each followed by that sleep, and then the claim that
    raised. From 9223372036855 milliseconds on, the loop ends with the first
    cycle: the trace is that one cycle, no sleep, and [run_forever] raises
    what the claim raised or else the [OverflowError] of [time.sleep]; and
    so it does, with the exception of the operating system, when that
    refuses the first sleep. *)
Theorem run_forever_cycles (os_sleep : Trace -> OsSleep) (c : ExecutorConfig)
    (src : ClaimSource) (srv : Server) (registry : json -> Result TaskRunner)
    (fuel : nat) (tr : Trace) :
  (run_once c = true ->
   exists res cyc,
     ClaimLoop.run_cycle (observed_loop c src srv registry) tr = (res, tr ++ cyc)
     /\ is_cycle cyc
     /\ ClaimLoop.run_forever os_sleep (S fuel) (observed_loop c src srv registry) tr
        = (match res with Ok _ => Ok (Some tt) | Raise exc => Raise exc end, tr ++ cyc))
  /\
  (run_once c = false -> poll_interval_ms c < sleep_limit_ms ->
   (forall tr', os_sleep tr' (Z.max 100 (poll_interval_ms c)) = None) ->
   exists res cycles tail,
     ClaimLoop.run_forever os_sleep fuel (observed_loop c src srv registry) tr
     = (res,
        tr ++ concat (map (fun cyc => cyc ++ [EvSleep (Z.max 100 (poll_interval_ms c))]) cycles)
           ++ tail)
     /\ Forall is_cycle cycles
     /\ match res with
        | Ok None => tail = [] /\ length cycles = fuel
        | Ok (Some _) => False
        | Raise exc => tail = [EvClaim (Raise exc)]
        end)
  /\
  (run_once c = false -> sleep_limit_ms <= poll_interval_ms c ->
   exists overflow res cyc,
     exc_class overflow = OverflowError
     /\ ClaimLoop.run_cycle (observed_loop c src srv registry) tr = (res, tr ++ cyc)
     /\ is_cycle cyc
     /\ ClaimLoop.run_forever os_sleep (S fuel) (observed_loop c src srv registry) tr
        = (Raise (match res with Ok _ => overflow | Raise exc => exc end), tr ++ cyc))
  /\
  (run_once c = false -> poll_interval_ms c < sleep_limit_ms ->
   exists res cyc,
     ClaimLoop.run_cycle (observed_loop c src srv registry) tr = (res, tr ++ cyc)
     /\ is_cycle cyc
     /\ forall refused,
         os_sleep (tr ++ cyc) (Z.max 100 (poll_interval_ms c)) = Some refused ->
         ClaimLoop.run_forever os_sleep (S fuel) (observed_loop c src srv registry) tr
         = (Raise (match res with Ok _ => refused | Raise exc => exc end), tr ++ cyc)).
Proof.
  split; [|split; [|split]].
  - intros Honce.
    destruct (run_cycle_is_cycle c src srv registry tr) as (res & cyc & Hcyc & Hshape & _).
    exists res, cyc. split; [exact Hcyc|]. split; [exact Hshape|].
    rewrite run_forever_step, Hcyc. simpl. rewrite Honce. destruct res; reflexivity.
  - intros Honce Hsmall Hos.
    assert (sleep_error (Z.max 100 (poll_interval_ms c)) = None) as Hsleep
      by (apply sleep_error_small; unfold sleep_limit_ms in *; lia).
    revert tr. induction fuel as [|fuel IH]; intros tr.
    + exists (Ok None), [], []. simpl. rewrite app_nil_r.
      split; [reflexivity|]. split; [constructor|]. split; reflexivity.
    + destruct (run_cycle_is_cycle c src srv registry tr) as (res & cyc & Hcyc & Hshape & Hexc).
      rewrite run_forever_step, Hcyc. simpl. rewrite Honce, Hsleep, Hos.
      destruct res as [n|exc].
      * destruct (IH ((tr ++ cyc) ++ [EvSleep (Z.max 100 (poll_interval_ms c))]))
          as (res & cycles & tail & Hrun & Hall & Hres).
        exists res, (cyc :: cycles), tail. rewrite Hrun. split.
        { f_equal. simpl. rewrite <- !app_assoc. reflexivity. }
        split; [constructor; assumption|].
        destruct res as [[[]|]|exc]; [exact Hres| |exact Hres].
        destruct Hres as [-> <-]. split; reflexivity.
      * exists (Raise exc), [], cyc. simpl. split; [reflexivity|].
        split; [constructor|]. apply Hexc. reflexivity.
  - intros Honce Hlarge.
    destruct (sleep_error_large (Z.max 100 (poll_interval_ms c))) as (overflow & Hsleep & Hclass);
      [unfold sleep_limit_ms in *; lia|].
    destruct (run_cycle_is_cycle c src srv registry tr) as (res & cyc & Hcyc & Hshape & _).
    exists overflow, res, cyc. split; [exact Hclass|]. split; [exact Hcyc|].
    split; [exact Hshape|].
    rewrite run_forever_step, Hcyc. simpl. rewrite Honce, Hsleep.
    destruct res; reflexivity.
  - intros Honce Hsmall.
    assert (sleep_error (Z.max 100 (poll_interval_ms c)) = None) as Hsleep
      by (apply sleep_error_small; unfold sleep_limit_ms in *; lia).
    destruct (run_cycle_is_cycle c src srv registry tr) as (res & cyc & Hcyc & Hshape & _).
    exists res, cyc. split; [exact Hcyc|]. split; [exact Hshape|].
    intros refused Hos.
    rewrite run_forever_step, Hcyc. simpl. rewrite Honce, Hsleep.
    destruct res; [rewrite Hos|]; reflexivity.
Qed.

(** ** The registry *)

Lemma is_space_lower_char (ch : ascii) : is_space (lower_char ch) = is_space ch.
Proof. destruct ch as [[] [] [] [] [] [] [] []]; reflexivity. Qed.

Lemma lower_lstrip (s : string) : lower (lstrip s) = lstrip (lower s).
Proof.
  induction s as [|ch s IH]; [reflexivity|].
  simpl. rewrite is_space_lower_char. destruct (is_space ch); [exact IH|reflexivity].
Qed.

Lemma lower_rstrip (s : string) : lower (rstrip s) = rstrip (lower s).
Proof.
  induction s as [|ch s IH]; [reflexivity|].
  simpl. rewrite <- IH, is_space_lower_char.
  destruct (rstrip s); simpl; [destruct (is_space ch)|]; reflexivity.
Qed.

Lemma lower_strip (s : string) : lower (strip s) = strip (lower s).
Proof. unfold strip. rewrite lower_rstrip, lower_lstrip. reflexivity. Qed.

Lemma upper_plus_32 (c1 c2 : ascii) :
  is_upper c1 = true -> (N_of_ascii c2 = N_of_ascii c1 + 32)%N ->
  lower_char c1 = lower_char c2.
Proof.
  intros Hup Heq. unfold lower_char at 1. rewrite Hup, <- Heq, ascii_N_embedding.
  unfold lower_char, is_upper. unfold is_upper in Hup.
  destruct (andb_prop _ _ Hup) as [Hlo _]. apply N.leb_le in Hlo.
  replace (N_of_ascii c2 <=? 90)%N with false; [rewrite andb_false_r; reflexivity|].
  symmetry. apply N.leb_gt. lia.
Qed.

Lemma same_letter_lower (c1 c2 : ascii) :
  same_letter c1 c2 = true -> lower_char c1 = lower_char c2.
Proof.
  unfold same_letter. intros H.
  apply orb_prop in H as [H|H]; [apply orb_prop in H as [H|H]|].
  - apply Ascii.eqb_eq in H. congruence.
  - apply andb_prop in H as [Hup H]. apply N.eqb_eq in H. apply upper_plus_32; assumption.
  - apply andb_prop in H as [Hup H]. apply N.eqb_eq in H.
    symmetry. apply upper_plus_32; assumption.
Qed.

Lemma same_modulo_case_lower (s1 : string) :
  forall s2, same_modulo_case s1 s2 = true -> lower s1 = lower s2.
Proof.
  induction s1 as [|c1 s1 IH]; intros [|c2 s2] H; simpl in H; try discriminate.
  - reflexivity.
  - apply andb_prop in H as [Hc Hs]. simpl.
    rewrite (same_letter_lower _ _ Hc), (IH _ Hs). reflexivity.
Qed.




(** ** The client *)

Lemma post_run (self : CLClient.t) (path : string) (payload : dict) (tr : Trace) :
  CLClient._post self path payload tr =
  let req := CLClient.request self path payload in
  (match CLClient.net self tr req with
   | HttpResponse BodyEmpty => Ok (JObj [])
   | HttpResponse (BodyJson v) => Ok v
   | HttpResponse (BodyMalformed e) => Raise e
   | HTTPError status_code detail =>
       Raise (Exn RuntimeError
                ("HTTP " +:+ pretty status_code +:+ " " +:+ path +:+ ": " +:+ detail))
   | HttpFault e => Raise e
   end,
   tr ++ [EvRequest req (CLClient.net self tr req)]).
Proof.
  unfold CLClient._post, CLClient.urlopen. rewrite bind_run. simpl.
  destruct (CLClient.net self tr _) as [[| |]| |]; reflexivity.
Qed.

Lemma post_one_request (self : CLClient.t) (path : string) (payload : dict) :
  one_request self (CLClient._post self path payload).
Proof.
  intros tr. exists (CLClient.request self path payload). rewrite post_run. reflexivity.
Qed.

Lemma claim_tasks_run (self : CLClient.t) (tr : Trace) :
  CLClient.claim_tasks self tr =
  let req := CLClient.request self "/execution-tasks/claim" (CLClient.claim_payload self) in
  (match CLClient.net self tr req with
   | HttpResponse BodyEmpty => CLClient.tasks_of_response (JObj [])
   | HttpResponse (BodyJson v) => CLClient.tasks_of_response v
   | HttpResponse (BodyMalformed e) => Raise e
   | HTTPError status_code detail =>
       Raise (Exn RuntimeError
                ("HTTP " +:+ pretty status_code +:+ " /execution-tasks/claim: " +:+ detail))
   | HttpFault e => Raise e
   end,
   tr ++ [EvRequest req (CLClient.net self tr req)]).
Proof.
  unfold CLClient.claim_tasks. rewrite bind_run, post_run. simpl.
  destruct (CLClient.net self tr _) as [[| |]| |]; reflexivity.
Qed.

(** C7. [claim_tasks] returns the empty list when the response has no
    tasks; on an [HTTPError] it raises an error whose text carries the
    status code and the response body; and each of the five operations
    makes exactly one request, whatever the answer: nothing is retried. *)
Theorem claim_tasks_transport (self : CLClient.t) (tr : Trace) :
  let req := CLClient.request self "/execution-tasks/claim" (CLClient.claim_payload self) in
  (no_tasks (CLClient.net self tr req) ->
   CLClient.claim_tasks self tr = (Ok [], tr ++ [EvRequest req (CLClient.net self tr req)]))
  /\ (forall status_code detail,
        CLClient.net self tr req = HTTPError status_code detail ->
        CLClient.claim_tasks self tr
        = (Raise (Exn RuntimeError
                    ("HTTP " +:+ pretty status_code +:+ " /execution-tasks/claim: " +:+ detail)),
           tr ++ [EvRequest req (HTTPError status_code detail)]))
  /\ one_request self (CLClient.claim_tasks self)
  /\ (forall task sequence progress,
        one_request self (CLClient.heartbeat self task sequence progress))
  /\ (forall task sequence entries,
        one_request self (CLClient.append_logs self task sequence entries))
  /\ (forall task sequence status failure external,
        one_request self (CLClient.update_status self task sequence status failure external))
  /\ (forall task sequence final_status artifacts measurements,
        one_request self
          (CLClient.complete self task sequence final_status artifacts measurements)).
Proof.
  intros req. split; [|split; [|split]].
  - intros Hnone. rewrite claim_tasks_run. cbv zeta. fold req. unfold no_tasks in Hnone.
    destruct (CLClient.net self tr req) as [[|[]|]| |]; try contradiction; [reflexivity|].
    unfold CLClient.tasks_of_response, get_default, dict_get_default.
    destruct Hnone as [-> | ->]; reflexivity.
  - intros status_code detail Herr. rewrite claim_tasks_run. cbv zeta. fold req. rewrite Herr.
    reflexivity.
  - intros tr'. eexists. rewrite claim_tasks_run. reflexivity.
  - repeat split; intros; apply post_one_request.
Qed.

Lemma map_result_raise {A B} (f : A -> Result B) (l : list A) (a : A) (exc : exn) :
  In a l -> f a = Raise exc -> exists exc', map_result f l = Raise exc'.
Proof.
  induction l as [|a' l IH]; intros Hin Hraise; [contradiction|].
  simpl. destruct Hin as [-> | Hin].
  - rewrite Hraise. eauto.
  - destruct (f a'); [|eauto].
    destruct (IH Hin Hraise) as (exc' & ->). eauto.
Qed.

Lemma task_of_item_filled (d : dict) :
  (forall k, In k required_keys -> dict_get d k <> None) ->
  exists task, CLClient.task_of_item (JObj d) = Ok task /\ filled d task.
Proof.
  intros Hreq. unfold CLClient.task_of_item, subscript, get_default, dict_get_default, filled.
  destruct (dict_get d "taskId") eqn:H1; [|exfalso; apply (Hreq "taskId"); simpl; tauto].
  destruct (dict_get d "executionRunId") eqn:H2;
    [|exfalso; apply (Hreq "executionRunId"); simpl; tauto].
  destruct (dict_get d "robotPlanId") eqn:H3;
    [|exfalso; apply (Hreq "robotPlanId"); simpl; tauto].
  destruct (dict_get d "adapterId") eqn:H4;
    [|exfalso; apply (Hreq "adapterId"); simpl; tauto].
  destruct (dict_get d "targetPlatform") eqn:H5;
    [|exfalso; apply (Hreq "targetPlatform"); simpl; tauto].
  eexists. split; [reflexivity|]. simpl.
  repeat split; destruct (dict_get d _); reflexivity.
Qed.

Lemma task_of_item_missing (d : dict) (k : string) :
  In k required_keys -> dict_get d k = None ->
  exists k', CLClient.task_of_item (JObj d) = Raise (Exn KeyError k')
             /\ In k' required_keys /\ dict_get d k' = None.
Proof.
  intros Hin Hnone. unfold CLClient.task_of_item, subscript.
  destruct (dict_get d "taskId") eqn:H1;
    [|exists "taskId"; split; [reflexivity|split; [simpl; tauto|assumption]]].
  destruct (dict_get d "executionRunId") eqn:H2;
    [|exists "executionRunId"; split; [reflexivity|split; [simpl; tauto|assumption]]].
  destruct (dict_get d "robotPlanId") eqn:H3;
    [|exists "robotPlanId"; split; [reflexivity|split; [simpl; tauto|assumption]]].
  destruct (dict_get d "adapterId") eqn:H4;
    [|exists "adapterId"; split; [reflexivity|split; [simpl; tauto|assumption]]].
  destruct (dict_get d "targetPlatform") eqn:H5;
    [|exists "targetPlatform"; split; [reflexivity|split; [simpl; tauto|assumption]]].
  exfalso. simpl in Hin.
  destruct Hin as [<-|[<-|[<-|[<-|[<-|[]]]]]]; congruence.
Qed.

(** C10. Let the claim response be an object whose [tasks] is a list. When
    every item is an object that has the five required fields,
    [claim_tasks] returns one task per item, in order, with the required
    fields as given and each optional field as given or, when absent, its
    default: "execution-task/v1", the empty mapping, the empty list, None.
    When some item is an object that lacks one of the required fields,
    [claim_tasks] raises. *)
Theorem claim_item_fields (self : CLClient.t) (tr : Trace) (resp : dict) (items : list json) :
  let req := CLClient.request self "/execution-tasks/claim" (CLClient.claim_payload self) in
  CLClient.net self tr req = HttpResponse (BodyJson (JObj resp)) ->
  dict_get resp "tasks" = Some (JArr items) ->
  (forall ds,
     items = map JObj ds ->
     Forall (fun d => forall k, In k required_keys -> dict_get d k <> None) ds ->
     exists tasks,
       CLClient.claim_tasks self tr
       = (Ok tasks, tr ++ [EvRequest req (HttpResponse (BodyJson (JObj resp)))])
       /\ Forall2 filled ds tasks)
  /\ (forall d k,
        In (JObj d) items -> In k required_keys -> dict_get d k = None ->
        exists exc,
          CLClient.claim_tasks self tr
          = (Raise exc, tr ++ [EvRequest req (HttpResponse (BodyJson (JObj resp)))])).
Proof.
  intros req Hnet Htasks.
  assert (CLClient.claim_tasks self tr
          = (map_result CLClient.task_of_item items,
             tr ++ [EvRequest req (HttpResponse (BodyJson (JObj resp)))])) as Hrun.
  { rewrite claim_tasks_run. cbv zeta. fold req. rewrite Hnet.
    unfold CLClient.tasks_of_response, get_default, dict_get_default. rewrite Htasks.
    reflexivity. }
  rewrite Hrun. split.
  - intros ds -> Hall. clear Hrun Htasks.
    induction Hall as [|d ds Hd _ (tasks & Hmap & Hfilled)].
    + exists []. split; [reflexivity|constructor].
    + destruct (task_of_item_filled d Hd) as (task & Htask & Hfill).
      injection Hmap as Hmap. exists (task :: tasks). split; [|constructor; assumption].
      cbn [map map_result]. rewrite Htask, Hmap. reflexivity.
  - intros d k Hin Hk Hnone.
    destruct (task_of_item_missing d k Hk Hnone) as (k' & Hraise & _).
    destruct (map_result_raise _ _ _ _ Hin Hraise) as (exc & ->). eauto.
Qed.

(** ** The final status *)

Lemma coerce_result_valid (payload : dict) (r : RunnerResult) :
  pylabrobot_bridge._coerce_result payload = Ok r ->
  pylabrobot_bridge.valid_final_status (final_status r) = true.
Proof.
  unfold pylabrobot_bridge._coerce_result.
  destruct (pylabrobot_bridge.valid_final_status _) eqn:Hvalid; simpl; [|discriminate].
  destruct (iterate _); simpl; [|discriminate].
  intros [= <-]. exact Hvalid.
Qed.

Lemma coerce_result_rejects (payload : dict) :
  pylabrobot_bridge.valid_final_status (payload_status payload) = false ->
  pylabrobot_bridge._coerce_result payload
  = Raise (Exn RuntimeError
             ("Invalid final_status from hook/command: " +:+ payload_status payload)).
Proof.
  intros Hvalid. unfold pylabrobot_bridge._coerce_result. fold (payload_status payload).
  rewrite Hvalid. reflexivity.
Qed.

Lemma integra_run_valid (env : IntegraAssistRunner.Env) (task : ExecutionTask)
    (r : RunnerResult) :
  IntegraAssistRunner.run_in env task = Ok r ->
  pylabrobot_bridge.valid_final_status (final_status r) = true.
Proof.
  unfold IntegraAssistRunner.run_in.
  destruct (if String.eqb _ "1" then _ else _) as [force|exc]; simpl; [|discriminate].
  destruct (String.eqb _ "pylabrobot" && negb force).
  - unfold pylabrobot_bridge.run_integra_task.
    destruct (IntegraAssistRunner.hook env task) as [payload|exc]; simpl.
    + destruct (pylabrobot_bridge._coerce_result payload) as [r'|exc] eqn:Hcoerce.
      * intros [= <-]. eapply coerce_result_valid, Hcoerce.
      * intros [= <-]. reflexivity.
    + intros [= <-]. reflexivity.
  - destruct (IntegraAssistRunner.sim_ms env) as [ms|]; simpl; [|discriminate].
    destruct (slept _ (Z.max 0 ms)); simpl; [|discriminate].
    intros [= <-]. reflexivity.
Qed.

Lemma default_registry_runner (integra runner : TaskRunner) (adapter : json) :
  RunnerRegistry.get (RunnerRegistry.init integra) adapter = Ok runner -> runner = integra.
Proof.
  unfold RunnerRegistry.get, RunnerRegistry.init.
  destruct adapter; try discriminate.
  destruct (_ !! _) as [runner'|] eqn:Hlookup; [|discriminate].
  intros [= <-]. apply lookup_singleton_Some in Hlookup as [_ <-]. reflexivity.
Qed.

(** Over a registry whose runners return one of the three final statuses
    for the task, every complete carries one of them. *)
Lemma process_task_complete_valid (c : ExecutorConfig) (src : ClaimSource) (srv : Server)
    (registry : json -> Result TaskRunner) (task : ExecutionTask) (tr : Trace) :
  (forall runner tr' r,
     registry (adapter_id task) = Ok runner -> runner tr' task = Ok r ->
     pylabrobot_bridge.valid_final_status (final_status r) = true) ->
  exists res seg,
    ClaimLoop._process_task (observed_loop c src srv registry) task tr = (res, tr ++ seg)
    /\ forallb complete_status_valid (calls_of seg) = true.
Proof.
  intros Hvalid. unfold_loop.
  destruct (srv _ (Heartbeat _ _ _)) as [ack|e].
  2:{ do 2 eexists. split; [close_trace|reflexivity]. }
  destruct (registry (adapter_id task)) as [runner|e] eqn:Hreg.
  2:{ do 2 eexists. split; [close_trace|reflexivity]. }
  destruct (runner _ task) as [r|e] eqn:Hrun.
  2:{ do 2 eexists. split; [close_trace|reflexivity]. }
  pose proof (Hvalid _ _ _ eq_refl Hrun) as Hr.
  destruct (logs r) as [|entry entries]; destruct (failure r) as [[|kv f]|]; simpl;
    split_calls srv;
    (do 2 eexists; split; [close_trace|simpl; rewrite ?Hr; reflexivity]).
Qed.

(** C4, amended. The check of the final status is made by the bridge and
    not by the claim loop. [_coerce_result] raises for a payload whose final
    status is not "completed", "failed" or "canceled", and every result it
    returns has one of the three; so has every result of
    [IntegraAssistRunner]; hence under the registry of the package every
    complete that [_process_task] issues carries one of the three. The
    claim loop itself passes the final status of the runner's result to
    complete as it is. *)
Theorem final_status_checked_by_bridge :
  (forall payload,
     pylabrobot_bridge.valid_final_status (payload_status payload) = false ->
     pylabrobot_bridge._coerce_result payload
     = Raise (Exn RuntimeError
                ("Invalid final_status from hook/command: " +:+ payload_status payload)))
  /\ (forall payload r,
        pylabrobot_bridge._coerce_result payload = Ok r ->
        pylabrobot_bridge.valid_final_status (final_status r) = true)
  /\ (forall env task r,
        IntegraAssistRunner.run_in env task = Ok r ->
        pylabrobot_bridge.valid_final_status (final_status r) = true)
  /\ (forall c src srv world task tr,
        exists res seg,
          ClaimLoop._process_task
            (observed_loop c src srv
               (RunnerRegistry.get (RunnerRegistry.init (IntegraAssistRunner.run world))))
            task tr
          = (res, tr ++ seg)
          /\ forallb complete_status_valid (calls_of seg) = true)
  /\ (forall c src srv registry task runner r tr,
        registry (adapter_id task) = Ok runner ->
        (forall tr', runner tr' task = Ok r) ->
        (forall tr' call, exists ack, srv tr' call = Ok ack) ->
        exists events,
          ClaimLoop._process_task (observed_loop c src srv registry) task tr
          = (Ok tt, tr ++ events)
          /\ In (Complete task (Z.of_nat (length (calls_of events))) (final_status r)
                   (Some (artifacts r)) (Some (measurements r)))
                (calls_of events)).
Proof.
  split; [exact coerce_result_rejects|]. split; [exact coerce_result_valid|].
  split; [exact integra_run_valid|]. split.
  - intros c src srv world task tr. apply process_task_complete_valid.
    intros runner tr' r Hreg Hrun. apply default_registry_runner in Hreg. subst runner.
    eapply integra_run_valid, Hrun.
  - intros c src srv registry task runner r tr Hreg Hrun Hsrv.
    destruct (process_task_success_calls c src srv registry task runner r tr Hreg Hrun Hsrv)
      as (events & Hevents & Hcalls).
    exists events. split; [exact Hevents|]. rewrite Hcalls. unfold success_calls.
    destruct (logs r); destruct (failure r) as [[|kv f]|]; simpl; tauto.
Qed.

(** * The properties at the concrete inputs *)


(** The bridge makes a result with an empty failure detail. *)
Lemma coerce_empty_failure :
  pylabrobot_bridge._coerce_result [("final_status", JStr "failed"); ("failure", JObj [])]
  = Ok Sample.empty_failure.
Proof. reflexivity. Qed.


(** A registry miss: the heartbeat, then the recovery report. *)
Lemma exception_path_recovery_sample :
  let loop := observed_loop Sample.config (fun _ => Ok [Sample.unknown_task]) Sample.accepting
                (Sample.fake_registry Sample.done) in
  let exc := Exn KeyError "x" in
  let tr1 := [claimed_log Sample.config Sample.unknown_task;
              EvCall (Heartbeat Sample.unknown_task 1 starting) (Ok Sample.ack)] in
  ClaimLoop._process_task loop Sample.unknown_task [] = (Raise exc, tr1)
  /\ exists after,
      ClaimLoop.run_cycle_task loop Sample.unknown_task 0 [] = (Ok 0, tr1 ++ after)
      /\ after = [error_log Sample.config Sample.unknown_task exc;
                  EvCall (recovery_call Sample.unknown_task exc)
                    (Sample.accepting (tr1 ++ [error_log Sample.config Sample.unknown_task exc])
                       (recovery_call Sample.unknown_task exc))]
      /\ calls_of after
         = [UpdateStatus Sample.unknown_task 999999 "failed"
              (Some (ClaimLoop.executor_exception exc)) None]
      /\ dict_get (ClaimLoop.executor_exception exc) "code" = Some (JStr "EXECUTOR_EXCEPTION")
      /\ dict_get (ClaimLoop.executor_exception exc) "class" = Some (JStr "transient").
Proof.
  intros loop exc tr1. split; [reflexivity|].
  apply (exception_path_recovery Sample.config (fun _ => Ok [Sample.unknown_task])
           Sample.accepting (Sample.fake_registry Sample.done) Sample.unknown_task 0 [] tr1 exc).
  reflexivity.
Defined.

(** A complete that the server refuses: the calls made before stay as they
    are, and the recovery report follows. *)
Lemma complete_failure_sample :
  let refusing : Server := fun _ call =>
    match call with
    | Complete _ _ _ _ _ => Raise (Exn RuntimeError "HTTP 409 /execution-tasks/EXT-000001/complete: late")
    | _ => Ok Sample.ack
    end in
  let '(res, tr) :=
    ClaimLoop.run_cycle
      (observed_loop Sample.config (fun _ => Ok [Sample.task]) refusing
         (Sample.fake_registry Sample.done)) [] in
  res = Ok 0
  /\ map (fun call => (call_sequence call, is_ok (refusing [] call))) (calls_of tr)
     = [(1, true); (2, true); (3, true); (4, false); (999999, true)].
Proof. split; reflexivity. Qed.


Lemma two_tasks_count :
  fst (ClaimLoop.run_cycle
         (observed_loop Sample.config (fun _ => Ok [Sample.unknown_task; Sample.task])
            Sample.accepting (Sample.fake_registry Sample.done)) [])
  = Ok 1.
Proof. reflexivity. Qed.

(** C4 as the specification states it fails for a runner of another
    registry: its final status "aborted" is passed to complete. *)
Lemma unchecked_status_reaches_complete :
  pylabrobot_bridge.valid_final_status (final_status Sample.aborted) = false
  /\ exists events,
      ClaimLoop._process_task
        (observed_loop Sample.config (fun _ => Ok [Sample.task]) Sample.accepting
           (Sample.fake_registry Sample.aborted))
        Sample.task []
      = (Ok tt, events)
      /\ calls_of events
         = [Heartbeat Sample.task 1 starting;
            UpdateStatus Sample.task 2 "running" None None;
            Complete Sample.task 3 "aborted" (Some []) (Some [])]
      /\ forallb complete_status_valid (calls_of events) = false.
Proof.
  split; [reflexivity|]. eexists. split; [lazy; reflexivity|]. split; reflexivity.
Qed.

Lemma idle_cycle_sample :
  let loop := observed_loop Sample.config (fun _ => Ok []) Sample.accepting
                (Sample.fake_registry Sample.done) in
  claim_tasks (ClaimLoop.client loop) [] = (Ok [], [EvClaim (Ok [])])
  /\ ClaimLoop.run_cycle loop [] = (Ok 0, [EvClaim (Ok [])] ++ [idle_log Sample.config])
  /\ calls_of ([EvClaim (Ok [])] ++ [idle_log Sample.config]) = calls_of [EvClaim (Ok [])].
Proof.
  intros loop. split; [reflexivity|].
  apply (idle_cycle loop [] [EvClaim (Ok [])]). reflexivity.
Defined.

Lemma claim_failure_propagates_sample :
  let loop := observed_loop Sample.config (fun _ => Raise Sample.server_down) Sample.accepting
                (Sample.fake_registry Sample.done) in
  claim_tasks (ClaimLoop.client loop) [] = (Raise Sample.server_down, [EvClaim (Raise Sample.server_down)])
  /\ ClaimLoop.run_cycle loop [] = (Raise Sample.server_down, [EvClaim (Raise Sample.server_down)]).
Proof.
  intros loop. split; [reflexivity|].
  apply (claim_failure_propagates loop [] [EvClaim (Raise Sample.server_down)] Sample.server_down).
  reflexivity.
Defined.



Lemma registry_lookup_cases :
  let runners := RunnerRegistry.init (fun _ _ => Ok Sample.done) in
  same_modulo_case " Integra_Assist " " INTEGRA_ASSIST " = true
  /\ is_ok (RunnerRegistry.get runners (JStr " Integra_Assist ")) = true
  /\ is_ok (RunnerRegistry.get runners (JStr " INTEGRA_ASSIST ")) = true
  /\ RunnerRegistry.get runners (JStr "x")
     = Raise (Exn KeyError "No runner registered for adapter: x").
Proof. repeat split. Qed.

Lemma claim_tasks_transport_sample :
  let self := Sample.cl_client (HttpResponse (BodyJson (JObj [("tasks", JArr [])]))) in
  let req := CLClient.request self "/execution-tasks/claim" (CLClient.claim_payload self) in
  no_tasks (CLClient.net self [] req)
  /\ CLClient.claim_tasks self [] = (Ok [], [] ++ [EvRequest req (CLClient.net self [] req)]).
Proof.
  intros self req. split; [right; reflexivity|].
  apply (proj1 (claim_tasks_transport self [])). right. reflexivity.
Defined.

Lemma claim_tasks_http_error_sample :
  CLClient.claim_tasks (Sample.cl_client (HTTPError 503 "busy")) []
  = (Raise (Exn RuntimeError "HTTP 503 /execution-tasks/claim: busy"),
     [EvRequest
        {| req_url := "http://localhost:3001/api/execution-tasks/claim";
           req_method := "POST";
           req_headers := [("content-type", "application/json")];
           req_payload := [("executorId", JStr "pyexec-test");
                           ("capabilities", JArr [JStr "integra_assist"]);
                           ("maxTasks", JInt 1);
                           ("leaseDurationMs", JInt 60000)];
           req_timeout := 30 |}
        (HTTPError 503 "busy")]).
Proof. reflexivity. Qed.

Lemma run_forever_cycles_sample :
  (exists res cyc,
     ClaimLoop.run_cycle
       (observed_loop Sample.config (fun _ => Ok [Sample.task]) Sample.accepting
          (Sample.fake_registry Sample.done)) []
     = (res, [] ++ cyc)
     /\ is_cycle cyc
     /\ ClaimLoop.run_forever Sample.rested 1
          (observed_loop Sample.config (fun _ => Ok [Sample.task]) Sample.accepting
             (Sample.fake_registry Sample.done)) []
        = (match res with Ok _ => Ok (Some tt) | Raise exc => Raise exc end, [] ++ cyc))
  /\
  (exists res cycles tail,
     ClaimLoop.run_forever Sample.rested 3
       (observed_loop Sample.polling_config (fun _ => Ok [Sample.task]) Sample.accepting
          (Sample.fake_registry Sample.done)) []
     = (res, [] ++ concat (map (fun cyc => cyc ++ [EvSleep (Z.max 100 10)]) cycles) ++ tail)
     /\ Forall is_cycle cycles
     /\ match res with
        | Ok None => tail = [] /\ length cycles = 3%nat
        | Ok (Some _) => False
        | Raise exc => tail = [EvClaim (Raise exc)]
        end)
  /\
  (exists overflow res cyc,
     exc_class overflow = OverflowError
     /\ ClaimLoop.run_cycle
          (observed_loop Sample.slow_polling_config (fun _ => Ok [Sample.task]) Sample.accepting
             (Sample.fake_registry Sample.done)) []
        = (res, [] ++ cyc)
     /\ is_cycle cyc
     /\ ClaimLoop.run_forever Sample.rested 3
          (observed_loop Sample.slow_polling_config (fun _ => Ok [Sample.task])
             Sample.accepting (Sample.fake_registry Sample.done)) []
        = (Raise (match res with Ok _ => overflow | Raise exc => exc end), [] ++ cyc)).
Proof.
  split; [|split].
  - apply (proj1 (run_forever_cycles Sample.rested Sample.config (fun _ => Ok [Sample.task])
                    Sample.accepting (Sample.fake_registry Sample.done) 0 [])).
    reflexivity.
  - apply (proj1 (proj2 (run_forever_cycles Sample.rested Sample.polling_config
                           (fun _ => Ok [Sample.task]) Sample.accepting
                           (Sample.fake_registry Sample.done) 3 []))).
    + reflexivity.
    + reflexivity.
    + reflexivity.
  - apply (proj1 (proj2 (proj2 (run_forever_cycles Sample.rested Sample.slow_polling_config
                                  (fun _ => Ok [Sample.task]) Sample.accepting
                                  (Sample.fake_registry Sample.done) 2 [])))).
    + reflexivity.
    + vm_compute. discriminate.
Defined.

(** With a poll interval of [10 ** 13] milliseconds and [run_once] unset,
    [run_forever] does not suspend after the first cycle and runs no second
    one, even on an operating system that would sleep as long as it is
    asked: [time.sleep] raises [OverflowError], and the trace is the one
    idle cycle. *)
Lemma oversized_poll_interval_not_slept :
  run_once Sample.slow_polling_config = false
  /\ ClaimLoop.run_forever Sample.rested 3
       (observed_loop Sample.slow_polling_config (fun _ => Ok []) Sample.accepting
          (Sample.fake_registry Sample.done)) []
     = (Raise (Exn OverflowError "timestamp too large to convert to C _PyTime_t"),
        [EvClaim (Ok []); idle_log Sample.slow_polling_config]).
Proof. split; reflexivity. Qed.

Lemma run_forever_sleeps_sample :
  map (fun ev => match ev with EvSleep ms => ms | _ => 0 end)
    (List.filter (fun ev => match ev with EvSleep _ => true | _ => false end)
       (snd (ClaimLoop.run_forever Sample.rested 3
               (observed_loop Sample.polling_config (fun _ => Ok []) Sample.accepting
                  (Sample.fake_registry Sample.done)) [])))
  = [100; 100; 100].
Proof. reflexivity. Qed.

Lemma claim_item_fields_sample :
  let resp := [("tasks", JArr [JObj Sample.bare_item])] in
  let self := Sample.cl_client (HttpResponse (BodyJson (JObj resp))) in
  let req := CLClient.request self "/execution-tasks/claim" (CLClient.claim_payload self) in
  exists tasks,
    CLClient.claim_tasks self []
    = (Ok tasks, [] ++ [EvRequest req (HttpResponse (BodyJson (JObj resp)))])
    /\ Forall2 filled [Sample.bare_item] tasks.
Proof.
  intros resp self req.
  apply (proj1 (claim_item_fields self [] resp [JObj Sample.bare_item] eq_refl eq_refl)
           [Sample.bare_item] eq_refl).
  constructor; [|constructor].
  intros k Hk. simpl in Hk.
  destruct Hk as [<-|[<-|[<-|[<-|[<-|[]]]]]]; discriminate.
Defined.

Lemma bare_item_task :
  CLClient.task_of_item (JObj Sample.bare_item)
  = Ok {| task_id := JStr "EXT-000001";
          execution_run_id := JStr "EXR-000001";
          robot_plan_id := JStr "RP-000001";
          adapter_id := JStr "integra_assist";
          target_platform := JStr "integra_assist";
          contract_version := JStr "execution-task/v1";
          runtime_parameters := JObj [];
          artifact_refs := JArr [];
          lease_expires_at := JNull |}.
Proof. reflexivity. Qed.

Lemma short_item_fails :
  fst (CLClient.claim_tasks
         (Sample.cl_client
            (HttpResponse (BodyJson (JObj [("tasks", JArr [JObj Sample.bare_item;
                                                            JObj Sample.short_item])]))))
         [])
  = Raise (Exn KeyError "adapterId").
Proof. reflexivity. Qed.

Lemma final_status_checked_by_bridge_sample :
  pylabrobot_bridge._coerce_result [("final_status", JStr "aborted")]
  = Raise (Exn RuntimeError "Invalid final_status from hook/command: aborted").
Proof.
  apply (proj1 final_status_checked_by_bridge [("final_status", JStr "aborted")]).
  reflexivity.
Defined.


(** * Further properties of the code *)

(** ** Strings *)

Lemma rstrip_cons_kept (c : ascii) (s : string) :
  is_space c = false -> rstrip (String c s) = String c (rstrip s).
Proof. intros H. simpl. rewrite H. destruct (rstrip s); reflexivity. Qed.

Lemma lstrip_first (s : string) : is_space_opt (first_char (lstrip s)) = false.
Proof.
  induction s as [|c s IH]; [reflexivity|].
  simpl. destruct (is_space c) eqn:Hc; [exact IH|]. simpl. exact Hc.
Qed.

Lemma rstrip_first (s : string) :
  is_space_opt (first_char s) = false -> is_space_opt (first_char (rstrip s)) = false.
Proof.
  destruct s as [|c s]; [reflexivity|]. simpl. intros Hc.
  rewrite Hc. destruct (rstrip s); simpl; exact Hc.
Qed.

Lemma rstrip_last (s : string) : is_space_opt (last_char (rstrip s)) = false.
Proof.
  induction s as [|c s IH]; [reflexivity|].
  simpl. destruct (rstrip s) as [|c' r] eqn:Hr.
  - destruct (is_space c) eqn:Hc; simpl; [reflexivity|exact Hc].
  - simpl in *. exact IH.
Qed.

Lemma strip_trimmed (s : string) : trimmed (strip s) = true.
Proof.
  unfold trimmed, strip.
  rewrite (rstrip_first _ (lstrip_first s)), rstrip_last. reflexivity.
Qed.

Lemma lstrip_fixed (s : string) : is_space_opt (first_char s) = false -> lstrip s = s.
Proof. destruct s as [|c s]; [reflexivity|]. simpl. intros ->. reflexivity. Qed.

Lemma rstrip_fixed (s : string) : is_space_opt (last_char s) = false -> rstrip s = s.
Proof.
  induction s as [|c s IH]; [reflexivity|].
  intros Hlast. destruct s as [|c' s].
  - simpl in *. rewrite Hlast. reflexivity.
  - change (last_char (String c (String c' s))) with (last_char (String c' s)) in Hlast.
    specialize (IH Hlast).
    change (rstrip (String c (String c' s)))
      with (match rstrip (String c' s) with
            | EmptyString => if is_space c then EmptyString else String c EmptyString
            | r => String c r
            end).
    rewrite IH. reflexivity.
Qed.

Lemma strip_fixed (s : string) : trimmed s = true -> strip s = s.
Proof.
  unfold trimmed. intros H. apply andb_prop in H as [Hf Hl].
  apply negb_true_iff in Hf, Hl.
  unfold strip. rewrite (lstrip_fixed _ Hf). apply rstrip_fixed, Hl.
Qed.

Lemma strip_idempotent (s : string) : strip (strip s) = strip s.
Proof. apply strip_fixed, strip_trimmed. Qed.

Lemma truthy_str_nonempty (s : string) : truthy_str s = true <-> s <> EmptyString.
Proof. destruct s; simpl; split; congruence. Qed.

Lemma is_space_upper_char (ch : ascii) : is_space (upper_char ch) = is_space ch.
Proof. destruct ch as [[] [] [] [] [] [] [] []]; reflexivity. Qed.

Lemma upper_lstrip (s : string) : upper (lstrip s) = lstrip (upper s).
Proof.
  induction s as [|ch s IH]; [reflexivity|].
  simpl. rewrite is_space_upper_char. destruct (is_space ch); [exact IH|reflexivity].
Qed.

Lemma upper_rstrip (s : string) : upper (rstrip s) = rstrip (upper s).
Proof.
  induction s as [|ch s IH]; [reflexivity|].
  simpl. rewrite <- IH, is_space_upper_char.
  destruct (rstrip s); simpl; [destruct (is_space ch)|]; reflexivity.
Qed.

Lemma upper_strip (s : string) : upper (strip s) = strip (upper s).
Proof. unfold strip. rewrite upper_rstrip, upper_lstrip. reflexivity. Qed.

Lemma upper_of_pair (c1 c2 : ascii) :
  is_upper c1 = true -> (N_of_ascii c2 = N_of_ascii c1 + 32)%N ->
  upper_char c1 = upper_char c2.
Proof.
  intros Hup Heq. unfold is_upper in Hup.
  apply andb_prop in Hup as [Hlo Hhi]. apply N.leb_le in Hlo, Hhi.
  unfold upper_char, is_lower. rewrite Heq.
  replace ((97 <=? N_of_ascii c1)%N) with false by (symmetry; apply N.leb_gt; lia).
  replace ((97 <=? N_of_ascii c1 + 32)%N) with true by (symmetry; apply N.leb_le; lia).
  replace ((N_of_ascii c1 + 32 <=? 122)%N) with true by (symmetry; apply N.leb_le; lia).
  simpl. replace (N_of_ascii c1 + 32 - 32)%N with (N_of_ascii c1) by lia.
  rewrite ascii_N_embedding. reflexivity.
Qed.

Lemma same_letter_upper (c1 c2 : ascii) :
  same_letter c1 c2 = true -> upper_char c1 = upper_char c2.
Proof.
  unfold same_letter. intros H.
  apply orb_prop in H as [H|H]; [apply orb_prop in H as [H|H]|].
  - apply Ascii.eqb_eq in H. congruence.
  - apply andb_prop in H as [Hup H]. apply N.eqb_eq in H. apply upper_of_pair; assumption.
  - apply andb_prop in H as [Hup H]. apply N.eqb_eq in H.
    symmetry. apply upper_of_pair; assumption.
Qed.

Lemma same_modulo_case_upper (s1 : string) :
  forall s2, same_modulo_case s1 s2 = true -> upper s1 = upper s2.
Proof.
  induction s1 as [|c1 s1 IH]; intros [|c2 s2] H; simpl in H; try discriminate.
  - reflexivity.
  - apply andb_prop in H as [Hc Hs]. simpl.
    rewrite (same_letter_upper _ _ Hc), (IH _ Hs). reflexivity.
Qed.

(** ** pyalab_integra_hook.py *)

Lemma is_section_in (name : string) :
  pyalab_integra_hook.is_section name = true -> In name ["A"; "B"; "C"; "D"].
Proof.
  unfold pyalab_integra_hook.is_section. intros H.
  repeat (apply orb_prop in H as [H|H]); apply String.eqb_eq in H; subst; simpl; tauto.
Qed.

(** X1. Whenever [_normalize_section_name] returns, it returns one of the
    four deck sections "A", "B", "C", "D"; when it raises, it is a
    [ValueError], or an [AttributeError] for a slot map whose entry for the
    slot is not a string. *)
Theorem normalized_section_range (slot_id : string) (slot_map : dict) :
  match pyalab_integra_hook._normalize_section_name slot_id slot_map with
  | Ok name => In name ["A"; "B"; "C"; "D"]
  | Raise exc =>
      exc_class exc = ValueError
      \/ (exc_class exc = AttributeError
          /\ exists v, dict_get slot_map slot_id = Some v /\ type_name v <> "str")
  end.
Proof.
  unfold pyalab_integra_hook._normalize_section_name, dict_get_default.
  destruct (dict_get slot_map slot_id) as [v|] eqn:Hget; [destruct v|]; cbv zeta;
    try (right; split; [reflexivity|eexists; split; [reflexivity|discriminate]]);
    (destruct (pyalab_integra_hook.is_section _) eqn:Hsec; cbn [negb];
     [apply is_section_in, Hsec | left; reflexivity]).
Qed.

(** X2. For ASCII slot identifiers: when the slot map has no entry for the
    identifier, every spelling of a section name - the letter, "slot_N" or
    "N", in any letter case and with white space around it - is normalised
    to the letter of that section. *)
Theorem normalized_section_spellings (slot_id : string) (slot_map : dict)
    (spelling letter : string) :
  is_ascii_str slot_id = true ->
  dict_get slot_map slot_id = None ->
  In (spelling, letter) section_spellings ->
  same_modulo_case (strip slot_id) spelling = true ->
  pyalab_integra_hook._normalize_section_name slot_id slot_map = Ok letter.
Proof.
  intros _ Hget Hin Hcase.
  unfold pyalab_integra_hook._normalize_section_name, dict_get_default. rewrite Hget.
  cbv zeta. rewrite (same_modulo_case_upper _ _ Hcase).
  simpl in Hin.
  repeat (destruct Hin as [[= <- <-]|Hin]; [reflexivity|]).
  contradiction.
Qed.

(** X3. Under the default slot map, "slot_1" to "slot_4" in any letter case
    and with white space around them go to sections A to D. *)
Theorem default_slot_map_sections (slot_id : string) (n letter : string) :
  is_ascii_str slot_id = true ->
  In (n, letter) [("slot_1", "A"); ("slot_2", "B"); ("slot_3", "C"); ("slot_4", "D")] ->
  same_modulo_case (strip slot_id) n = true ->
  pyalab_integra_hook._normalize_section_name slot_id pyalab_integra_hook.default_slot_map
  = Ok letter.
Proof.
  intros Hascii Hin Hcase.
  destruct (dict_get pyalab_integra_hook.default_slot_map slot_id) as [v|] eqn:Hget.
  - unfold pyalab_integra_hook.default_slot_map in Hget. cbn [dict_get] in Hget.
    repeat match type of Hget with
           | (if String.eqb ?k slot_id then _ else _) = _ =>
               destruct (String.eqb_spec k slot_id) as [<-|_]
           end; try discriminate;
      simpl in Hin;
      repeat (destruct Hin as [[= <- <-]|Hin];
              [first [reflexivity|vm_compute in Hcase; discriminate]|]);
      contradiction.
  - unfold pyalab_integra_hook._normalize_section_name, dict_get_default. rewrite Hget.
    cbv zeta. rewrite (same_modulo_case_upper _ _ Hcase).
    simpl in Hin.
    repeat (destruct Hin as [[= <- <-]|Hin]; [reflexivity|]).
    contradiction.
Qed.

Lemma stripped_name_spec (v : option json) (name : string) :
  pyalab_integra_hook.stripped_name v = Some name ->
  name <> EmptyString /\ trimmed name = true
  /\ exists text, v = Some (JStr text) /\ name = strip text.
Proof.
  unfold pyalab_integra_hook.stripped_name.
  destruct v as [[| | |text| |]|]; try discriminate.
  destruct (truthy_str (strip text)) eqn:Htruthy; [|discriminate].
  intros [= <-]. split; [apply truthy_str_nonempty, Htruthy|].
  split; [apply strip_trimmed|]. exists text. split; reflexivity.
Qed.

Lemma pick_labware_name_ok (slot_section role : string) (slot_cfg role_cfg : dict)
    (name : string) :
  pyalab_integra_hook._pick_labware_name slot_section role slot_cfg role_cfg = Ok name ->
  name <> EmptyString /\ trimmed name = true.
Proof.
  unfold pyalab_integra_hook._pick_labware_name.
  destruct (match dict_get slot_cfg slot_section with
            | Some (JObj d) => _ | Some (JStr _) => _ | _ => None end) as [n1|] eqn:H1.
  - intros [= <-].
    destruct (dict_get slot_cfg slot_section) as [[| | |text|l|d]|]; try discriminate;
      apply stripped_name_spec in H1 as (Hne & Htrim & _); split; assumption.
  - destruct (if truthy_str role then _ else None) as [n2|] eqn:H2; [|discriminate].
    intros [= <-]. destruct (truthy_str role); [|discriminate].
    apply stripped_name_spec in H2 as (Hne & Htrim & _). split; assumption.
Qed.

Lemma normalize_ok_section (slot_id : string) (slot_map : dict) (name : string) :
  pyalab_integra_hook._normalize_section_name slot_id slot_map = Ok name ->
  In name ["A"; "B"; "C"; "D"].
Proof.
  unfold pyalab_integra_hook._normalize_section_name.
  destruct (dict_get_default slot_map slot_id (JStr slot_id)); try discriminate.
  cbv zeta. destruct (pyalab_integra_hook.is_section _) eqn:Hsec; cbn [negb]; [|discriminate].
  intros [= <-]. apply is_section_in, Hsec.
Qed.

(** X4. For a slot layout and a role map whose texts are ASCII: a labware
    name that [_pick_labware_name] returns is never empty and has no white
    space at its ends. An entry of the slot layout for the section that is
    an object with a non-blank "labware" string decides the name, whatever
    the role map says. Without any usable mapping it raises
    [ValueError]. *)
Theorem picked_labware_name (slot_section role : string) (slot_cfg role_cfg : dict) :
  ascii_json (JObj slot_cfg) = true ->
  ascii_json (JObj role_cfg) = true ->
  (forall name,
     pyalab_integra_hook._pick_labware_name slot_section role slot_cfg role_cfg = Ok name ->
     name <> EmptyString /\ trimmed name = true)
  /\ (forall d text,
        dict_get slot_cfg slot_section = Some (JObj d) ->
        dict_get d "labware" = Some (JStr text) ->
        strip text <> EmptyString ->
        pyalab_integra_hook._pick_labware_name slot_section role slot_cfg role_cfg
        = Ok (strip text))
  /\ (forall exc,
        pyalab_integra_hook._pick_labware_name slot_section role slot_cfg role_cfg = Raise exc ->
        exc_class exc = ValueError).
Proof.
  intros _ _.
  split; [intros name; apply pick_labware_name_ok|].
  unfold pyalab_integra_hook._pick_labware_name. split.
  - intros d text Hsec Hlab Hne. rewrite Hsec, Hlab. simpl.
    apply truthy_str_nonempty in Hne. rewrite Hne. reflexivity.
  - intros exc.
    destruct (match dict_get slot_cfg slot_section with
              | Some (JObj d) => _ | Some (JStr _) => _ | _ => None end); [discriminate|].
    destruct (if truthy_str role then _ else None); [discriminate|].
    intros [= <-]. reflexivity.
Qed.

Lemma slot_of_element_spec (el : pyalab_integra_hook.element) (s : pyalab_integra_hook.slot) :
  pyalab_integra_hook.slot_of_element el = Some s ->
  pyalab_integra_hook.slot_id s <> EmptyString
  /\ trimmed (pyalab_integra_hook.slot_id s) = true
  /\ trimmed (pyalab_integra_hook.slot_role s) = true
  /\ lower (pyalab_integra_hook.slot_orientation s) = pyalab_integra_hook.slot_orientation s
  /\ strip (pyalab_integra_hook.slot_orientation s) = pyalab_integra_hook.slot_orientation s.
Proof.
  unfold pyalab_integra_hook.slot_of_element.
  destruct (truthy_str (strip _)) eqn:Hid; simpl; [|discriminate].
  intros [= <-]. simpl.
  split; [apply truthy_str_nonempty, Hid|].
  split; [apply strip_trimmed|]. split; [apply strip_trimmed|]. split.
  - generalize (strip (pyalab_integra_hook.attrib_of el "orientation" "landscape")).
    intros t. induction t as [|c t IH]; [reflexivity|]. simpl. rewrite IH. f_equal.
    destruct c as [[] [] [] [] [] [] [] []]; reflexivity.
  - rewrite lower_strip. apply strip_idempotent.
Qed.

Lemma omap_length_le {A B} (f : A -> option B) (l : list A) :
  (length (omap f l) <= length l)%nat.
Proof.
  induction l as [|a l IH]; [reflexivity|].
  cbn [omap list_omap]. destruct (f a); simpl; lia.
Qed.

(** X5. [_extract_slots] raises what reading or parsing the file raised.
    For a document that was read, with ASCII attribute values on its Slot
    elements: when [_extract_slots] returns, the root is a VialabProtocol,
    the list is not empty and no longer than the list of Slot elements,
    every slot has an identifier that is not empty, identifier and role have
    no white space at their ends, and the orientation is stripped and in
    lower case; when it raises, it is a [ValueError]. *)
Theorem extracted_slots (parse : string -> Result pyalab_integra_hook.element)
    (xml_path : string) :
  (forall exc,
     parse xml_path = Raise exc ->
     pyalab_integra_hook._extract_slots parse xml_path = Raise exc)
  /\ (forall root,
        parse xml_path = Ok root ->
        forallb ascii_attribs (pyalab_integra_hook.find_slots root) = true ->
        match pyalab_integra_hook._extract_slots parse xml_path with
        | Ok slots =>
            pyalab_integra_hook.tag_of root = "VialabProtocol"
            /\ slots <> []
            /\ (length slots <= length (pyalab_integra_hook.find_slots root))%nat
            /\ Forall (fun s =>
                         pyalab_integra_hook.slot_id s <> EmptyString
                         /\ trimmed (pyalab_integra_hook.slot_id s) = true
                         /\ trimmed (pyalab_integra_hook.slot_role s) = true
                         /\ lower (pyalab_integra_hook.slot_orientation s)
                            = pyalab_integra_hook.slot_orientation s
                         /\ strip (pyalab_integra_hook.slot_orientation s)
                            = pyalab_integra_hook.slot_orientation s)
                 slots
        | Raise exc =>
            exc_class exc = ValueError
            /\ (pyalab_integra_hook.tag_of root <> "VialabProtocol"
                \/ omap pyalab_integra_hook.slot_of_element
                     (pyalab_integra_hook.find_slots root) = [])
        end).
Proof.
  unfold pyalab_integra_hook._extract_slots. split.
  - intros exc ->. reflexivity.
  - intros root -> _. cbn [mbind Result_bind].
    destruct (String.eqb_spec (pyalab_integra_hook.tag_of root) "VialabProtocol") as [Htag|Htag];
      simpl; [|split; [reflexivity|left; exact Htag]].
    assert (Forall (fun s =>
                      pyalab_integra_hook.slot_id s <> EmptyString
                      /\ trimmed (pyalab_integra_hook.slot_id s) = true
                      /\ trimmed (pyalab_integra_hook.slot_role s) = true
                      /\ lower (pyalab_integra_hook.slot_orientation s)
                         = pyalab_integra_hook.slot_orientation s
                      /\ strip (pyalab_integra_hook.slot_orientation s)
                         = pyalab_integra_hook.slot_orientation s)
              (omap pyalab_integra_hook.slot_of_element (pyalab_integra_hook.find_slots root)))
      as Hall.
    { induction (pyalab_integra_hook.find_slots root) as [|el els IH]; [constructor|].
      cbn [omap list_omap].
      destruct (pyalab_integra_hook.slot_of_element el) as [s'|] eqn:Hel.
      - constructor; [apply (slot_of_element_spec el), Hel|exact IH].
      - exact IH. }
    pose proof (omap_length_le pyalab_integra_hook.slot_of_element
                  (pyalab_integra_hook.find_slots root)) as Hlen.
    destruct (omap pyalab_integra_hook.slot_of_element (pyalab_integra_hook.find_slots root))
      as [|s slots]; [split; [reflexivity|right; reflexivity]|].
    cbn [truthy_list negb]. cbv iota.
    split; [exact Htag|]. split; [discriminate|]. split; assumption.
Qed.

Lemma ends_with_nonempty (suffix s : string) :
  suffix <> EmptyString -> ends_with suffix s = true -> truthy_str s = true.
Proof.
  intros Hne. destruct s as [|c s]; [|reflexivity].
  simpl. rewrite orb_false_r. intros H. apply String.eqb_eq in H. contradiction.
Qed.

Lemma find_xml_uri_from (artifact_refs : list json) :
  forall xml_uri,
    pyalab_integra_hook.find_xml_uri artifact_refs xml_uri =
    match List.find is_primary_ref artifact_refs with
    | Some item => uri_of_ref (Some item)
    | None =>
        if truthy_str xml_uri then xml_uri
        else uri_of_ref (List.find is_fallback_ref artifact_refs)
    end.
Proof.
  induction artifact_refs as [|item rest IH]; intros xml_uri.
  - simpl. destruct xml_uri; reflexivity.
  - destruct item as [| | | | |d];
      try (cbn [pyalab_integra_hook.find_xml_uri List.find is_primary_ref is_fallback_ref];
           apply IH).
    cbn [pyalab_integra_hook.find_xml_uri List.find is_primary_ref is_fallback_ref].
    fold (ref_role d). fold (ref_uri d).
    destruct (String.eqb (ref_role d) "integra_vialab_xml" && truthy_str (ref_uri d));
      [reflexivity|].
    destruct (ends_with ".xml" (ref_uri d)) eqn:Hxml; cbn [andb].
    + destruct (truthy_str xml_uri) eqn:Hacc; cbn [negb]; rewrite IH.
      * rewrite Hacc. reflexivity.
      * rewrite (ends_with_nonempty ".xml" _ ltac:(discriminate) Hxml). reflexivity.
    + apply IH.
Qed.

(** X6. The XML that [run_task] picks among the artifact references: the
    first reference (an object) whose role is "integra_vialab_xml" and whose
    uri is not empty, wherever it stands; when there is none, the first
    reference whose uri ends in ".xml"; when there is none either, nothing.
    Entries that are not objects are passed over. *)
Theorem xml_artifact_choice (artifact_refs : list json) :
  pyalab_integra_hook.find_xml_uri artifact_refs EmptyString = chosen_xml_uri artifact_refs.
Proof. rewrite find_xml_uri_from. reflexivity. Qed.

(** X7. [run_task] first resolves the repository root, and raises what that
    raises. Once the root is resolved, without a usable artifact reference
    it raises [ValueError] before it looks for any file, reads one or builds
    anything: the outcome does not depend on the file system or on pyalab.
    This is so when [artifact_refs] is missing, when it is not a list, and
    when no reference of the list qualifies. *)
Theorem run_task_needs_artifact (w : pyalab_integra_hook.World) (task_payload : dict) :
  match pyalab_integra_hook.resolve_repo_root w with
  | Raise exc => pyalab_integra_hook.run_task w task_payload = Raise exc
  | Ok _ =>
      (dict_get task_payload "artifact_refs" = None ->
       pyalab_integra_hook.run_task w task_payload
       = Raise (Exn ValueError "No XML artifact found in task artifact_refs"))
      /\ (forall artifact_refs,
            dict_get task_payload "artifact_refs" = Some (JArr artifact_refs) ->
            chosen_xml_uri artifact_refs = EmptyString ->
            pyalab_integra_hook.run_task w task_payload
            = Raise (Exn ValueError "No XML artifact found in task artifact_refs"))
      /\ (forall v,
            dict_get task_payload "artifact_refs" = Some v ->
            type_name v <> "list" ->
            pyalab_integra_hook.run_task w task_payload
            = Raise (Exn ValueError "task_payload.artifact_refs must be a list"))
  end.
Proof.
  unfold pyalab_integra_hook.run_task, dict_get_default.
  destruct (pyalab_integra_hook.resolve_repo_root w) as [repo_root|exc];
    cbn [mbind Result_bind]; [|reflexivity].
  split; [|split].
  - intros ->. reflexivity.
  - intros refs -> Hnone.
    assert (pyalab_integra_hook.find_xml_uri refs EmptyString = EmptyString) as ->
      by (rewrite find_xml_uri_from; exact Hnone).
    reflexivity.
  - intros v -> Hlist. destruct v; try reflexivity. contradiction.
Qed.

Lemma map_result_ok {A B} (f : A -> Result B) (l : list A) :
  forall bs, map_result f l = Ok bs -> Forall2 (fun a b => f a = Ok b) l bs.
Proof.
  induction l as [|a l IH]; intros bs; simpl.
  - intros [= <-]. constructor.
  - destruct (f a) as [b|] eqn:Hb; [|discriminate].
    destruct (map_result f l) as [bs'|]; [|discriminate].
    intros [= <-]. constructor; [exact Hb|apply IH; reflexivity].
Qed.

Lemma try_classes_loaded (load : pyalab_integra_hook.LabwareClass -> string -> Result unit)
    (name : string) (classes : list pyalab_integra_hook.LabwareClass) :
  forall errors cls,
    pyalab_integra_hook.try_classes load name classes errors = Ok cls ->
    In cls classes /\ is_ok (load cls name) = true.
Proof.
  induction classes as [|c classes IH]; intros errors cls; simpl; [discriminate|].
  destruct (load c name) as [[]|exc] eqn:Hload.
  - intros [= <-]. rewrite Hload. split; [tauto|reflexivity].
  - intros H. apply IH in H as [Hin Hok]. split; [tauto|exact Hok].
Qed.

(** What holds of a placement that reaches pyalab. *)
Lemma place_slot_spec (load : pyalab_integra_hook.LabwareClass -> string -> Result unit)
    (slot_map slot_layout role_map : dict) (s : pyalab_integra_hook.slot)
    (p : pyalab_integra_hook.placement) :
  pyalab_integra_hook.place_slot load slot_map slot_layout role_map s = Ok p ->
  well_formed load p.
Proof.
  unfold pyalab_integra_hook.place_slot, well_formed.
  destruct (pyalab_integra_hook._normalize_section_name _ slot_map) as [sec|] eqn:Hsec;
    [|discriminate].
  apply normalize_ok_section in Hsec.
  cbn [mbind Result_bind].
  destruct (pyalab_integra_hook._pick_labware_name sec _ slot_layout role_map)
    as [name|] eqn:Hname; [|discriminate].
  cbn [mbind Result_bind].
  destruct (pyalab_integra_hook.try_classes load name _ []) as [cls|] eqn:Hcls; [|discriminate].
  cbn [mbind Result_bind mret Result_ret]. intros [= <-]. simpl.
  split; [exact Hsec|]. split.
  - unfold pyalab_integra_hook._orientation_to_pyalab.
    destruct (String.eqb _ "portrait"); simpl; tauto.
  - apply pick_labware_name_ok in Hname as [Hne Htrim].
    split; [exact Hne|]. split; [exact Htrim|].
    apply try_classes_loaded in Hcls as [_ Hok]. exact Hok.
Qed.

(** The dictionary of positions *)

Lemma same_position_spec (q p : pyalab_integra_hook.placement) :
  pyalab_integra_hook.same_position q p = true <-> position_of q = position_of p.
Proof.
  unfold pyalab_integra_hook.same_position, position_of.
  rewrite andb_true_iff, !String.eqb_eq. split.
  - intros [-> ->]. reflexivity.
  - intros [= -> ->]. split; reflexivity.
Qed.

Lemma set_position_in (deck : list pyalab_integra_hook.placement)
    (p : pyalab_integra_hook.placement) (pos : string * string) :
  In pos (map position_of (pyalab_integra_hook.set_position deck p))
  <-> position_of p = pos \/ In pos (map position_of deck).
Proof.
  induction deck as [|q deck IH]; simpl; [tauto|].
  destruct (pyalab_integra_hook.same_position q p) eqn:Hsame; simpl.
  - apply same_position_spec in Hsame. rewrite Hsame. tauto.
  - rewrite IH. tauto.
Qed.

Lemma set_position_nodup (deck : list pyalab_integra_hook.placement)
    (p : pyalab_integra_hook.placement) :
  List.NoDup (map position_of deck) ->
  List.NoDup (map position_of (pyalab_integra_hook.set_position deck p)).
Proof.
  induction deck as [|q deck IH]; simpl; intros Hdeck.
  - constructor; [intros []|constructor].
  - inversion Hdeck as [|pos rest Hnotin Hrest]; subst.
    destruct (pyalab_integra_hook.same_position q p) eqn:Hsame; simpl.
    + apply same_position_spec in Hsame. rewrite <- Hsame. constructor; assumption.
    + constructor; [|apply IH; exact Hrest].
      rewrite set_position_in. intros [Hp|Hin]; [|contradiction].
      symmetry in Hp. apply same_position_spec in Hp. congruence.
Qed.

Lemma set_position_forall (P : pyalab_integra_hook.placement -> Prop)
    (deck : list pyalab_integra_hook.placement) (p : pyalab_integra_hook.placement) :
  Forall P deck -> P p -> Forall P (pyalab_integra_hook.set_position deck p).
Proof.
  intros Hdeck Hp. induction Hdeck as [|q deck Hq Hdeck IH]; simpl.
  - constructor; [exact Hp|constructor].
  - destruct (pyalab_integra_hook.same_position q p); constructor; assumption.
Qed.

Lemma set_position_length (deck : list pyalab_integra_hook.placement)
    (p : pyalab_integra_hook.placement) :
  (length (pyalab_integra_hook.set_position deck p) <= S (length deck))%nat.
Proof.
  induction deck as [|q deck IH]; simpl; [lia|].
  destruct (pyalab_integra_hook.same_position q p); simpl; lia.
Qed.

Lemma set_position_new (deck : list pyalab_integra_hook.placement)
    (p : pyalab_integra_hook.placement) :
  ~ In (position_of p) (map position_of deck) ->
  pyalab_integra_hook.set_position deck p = deck ++ [p].
Proof.
  induction deck as [|q deck IH]; simpl; intros Hnew; [reflexivity|].
  destruct (pyalab_integra_hook.same_position q p) eqn:Hsame.
  - apply same_position_spec in Hsame. tauto.
  - rewrite IH by tauto. reflexivity.
Qed.

Lemma fold_positions_length (ps : list pyalab_integra_hook.placement) :
  forall deck,
    (length (fold_left pyalab_integra_hook.set_position ps deck)
     <= length deck + length ps)%nat.
Proof.
  induction ps as [|p ps IH]; intros deck; simpl; [lia|].
  pose proof (IH (pyalab_integra_hook.set_position deck p)) as Hrest.
  pose proof (set_position_length deck p). lia.
Qed.

Lemma fold_positions_nodup (ps : list pyalab_integra_hook.placement) :
  forall deck,
    List.NoDup (map position_of deck) ->
    List.NoDup (map position_of (fold_left pyalab_integra_hook.set_position ps deck)).
Proof.
  induction ps as [|p ps IH]; intros deck Hdeck; simpl; [exact Hdeck|].
  apply IH, set_position_nodup, Hdeck.
Qed.

Lemma fold_positions_forall (P : pyalab_integra_hook.placement -> Prop)
    (ps : list pyalab_integra_hook.placement) :
  forall deck,
    Forall P deck -> Forall P ps ->
    Forall P (fold_left pyalab_integra_hook.set_position ps deck).
Proof.
  induction ps as [|p ps IH]; intros deck Hdeck Hps; simpl; [exact Hdeck|].
  inversion Hps; subst. apply IH; [apply set_position_forall|]; assumption.
Qed.

Lemma fold_positions_in (ps : list pyalab_integra_hook.placement) :
  forall deck pos,
    In pos (map position_of (fold_left pyalab_integra_hook.set_position ps deck))
    <-> In pos (map position_of deck) \/ In pos (map position_of ps).
Proof.
  induction ps as [|p ps IH]; intros deck pos; simpl; [tauto|].
  rewrite IH, set_position_in. tauto.
Qed.

Lemma fold_positions_distinct (ps : list pyalab_integra_hook.placement) :
  forall deck,
    List.NoDup (map position_of (deck ++ ps)) ->
    fold_left pyalab_integra_hook.set_position ps deck = deck ++ ps.
Proof.
  induction ps as [|p ps IH]; intros deck Hdistinct; simpl.
  - rewrite app_nil_r. reflexivity.
  - rewrite set_position_new.
    + rewrite IH; rewrite <- app_assoc; [reflexivity|exact Hdistinct].
    + rewrite map_app in Hdistinct. simpl in Hdistinct.
      apply NoDup_remove_2 in Hdistinct. intros Hin. apply Hdistinct.
      apply in_or_app. left. exact Hin.
Qed.

(** The loop places the slots one after the other and enters each placement
    in the dictionary. *)
Lemma place_slots_fold (load : pyalab_integra_hook.LabwareClass -> string -> Result unit)
    (slot_map slot_layout role_map : dict) (slots : list pyalab_integra_hook.slot) :
  forall deck0 deck,
    pyalab_integra_hook.place_slots load slot_map slot_layout role_map slots deck0 = Ok deck ->
    exists ps,
      Forall2 (fun s p =>
                 pyalab_integra_hook.place_slot load slot_map slot_layout role_map s = Ok p)
        slots ps
      /\ deck = fold_left pyalab_integra_hook.set_position ps deck0.
Proof.
  induction slots as [|s slots IH]; intros deck0 deck;
    cbn [pyalab_integra_hook.place_slots].
  - intros [= <-]. exists []. split; [constructor|reflexivity].
  - destruct (pyalab_integra_hook.place_slot load slot_map slot_layout role_map s)
      as [p|] eqn:Hp; [|discriminate].
    cbn [mbind Result_bind]. intros Hrest.
    apply IH in Hrest as (ps & Hall & ->).
    exists (p :: ps). split; [constructor; assumption|reflexivity].
Qed.

(** X8. For slots and mappings whose texts are ASCII: when the loop of
    [_build_program_from_slots] gets through, every slot was placed, and the
    dictionary of positions it leaves is the
    placements entered one after the other, a later one replacing an earlier
    one at the same position. So it has at most one entry per slot and
    exactly one per position; the position of every slot has an entry; each
    entry names a section among A, B, C, D, one of the two corners, and a
    labware whose name is not empty, has no white space at its ends, and was
    loaded by the class recorded for it. When no two slots share a position
    there is one entry per slot, in the order of the slots. *)
Theorem placements_well_formed
    (load : pyalab_integra_hook.LabwareClass -> string -> Result unit)
    (slot_map slot_layout role_map : dict) (slots : list pyalab_integra_hook.slot)
    (deck : list pyalab_integra_hook.placement) :
  forallb ascii_slot slots = true ->
  ascii_json (JObj slot_map) = true ->
  ascii_json (JObj slot_layout) = true ->
  ascii_json (JObj role_map) = true ->
  pyalab_integra_hook.place_slots load slot_map slot_layout role_map slots [] = Ok deck ->
  exists ps,
    Forall2 (fun s p =>
               pyalab_integra_hook.place_slot load slot_map slot_layout role_map s = Ok p)
      slots ps
    /\ deck = fold_left pyalab_integra_hook.set_position ps []
    /\ (length deck <= length slots)%nat
    /\ List.NoDup (map position_of deck)
    /\ Forall (fun p => In (position_of p) (map position_of deck)) ps
    /\ Forall (well_formed load) deck
    /\ (List.NoDup (map position_of ps) -> deck = ps).
Proof.
  intros _ _ _ _ Hloop. apply place_slots_fold in Hloop as (ps & Hall & ->).
  exists ps. split; [exact Hall|]. split; [reflexivity|].
  assert (length ps = length slots) as Hlen.
  { clear -Hall. induction Hall; simpl; congruence. }
  split; [rewrite <- Hlen; apply (fold_positions_length ps [])|].
  split; [apply fold_positions_nodup; constructor|].
  split.
  - apply List.Forall_forall. intros p Hp. apply fold_positions_in. right.
    apply in_map, Hp.
  - split.
    + apply fold_positions_forall; [constructor|].
      clear Hlen. induction Hall as [|s p slots ps Hp _ IH]; constructor.
      * eapply place_slot_spec, Hp.
      * exact IH.
    + intros Hdistinct. apply (fold_positions_distinct ps []). exact Hdistinct.
Qed.

(** X9. The classes are tried in the order Plate, Reservoir, Tubeholder: a
    later class is chosen only when the earlier ones failed to load the
    name, and [RuntimeError] is raised only when all three failed. *)
Theorem labware_class_order (load : pyalab_integra_hook.LabwareClass -> string -> Result unit)
    (name : string) :
  match pyalab_integra_hook.try_classes load name
          [pyalab_integra_hook.Plate; pyalab_integra_hook.Reservoir;
           pyalab_integra_hook.Tubeholder] [] with
  | Ok pyalab_integra_hook.Plate => is_ok (load pyalab_integra_hook.Plate name) = true
  | Ok pyalab_integra_hook.Reservoir =>
      is_ok (load pyalab_integra_hook.Plate name) = false
      /\ is_ok (load pyalab_integra_hook.Reservoir name) = true
  | Ok pyalab_integra_hook.Tubeholder =>
      is_ok (load pyalab_integra_hook.Plate name) = false
      /\ is_ok (load pyalab_integra_hook.Reservoir name) = false
      /\ is_ok (load pyalab_integra_hook.Tubeholder name) = true
  | Raise exc =>
      exists e1 e2 e3,
        load pyalab_integra_hook.Plate name = Raise e1
        /\ load pyalab_integra_hook.Reservoir name = Raise e2
        /\ load pyalab_integra_hook.Tubeholder name = Raise e3
        /\ exc = Exn RuntimeError
                   ("Could not resolve labware '" +:+ name +:+ "' in pyalab library: "
                    +:+ "Plate: " +:+ str_exc e1 +:+ " | Reservoir: " +:+ str_exc e2
                    +:+ " | Tubeholder: " +:+ str_exc e3)
  end.
Proof.
  cbn [pyalab_integra_hook.try_classes].
  destruct (load pyalab_integra_hook.Plate name) as [[]|e1]; [reflexivity|].
  destruct (load pyalab_integra_hook.Reservoir name) as [[]|e2]; [split; reflexivity|].
  destruct (load pyalab_integra_hook.Tubeholder name) as [[]|e3]; [repeat split|].
  exists e1, e2, e3. repeat split.
Qed.

(** X10. Whatever [run_task] returns is accepted by the bridge: the payload
    coerces to a "completed" result with one log entry of code
    PYALAB_DECK_MAPPED that keeps its data, one artifact, the external
    status, and no failure detail. *)
Theorem run_task_payload_accepted (w : pyalab_integra_hook.World) (task_payload payload : dict) :
  pyalab_integra_hook.run_task w task_payload = Ok payload ->
  exists r entry info,
    pylabrobot_bridge._coerce_result payload = Ok r
    /\ final_status r = "completed"
    /\ logs r = [entry]
    /\ code entry = Some "PYALAB_DECK_MAPPED"
    /\ level entry = "info"
    /\ data entry = Some info
    /\ dict_get info "slotsMapped" <> None
    /\ length (artifacts r) = 1%nat
    /\ failure r = None
    /\ external r <> None.
Proof.
  unfold pyalab_integra_hook.run_task.
  destruct (pyalab_integra_hook.resolve_repo_root w) as [repo_root|]; [|discriminate].
  cbn [mbind Result_bind].
  destruct (dict_get_default task_payload "artifact_refs" (JArr [])); try discriminate.
  destruct (negb (truthy_str _)); [discriminate|].
  destruct (pyalab_integra_hook.resolve_artifact_path w _ _) as [xml_path|]; [|discriminate].
  cbn [mbind Result_bind].
  destruct (pyalab_integra_hook._extract_slots _ _) as [slots|]; [|discriminate].
  cbn [mbind Result_bind].
  destruct (pyalab_integra_hook.build_and_save w slots _ _) as [rel_path|]; [|discriminate].
  cbn [mbind Result_bind mret Result_ret]. intros [= <-].
  do 3 eexists. split; [reflexivity|]. simpl. repeat split; discriminate.
Qed.

(** X11. For ASCII attribute values: a Slot element whose orientation
    attribute spells "portrait", in any letter case and with white space
    around it, is extracted with the orientation "portrait" and placed with
    the corner A1_SW_CORNER; an extracted slot with any other orientation
    gets A1_NW_CORNER. *)
Theorem slot_orientation_corner (el : pyalab_integra_hook.element)
    (s : pyalab_integra_hook.slot) :
  is_ascii_str (pyalab_integra_hook.attrib_of el "orientation" "landscape") = true ->
  pyalab_integra_hook.slot_of_element el = Some s ->
  (same_modulo_case (strip (pyalab_integra_hook.attrib_of el "orientation" "landscape"))
     "portrait" = true ->
   pyalab_integra_hook.slot_orientation s = "portrait")
  /\ pyalab_integra_hook._orientation_to_pyalab (pyalab_integra_hook.slot_orientation s)
     = (if String.eqb (pyalab_integra_hook.slot_orientation s) "portrait"
        then "A1_SW_CORNER" else "A1_NW_CORNER").
Proof.
  intros _ Hel. split.
  - intros Hcase. unfold pyalab_integra_hook.slot_of_element in Hel.
    destruct (negb (truthy_str _)); [discriminate|]. injection Hel as <-. simpl.
    rewrite (same_modulo_case_lower _ _ Hcase). reflexivity.
  - apply slot_of_element_spec in Hel as (_ & _ & _ & Hlower & Hstrip).
    unfold pyalab_integra_hook._orientation_to_pyalab. rewrite Hstrip, Hlower. reflexivity.
Qed.

(** ** pylabrobot_bridge.py *)

Lemma split_first_app (sep : ascii) (before after : string) :
  has_char sep before = false ->
  split_first sep (before +:+ String sep after) = Some (before, after).
Proof.
  induction before as [|c before IH]; simpl.
  - intros _. rewrite Ascii.eqb_refl. reflexivity.
  - intros H. apply orb_false_elim in H as [Hc Hrest].
    rewrite Ascii.eqb_sym in Hc. rewrite Hc, (IH Hrest). reflexivity.
Qed.

Lemma split_first_spec (sep : ascii) (s : string) :
  forall before after,
    split_first sep s = Some (before, after) ->
    s = before +:+ String sep after /\ has_char sep before = false.
Proof.
  induction s as [|c s IH]; intros before after; simpl; [discriminate|].
  destruct (Ascii.eqb c sep) eqn:Hc.
  - intros [= <- <-]. apply Ascii.eqb_eq in Hc. subst. split; reflexivity.
  - destruct (split_first sep s) as [[b a]|]; [|discriminate].
    intros [= <- <-]. destruct (IH b a eq_refl) as [-> Hno].
    split; [reflexivity|]. simpl. rewrite Ascii.eqb_sym, Hc. exact Hno.
Qed.

Lemma split_first_none (sep : ascii) (s : string) :
  split_first sep s = None <-> has_char sep s = false.
Proof.
  induction s as [|c s IH]; simpl; [tauto|].
  rewrite (Ascii.eqb_sym sep c). destruct (Ascii.eqb c sep); simpl; [split; discriminate|].
  destruct (split_first sep s) as [[b a]|].
  - split; [discriminate|]. intros H. apply IH in H. discriminate.
  - split; [intros _; apply IH; reflexivity|reflexivity].
Qed.

Lemma has_char_strip (sep : ascii) (s : string) :
  has_char sep s = false -> has_char sep (strip s) = false.
Proof.
  assert (forall t, has_char sep t = false -> has_char sep (lstrip t) = false) as Hl.
  { induction t as [|c t IH]; simpl; [reflexivity|].
    intros H. apply orb_false_elim in H as [Hc Ht].
    destruct (is_space c); [apply IH, Ht|]. simpl. rewrite Hc, Ht. reflexivity. }
  assert (forall t, has_char sep t = false -> has_char sep (rstrip t) = false) as Hr.
  { induction t as [|c t IH]; simpl; [reflexivity|].
    intros H. apply orb_false_elim in H as [Hc Ht]. specialize (IH Ht).
    destruct (rstrip t).
    - destruct (is_space c); simpl; [reflexivity|]. rewrite Hc. reflexivity.
    - change (has_char sep (String c (String a s0)))
        with (Ascii.eqb sep c || has_char sep (String a s0)).
      rewrite Hc, IH. reflexivity. }
  intros H. unfold strip. apply Hr, Hl, H.
Qed.

(** X12. For a hook specification in ASCII: one that [_parse_hook_spec]
    accepts gives a module name and a function name that are not empty and
    have no white space at their ends, and the module name has no colon: the
    split is at the first colon. A text without a colon is refused with
    [ValueError]. Conversely "module:function" is parsed into its two names,
    stripped, whenever the module part has no colon and neither part is
    blank. *)
Theorem parsed_hook_spec (spec : string) :
  is_ascii_str spec = true ->
  (forall module_name func_name,
     pylabrobot_bridge._parse_hook_spec spec = Ok (module_name, func_name) ->
     module_name <> EmptyString /\ func_name <> EmptyString
     /\ trimmed module_name = true /\ trimmed func_name = true
     /\ has_char ":" module_name = false)
  /\ (has_char ":" spec = false ->
      pylabrobot_bridge._parse_hook_spec spec
      = Raise (Exn ValueError "Hook spec must be in module:function format"))
  /\ (forall m f,
        spec = m +:+ String ":" f ->
        has_char ":" m = false ->
        strip m <> EmptyString -> strip f <> EmptyString ->
        pylabrobot_bridge._parse_hook_spec spec = Ok (strip m, strip f)).
Proof.
  intros _.
  unfold pylabrobot_bridge._parse_hook_spec. split; [|split].
  - intros module_name func_name.
    destruct (split_first ":" spec) as [[m f]|] eqn:Hsplit; [|discriminate].
    apply split_first_spec in Hsplit as [_ Hno].
    destruct (truthy_str (strip m)) eqn:Hm; [|discriminate].
    destruct (truthy_str (strip f)) eqn:Hf; [|discriminate].
    cbn [negb orb]. intros [= <- <-].
    split; [apply truthy_str_nonempty, Hm|]. split; [apply truthy_str_nonempty, Hf|].
    split; [apply strip_trimmed|]. split; [apply strip_trimmed|].
    apply has_char_strip, Hno.
  - intros Hno. apply split_first_none in Hno. rewrite Hno. reflexivity.
  - intros m f -> Hno Hm Hf. rewrite (split_first_app _ _ _ Hno).
    apply truthy_str_nonempty in Hm, Hf. rewrite Hm, Hf. reflexivity.
Qed.


(** The entries of a payload's logs that are objects. *)
Lemma coerced_logs_length (entries : list json) :
  length (omap pylabrobot_bridge.log_of_entry entries)
  = length (List.filter (fun e => match e with JObj _ => true | _ => false end) entries).
Proof.
  induction entries as [|e entries IH]; [reflexivity|].
  cbn [omap list_omap List.filter]. destruct e; simpl; rewrite ?IH; reflexivity.
Qed.

(** X14. [_coerce_result] accepts a payload exactly when its final status
    (by default "failed") is one of the three and its logs (by default
    none) can be iterated. The result then has one log entry for each
    entry that is an object, the others being dropped; [failure] and
    [external] are kept only when they are objects, [artifacts] and
    [measurements] only when they are lists. *)
Theorem coerce_result_accepts (payload : dict) :
  (is_ok (pylabrobot_bridge._coerce_result payload)
   = pylabrobot_bridge.valid_final_status (payload_status payload)
     && is_ok (iterate (dict_get_default payload "logs" (JArr []))))
  /\ (forall r,
        pylabrobot_bridge._coerce_result payload = Ok r ->
        final_status r = payload_status payload
        /\ (exists entries,
              iterate (dict_get_default payload "logs" (JArr [])) = Ok entries
              /\ length (logs r)
                 = length (List.filter
                             (fun e => match e with JObj _ => true | _ => false end)
                             entries))
        /\ (failure r = match dict_get payload "failure" with
                        | Some (JObj f) => Some f
                        | _ => None
                        end)
        /\ (external r = match dict_get payload "external" with
                         | Some (JObj f) => Some f
                         | _ => None
                         end)
        /\ (artifacts r = match dict_get payload "artifacts" with
                          | Some (JArr l) => l
                          | _ => []
                          end)
        /\ (measurements r = match dict_get payload "measurements" with
                             | Some (JArr l) => l
                             | _ => []
                             end)).
Proof.
  unfold pylabrobot_bridge._coerce_result. fold (payload_status payload).
  destruct (pylabrobot_bridge.valid_final_status (payload_status payload)); cbn [negb andb].
  2:{ split; [reflexivity|discriminate]. }
  destruct (iterate (dict_get_default payload "logs" (JArr []))) as [entries|exc];
    cbn [mbind Result_bind mret Result_ret is_ok].
  2:{ split; [reflexivity|discriminate]. }
  split; [reflexivity|]. intros r [= <-]. simpl.
  split; [reflexivity|]. split.
  - exists entries. split; [reflexivity|apply coerced_logs_length].
  - repeat split.
Qed.


(** ** runners/integra_assist.py *)

Lemma forced_simulation_flag (env : IntegraAssistRunner.Env) (task : ExecutionTask) :
  forced_simulation env task ->
  (if String.eqb (IntegraAssistRunner.os_getenv env "INTEGRA_ASSIST_SIMULATE" "1") "1"
   then Ok true
   else v ← get_default (runtime_parameters task) "simulate" JNull; mret (truthy_json v))
  = Ok true.
Proof.
  intros [Henv|(d & v & Hparams & Hget & Htrue)].
  - rewrite Henv. reflexivity.
  - destruct (String.eqb _ "1"); [reflexivity|].
    rewrite Hparams. unfold get_default, dict_get_default. rewrite Hget.
    cbn [mbind Result_bind mret Result_ret]. rewrite Htrue. reflexivity.
Qed.

(** X15. When simulation is forced - which it is unless the environment
    switches it off - the runner never consults the bridge: what it returns
    does not depend on the configured hook; when INTEGRA_ASSIST_SIM_MS is an
    integer that [time.sleep] accepts (below 9223372036855, and not refused
    by the operating system), it returns a "completed" result with one log
    entry of code SIMULATED_RUN, one artifact and no failure detail; from
    9223372036855 on it raises [OverflowError]; and it raises only if
    INTEGRA_ASSIST_SIM_MS is not an integer (the exception of [int]), is
    that large, or is refused by the operating system. *)
Theorem simulation_forced (env : IntegraAssistRunner.Env) (task : ExecutionTask) :
  forced_simulation env task ->
  (forall env', same_but_hook env env' ->
                IntegraAssistRunner.run_in env' task = IntegraAssistRunner.run_in env task)
  /\ (forall ms, IntegraAssistRunner.sim_ms env = Ok ms -> ms < sleep_limit_ms ->
        IntegraAssistRunner.os_sleep env (Z.max 0 ms) = None ->
        exists r entry,
          IntegraAssistRunner.run_in env task = Ok r
          /\ final_status r = "completed"
          /\ logs r = [entry]
          /\ code entry = Some "SIMULATED_RUN"
          /\ length (artifacts r) = 1%nat
          /\ failure r = None)
  /\ (forall ms, IntegraAssistRunner.sim_ms env = Ok ms -> sleep_limit_ms <= ms ->
        exists exc,
          IntegraAssistRunner.run_in env task = Raise exc
          /\ exc_class exc = OverflowError)
  /\ (forall exc, IntegraAssistRunner.run_in env task = Raise exc ->
                  IntegraAssistRunner.sim_ms env = Raise exc
                  \/ exists ms,
                       IntegraAssistRunner.sim_ms env = Ok ms
                       /\ (sleep_limit_ms <= ms /\ exc_class exc = OverflowError
                           \/ ms < sleep_limit_ms
                              /\ IntegraAssistRunner.os_sleep env (Z.max 0 ms) = Some exc)).
Proof.
  intros Hforced. split; [|split; [|split]].
  - intros env' (Hgetenv & Hms & Hos & Hnow).
    assert (forced_simulation env' task) as Hforced'.
    { destruct Hforced as [Henv|Hparams]; [left|right; exact Hparams].
      unfold IntegraAssistRunner.os_getenv in *. rewrite Hgetenv. exact Henv. }
    unfold IntegraAssistRunner.run_in.
    rewrite (forced_simulation_flag _ _ Hforced), (forced_simulation_flag _ _ Hforced').
    cbn [mbind Result_bind negb]. rewrite !andb_false_r.
    unfold IntegraAssistRunner.os_getenv. rewrite Hms, Hos, Hnow, !Hgetenv. reflexivity.
  - intros ms Hms Hsmall Hos. unfold IntegraAssistRunner.run_in.
    rewrite (forced_simulation_flag _ _ Hforced).
    cbn [mbind Result_bind negb]. rewrite andb_false_r, Hms.
    cbn [mbind Result_bind mret Result_ret].
    rewrite (slept_small _ (Z.max 0 ms)) by (unfold sleep_limit_ms in *; (lia || exact Hos)).
    do 2 eexists. split; [reflexivity|]. repeat split.
  - intros ms Hms Hlarge. unfold IntegraAssistRunner.run_in.
    rewrite (forced_simulation_flag _ _ Hforced).
    cbn [mbind Result_bind negb]. rewrite andb_false_r, Hms.
    cbn [mbind Result_bind mret Result_ret].
    destruct (slept_large (IntegraAssistRunner.os_sleep env) (Z.max 0 ms))
      as (exc & Hslept & Hclass); [unfold sleep_limit_ms in *; lia|].
    rewrite Hslept. exists exc. split; [reflexivity|exact Hclass].
  - intros exc. unfold IntegraAssistRunner.run_in.
    rewrite (forced_simulation_flag _ _ Hforced).
    cbn [mbind Result_bind negb]. rewrite andb_false_r.
    destruct (IntegraAssistRunner.sim_ms env) as [ms|exc']; [|intros [= <-]; left; reflexivity].
    cbn [mbind Result_bind mret Result_ret].
    intros Hraise. right. exists ms. split; [reflexivity|].
    destruct (Z_lt_le_dec (Z.max 0 ms) sleep_limit_ms) as [Hsmall|Hlarge].
    + right. split; [unfold sleep_limit_ms in *; lia|].
      destruct (IntegraAssistRunner.os_sleep env (Z.max 0 ms)) as [refused|] eqn:Hos.
      * rewrite (slept_refused _ _ refused Hsmall Hos) in Hraise.
        injection Hraise as ->. reflexivity.
      * rewrite (slept_small _ _ Hsmall Hos) in Hraise. discriminate.
    + left. split; [unfold sleep_limit_ms in *; lia|].
      destruct (slept_large (IntegraAssistRunner.os_sleep env) _ Hlarge)
        as (exc' & Hslept & Hclass).
      rewrite Hslept in Hraise. injection Hraise as <-. exact Hclass.
Qed.

Lemma bridge_mode_run (env : IntegraAssistRunner.Env) (task : ExecutionTask) :
  bridge_mode env task ->
  IntegraAssistRunner.run_in env task =
  match pylabrobot_bridge.run_integra_task (IntegraAssistRunner.hook env) task with
  | Ok r => Ok r
  | Raise exc =>
      Ok {| final_status := "failed";
            logs := [bridge_failure_log (IntegraAssistRunner.iso_now env) exc];
            artifacts := [];
            measurements := [];
            failure := Some (bridge_failure_detail exc);
            external := None |}
  end.
Proof.
  intros (Hbackend & Hsim & d & Hparams & Hfalse).
  unfold IntegraAssistRunner.run_in. rewrite Hbackend.
  apply String.eqb_neq in Hsim. rewrite Hsim, Hparams.
  unfold get_default. cbn [mbind Result_bind mret Result_ret]. rewrite Hfalse.
  reflexivity.
Qed.

(** X16. When the runner goes through the bridge it never raises: a result
    of the bridge is returned as it is, and an exception of the bridge -
    from the import, the command, the hook, or a payload that is refused -
    becomes a "failed" result with one log entry at level "error" and a
    failure detail of code PYLABROBOT_EXECUTION_FAILED that carries the text
    of the exception. *)
Theorem bridge_errors_contained (env : IntegraAssistRunner.Env) (task : ExecutionTask) :
  bridge_mode env task ->
  exists r,
    IntegraAssistRunner.run_in env task = Ok r
    /\ match pylabrobot_bridge.run_integra_task (IntegraAssistRunner.hook env) task with
       | Ok r' => r = r'
       | Raise exc =>
           final_status r = "failed"
           /\ logs r = [bridge_failure_log (IntegraAssistRunner.iso_now env) exc]
           /\ failure r = Some (bridge_failure_detail exc)
           /\ artifacts r = [] /\ measurements r = [] /\ external r = None
       end.
Proof.
  intros Hmode. rewrite (bridge_mode_run _ _ Hmode).
  destruct (pylabrobot_bridge.run_integra_task _ task) as [r|exc].
  - exists r. split; reflexivity.
  - eexists. split; [reflexivity|]. repeat split.
Qed.

(** X17. When simulation is switched off in the environment and the task's
    runtime parameters are not a mapping - for one, a claim item with
    "runtimeParameters": null - the runner raises [AttributeError], whatever
    the backend. *)
Theorem runtime_parameters_not_mapping (env : IntegraAssistRunner.Env) (task : ExecutionTask) :
  IntegraAssistRunner.os_getenv env "INTEGRA_ASSIST_SIMULATE" "1" <> "1" ->
  type_name (runtime_parameters task) <> "dict" ->
  IntegraAssistRunner.run_in env task
  = Raise (Exn AttributeError
             ("'" +:+ type_name (runtime_parameters task)
              +:+ "' object has no attribute 'get'")).
Proof.
  intros Hsim Hparams. unfold IntegraAssistRunner.run_in.
  apply String.eqb_neq in Hsim. rewrite Hsim.
  destruct (runtime_parameters task); try reflexivity. contradiction.
Qed.


(** ** claim_loop.py: every outcome of a task *)

(** Name the stretch that the computation added to [tr]. *)
Ltac pick_segment tr :=
  rewrite <- ?app_assoc; simpl;
  match goal with
  | |- exists seg, (_, tr ++ ?added) = _ /\ _ => exists added
  end.

Lemma run_cycle_task_report (c : ExecutorConfig) (src : ClaimSource) (srv : Server)
    (registry : json -> Result TaskRunner) (task : ExecutionTask) (processed : Z)
    (tr : Trace) :
  exists seg,
    ClaimLoop.run_cycle_task (observed_loop c src srv registry) task processed tr
    = (Ok (if succeeded seg then processed + 1 else processed), tr ++ seg)
    /\ task_report seg /\ task_runs seg.
Proof.
  unfold ClaimLoop.run_cycle_task, try_except. unfold_loop.
  destruct (srv _ (Heartbeat _ _ _)) as [ack|e].
  2:{ simpl. split_calls srv;
        (pick_segment tr; split; [reflexivity|];
         split; [repeat split; simpl; lia | left; reflexivity]). }
  destruct (registry (adapter_id task)) as [runner|e].
  2:{ simpl. split_calls srv;
        (pick_segment tr; split; [reflexivity|];
         split; [repeat split; simpl; lia | left; reflexivity]). }
  destruct (runner _ task) as [r|e].
  2:{ simpl. split_calls srv;
        (pick_segment tr; split; [reflexivity|];
         split; [repeat split; simpl; lia | right; split; reflexivity]). }
  destruct (logs r) as [|entry entries]; destruct (failure r) as [[|kv f]|]; simpl;
    split_calls srv;
    (pick_segment tr; split; [reflexivity|];
     split; [repeat split; simpl; lia | right; split; reflexivity]).
Qed.

(** X18. The reports of one task, whatever happens to it: on the success
    path three or four calls numbered 1, 2, 3, ... of which the server
    accepted exactly one complete; on the exception path one to four calls
    numbered from 1 without gaps, then the recovery report 999999, and no
    accepted complete. The count goes up by one exactly on the success
    path. *)
Theorem task_reports_numbered (c : ExecutorConfig) (src : ClaimSource) (srv : Server)
    (registry : json -> Result TaskRunner) (task : ExecutionTask) (processed : Z)
    (tr : Trace) :
  exists seg,
    ClaimLoop.run_cycle_task (observed_loop c src srv registry) task processed tr
    = (Ok (if succeeded seg then processed + 1 else processed), tr ++ seg)
    /\ task_report seg.
Proof.
  destruct (run_cycle_task_report c src srv registry task processed tr)
    as (seg & Hrun & Hreport & _).
  exists seg. split; assumption.
Qed.

(** X19. A task is run at most once per claim: the loop body invokes the
    runner once or not at all, and it invokes it only after the first
    heartbeat was accepted. *)
Theorem runner_invoked_at_most_once (c : ExecutorConfig) (src : ClaimSource) (srv : Server)
    (registry : json -> Result TaskRunner) (task : ExecutionTask) (processed : Z)
    (tr : Trace) :
  exists res seg,
    ClaimLoop.run_cycle_task (observed_loop c src srv registry) task processed tr
    = (res, tr ++ seg)
    /\ (runs_of seg = 0%nat \/ (runs_of seg = 1%nat /\ first_call_accepted seg = true)).
Proof.
  destruct (run_cycle_task_report c src srv registry task processed tr)
    as (seg & Hrun & _ & Hruns).
  do 2 eexists. split; [exact Hrun|exact Hruns].
Qed.

Lemma accepted_completes_app (tr1 tr2 : Trace) :
  accepted_completes (tr1 ++ tr2) = (accepted_completes tr1 + accepted_completes tr2)%nat.
Proof.
  induction tr1 as [|ev tr1 IH]; [reflexivity|].
  destruct ev as [| [] [] | | | |]; simpl; rewrite ?IH; reflexivity.
Qed.

Lemma run_cycle_loop_reports (c : ExecutorConfig) (src : ClaimSource) (srv : Server)
    (registry : json -> Result TaskRunner) (tasks : list ExecutionTask) :
  forall (processed : Z) (tr : Trace),
  exists added,
    ClaimLoop.run_cycle_loop (observed_loop c src srv registry) tasks processed tr
    = (Ok (processed + Z.of_nat (accepted_completes added)), tr ++ added)
    /\ (accepted_completes added <= length tasks)%nat
    /\ (length (calls_of added) <= 5 * length tasks)%nat.
Proof.
  induction tasks as [|task rest IH]; intros processed tr.
  - exists []. simpl. rewrite Z.add_0_r, app_nil_r. repeat split; lia.
  - destruct (run_cycle_task_report c src srv registry task processed tr)
      as (seg & Hseg & Hreport & _).
    destruct (IH (if succeeded seg then processed + 1 else processed) (tr ++ seg))
      as (added & Hrest & Hcount & Hcalls).
    exists (seg ++ added).
    cbn [ClaimLoop.run_cycle_loop]. rewrite bind_run, Hseg, Hrest.
    rewrite accepted_completes_app, calls_of_app, length_app, app_assoc.
    unfold task_report in Hreport. cbv zeta in Hreport.
    destruct (succeeded seg); destruct Hreport as (_ & Hn & Hacc); rewrite Hacc;
      (split; [f_equal; f_equal; lia|]); simpl length; split; lia.
Qed.

(** X20. The count that [run_cycle] returns is the number of complete calls
    that the server accepted during the cycle; it is at most the number of
    tasks claimed, and the cycle makes at most five reporting calls per
    task. *)
Theorem cycle_count_is_accepted_completes (c : ExecutorConfig) (src : ClaimSource)
    (srv : Server) (registry : json -> Result TaskRunner) (tasks : list ExecutionTask)
    (tr : Trace) :
  src tr = Ok tasks ->
  exists added,
    ClaimLoop.run_cycle (observed_loop c src srv registry) tr
    = (Ok (Z.of_nat (accepted_completes added)), tr ++ added)
    /\ (accepted_completes added <= length tasks)%nat
    /\ (length (calls_of added) <= 5 * length tasks)%nat.
Proof.
  intros Hsrc. unfold ClaimLoop.run_cycle. rewrite bind_run.
  change (claim_tasks (ClaimLoop.client (observed_loop c src srv registry)))
    with (ask src EvClaim).
  unfold ask. rewrite Hsrc. destruct tasks as [|task rest].
  - exists [EvClaim (Ok []); idle_log c].
    split; [cbn [negb truthy_list]; rewrite bind_run; unfold ClaimLoop._log, emit; simpl;
            rewrite <- app_assoc; reflexivity|].
    split; simpl; lia.
  - change (negb (truthy_list (task :: rest))) with false. cbv iota.
    destruct (run_cycle_loop_reports c src srv registry (task :: rest) 0
                (tr ++ [EvClaim (Ok (task :: rest))])) as (added & Hloop & Hcount & Hcalls).
    exists (EvClaim (Ok (task :: rest)) :: added).
    rewrite Hloop, <- app_assoc. split; [reflexivity|]. split; [exact Hcount|exact Hcalls].
Qed.

(** X21. A task whose adapter identifier, in ASCII, is not known to the
    registry: after the accepted heartbeat the runner is not invoked, no
    logs, status or complete of the normal sequence follow, and the one
    recovery report carries as its message the [KeyError] text in quotes,
    that is the [repr] of "No runner registered for adapter: <id>". The
    count is unchanged. *)
Theorem unknown_adapter_reported (c : ExecutorConfig) (src : ClaimSource) (srv : Server)
    (runners : gmap string TaskRunner) (task : ExecutionTask) (adapter : string)
    (processed : Z) (tr : Trace) (ack : json) :
  is_ascii_str adapter = true ->
  adapter_id task = JStr adapter ->
  runners !! lower (strip adapter) = None ->
  srv (tr ++ [claimed_log c task]) (Heartbeat task 1 starting) = Ok ack ->
  let exc := Exn KeyError ("No runner registered for adapter: " +:+ adapter) in
  exists out,
    ClaimLoop.run_cycle_task (observed_loop c src srv (RunnerRegistry.get runners))
      task processed tr
    = (Ok processed,
       tr ++ [claimed_log c task;
              EvCall (Heartbeat task 1 starting) (Ok ack);
              error_log c task exc;
              EvCall (recovery_call task exc) out])
    /\ dict_get (ClaimLoop.executor_exception exc) "message"
       = Some (JStr (py_repr ("No runner registered for adapter: " +:+ adapter))).
Proof.
  intros _ Hadapter Hmiss Hhb exc.
  assert (RunnerRegistry.get runners (adapter_id task) = Raise exc) as Hreg.
  { rewrite Hadapter. unfold RunnerRegistry.get. rewrite Hmiss. reflexivity. }
  pose proof (lookup_miss_raises c src srv (RunnerRegistry.get runners) task tr ack exc
                Hhb Hreg) as Hraise.
  eexists. split; [|reflexivity].
  rewrite (run_cycle_task_raise _ _ _ _ _ _ _ _ _ Hraise), <- app_assoc. reflexivity.
Qed.


(** ** claim_loop.py over any reporting client *)

(** Replace the next reporting operation by its outcome and its event, and
    split on the outcome. *)
Ltac call_step H srv :=
  match goal with
  | |- context [heartbeat ?cl ?t ?s ?p ?T] =>
      rewrite (H (Heartbeat t s p) T : heartbeat cl t s p T = _)
  | |- context [append_logs ?cl ?t ?s ?e ?T] =>
      rewrite (H (AppendLogs t s e) T : append_logs cl t s e T = _)
  | |- context [update_status ?cl ?t ?s ?st ?f ?x ?T] =>
      rewrite (H (UpdateStatus t s st f x) T : update_status cl t s st f x T = _)
  | |- context [complete ?cl ?t ?s ?fs ?a ?m ?T] =>
      rewrite (H (Complete t s fs a m) T : complete cl t s fs a m T = _)
  end;
  match goal with
  | |- context [srv ?T ?call] => destruct (srv T call)
  end;
  cbn beta iota.

Ltac grow :=
  repeat first
    [ apply grown_start
    | apply grown_local; [reflexivity|]
    | match goal with
      | |- grown _ _ (_ ++ [_]) ?calls => eapply grown_call
      end ].

Ltac finish_task :=
  do 3 eexists; split; [reflexivity|]; split; [grow|];
  split; [repeat constructor|];
  split; [simpl; lia|]; simpl; first [left; reflexivity | right; reflexivity].

Lemma run_cycle_task_any_client (loop : ClaimLoop.t) (srv : Server)
    (ev : Trace -> Call -> Event) :
  reports_as (ClaimLoop.client loop) srv ev ->
  forall (task : ExecutionTask) (processed : Z) (tr : Trace),
  exists res tr' calls,
    ClaimLoop.run_cycle_task loop task processed tr = (res, tr')
    /\ grown ev tr tr' calls
    /\ task_calls task calls.
Proof.
  intros H task processed tr.
  unfold ClaimLoop.run_cycle_task, try_except, ClaimLoop._process_task, ClaimLoop._log,
    emit, run, ask, lift.
  unfold mbind, M_bind, mret, M_ret. cbn beta iota.
  call_step H srv.
  2:{ repeat call_step H srv; finish_task. }
  destruct (ClaimLoop.registry loop (adapter_id task)) as [runner|e]; cbn beta iota.
  2:{ repeat call_step H srv; finish_task. }
  destruct (runner _ task) as [r|e]; cbn beta iota.
  2:{ repeat call_step H srv; finish_task. }
  destruct (logs r) as [|entry entries]; destruct (failure r) as [[|kv f]|];
    cbn [truthy_list truthy_opt]; cbn beta iota;
    repeat call_step H srv; finish_task.
Qed.

(** ** claim_loop.py over cl_client.py *)

Lemma post_result_run (self : CLClient.t) (path : string) (payload : dict) (tr : Trace) :
  CLClient._post self path payload tr
  = (post_result path (CLClient.net self tr (CLClient.request self path payload)),
     tr ++ [EvRequest (CLClient.request self path payload)
              (CLClient.net self tr (CLClient.request self path payload))]).
Proof. rewrite post_run. reflexivity. Qed.

Lemma as_client_reports (self : CLClient.t) :
  reports_as (CLClient.as_client self)
    (fun tr call => post_result (call_path call) (CLClient.net self tr (call_request self call)))
    (fun tr call => EvRequest (call_request self call)
                      (CLClient.net self tr (call_request self call))).
Proof.
  intros call tr. destruct call; cbn [perform CLClient.as_client heartbeat append_logs
                                      update_status complete];
    unfold CLClient.heartbeat, CLClient.append_logs, CLClient.update_status,
      CLClient.complete; rewrite post_result_run; reflexivity.
Qed.

Lemma requests_of_app (tr1 tr2 : Trace) :
  requests_of (tr1 ++ tr2) = requests_of tr1 ++ requests_of tr2.
Proof.
  induction tr1 as [|e tr1 IH]; [reflexivity|].
  destruct e; simpl; rewrite ?IH; reflexivity.
Qed.

Lemma grown_requests (self : CLClient.t) (tr tr' : Trace) (calls : list Call) :
  grown (fun t call => EvRequest (call_request self call)
                         (CLClient.net self t (call_request self call))) tr tr' calls ->
  exists seg, tr' = tr ++ seg /\ requests_of seg = map (call_request self) calls.
Proof.
  induction 1 as [|tr' calls call _ (seg & -> & Hreq)|tr' calls e Hlocal _ (seg & -> & Hreq)].
  - exists []. split; [symmetry; apply app_nil_r|reflexivity].
  - eexists. split; [rewrite <- app_assoc; reflexivity|].
    rewrite requests_of_app, Hreq, map_app. reflexivity.
  - eexists. split; [rewrite <- app_assoc; reflexivity|].
    rewrite requests_of_app, Hreq. destruct e; try discriminate; simpl; apply app_nil_r.
Qed.

Lemma call_request_reports (self : CLClient.t) (call : Call) :
  report_request self (call_task call) (call_request self call)
  /\ request_sequence (call_request self call) = Some (JInt (call_sequence call)).
Proof.
  split; [|reflexivity].
  unfold report_request. split; [reflexivity|]. split; [reflexivity|]. split; [reflexivity|].
  split; [|reflexivity].
  destruct call; eexists; (split; [|reflexivity]); simpl; tauto.
Qed.

(** X23. Over the HTTP client, whatever the network answers, one task costs
    between two and five requests; each is a POST with the client's headers
    to one of the four endpoints of that task (heartbeat, logs, status,
    complete) and carries the executor's identity; and the sequence numbers
    they carry are 1, 2, 3, ... without gaps, but for a last one that may
    be 999999. *)
Theorem http_reports_per_task (c : ExecutorConfig) (self : CLClient.t)
    (registry : json -> Result TaskRunner) (task : ExecutionTask) (processed : Z)
    (tr : Trace) :
  exists res seg,
    ClaimLoop.run_cycle_task (http_loop c self registry) task processed tr = (res, tr ++ seg)
    /\ (2 <= length (requests_of seg) <= 5)%nat
    /\ Forall (report_request self task) (requests_of seg)
    /\ (map request_sequence (requests_of seg)
        = map (fun n => Some (JInt n)) (first_numbers (length (requests_of seg)))
        \/ map request_sequence (requests_of seg)
           = map (fun n => Some (JInt n))
               (first_numbers (length (requests_of seg) - 1) ++ [999999])).
Proof.
  destruct (run_cycle_task_any_client (http_loop c self registry) _ _
              (as_client_reports self) task processed tr)
    as (res & tr' & calls & Hrun & Hgrown & Htask & Hlen & Hseq).
  apply grown_requests in Hgrown as (seg & -> & Hreq).
  exists res, seg. split; [exact Hrun|]. rewrite Hreq, length_map.
  split; [exact Hlen|]. split.
  - clear -Htask. induction Htask as [|call calls Hcall _ IH]; [constructor|].
    simpl. constructor; [|exact IH]. rewrite <- Hcall. apply call_request_reports.
  - rewrite map_map.
    assert (map (fun call => request_sequence (call_request self call)) calls
            = map (fun n => Some (JInt n)) (map call_sequence calls)) as ->.
    { rewrite map_map. reflexivity. }
    destruct Hseq as [-> | ->]; [left|right]; reflexivity.
Qed.


(** ** cl_client.py *)

(** X24. What [update_status], [complete] and [heartbeat] put in the request:
    the sequence number and the status as given, and each optional mapping
    or list under its key only when it is present and not empty - an empty
    failure detail, external status, progress, artifact list or measurement
    list is not transmitted at all. *)
Theorem optional_fields_sent (self : CLClient.t) (task : ExecutionTask) (sequence : Z)
    (tr : Trace) :
  (forall status failure external,
     exists req,
       snd (CLClient.update_status self task sequence status failure external tr)
       = tr ++ [EvRequest req (CLClient.net self tr req)]
       /\ dict_get (req_payload req) "sequence" = Some (JInt sequence)
       /\ dict_get (req_payload req) "status" = Some (JStr status)
       /\ dict_get (req_payload req) "failure" = sent_dict failure
       /\ dict_get (req_payload req) "external" = sent_dict external)
  /\ (forall final_status artifacts measurements,
        exists req,
          snd (CLClient.complete self task sequence final_status artifacts measurements tr)
          = tr ++ [EvRequest req (CLClient.net self tr req)]
          /\ dict_get (req_payload req) "sequence" = Some (JInt sequence)
          /\ dict_get (req_payload req) "finalStatus" = Some (JStr final_status)
          /\ dict_get (req_payload req) "artifacts" = sent_list artifacts
          /\ dict_get (req_payload req) "measurements" = sent_list measurements)
  /\ (forall progress,
        exists req,
          snd (CLClient.heartbeat self task sequence progress tr)
          = tr ++ [EvRequest req (CLClient.net self tr req)]
          /\ dict_get (req_payload req) "sequence" = Some (JInt sequence)
          /\ dict_get (req_payload req) "status" = Some (JStr "running")
          /\ dict_get (req_payload req) "progress" = sent_dict progress).
Proof.
  split; [|split].
  - intros status failure external. unfold CLClient.update_status.
    rewrite post_result_run. eexists. split; [reflexivity|].
    destruct failure as [[|kv f]|]; destruct external as [[|kv' x]|]; repeat split.
  - intros final_status artifacts measurements. unfold CLClient.complete.
    rewrite post_result_run. eexists. split; [reflexivity|].
    destruct artifacts as [[|a l]|]; destruct measurements as [[|m l']|]; repeat split.
  - intros progress. unfold CLClient.heartbeat.
    rewrite post_result_run. eexists. split; [reflexivity|].
    destruct progress as [[|kv f]|]; repeat split.
Qed.

(** X25. The transmitted form of a log entry, read back the way the bridge
    reads the log entries of a payload, is the entry itself, except that an
    empty code or time stamp comes back as absent. Data are kept even when
    they are the empty mapping. *)
Theorem log_entry_round_trip (entry : LogEntry) :
  pylabrobot_bridge.log_of_entry (CLClient.entry_payload entry) = Some (transmitted entry)
  /\ (code entry <> Some EmptyString -> timestamp entry <> Some EmptyString ->
      pylabrobot_bridge.log_of_entry (CLClient.entry_payload entry) = Some entry).
Proof.
  assert (pylabrobot_bridge.log_of_entry (CLClient.entry_payload entry)
          = Some (transmitted entry)) as Hback.
  { destruct entry as [msg lvl [[|c cd]|] [d|] [[|t ts]|]]; reflexivity. }
  split; [exact Hback|].
  intros Hcode Hstamp. rewrite Hback. f_equal.
  destruct entry as [msg lvl [[|c cd]|] [d|] [[|t ts]|]]; try reflexivity;
    simpl in *; congruence.
Qed.

(** X26. The shape of the claim response: a decoded body that is not an
    object makes [claim_tasks] raise [AttributeError]; an object whose
    [tasks] is null, a boolean or a number makes it raise [TypeError]
    rather than return no tasks; and when [tasks] is a list and
    [claim_tasks] returns, it returns one task per item, in order. *)
Theorem claim_response_shape (self : CLClient.t) (tr : Trace) (v : json) :
  let req := CLClient.request self "/execution-tasks/claim" (CLClient.claim_payload self) in
  CLClient.net self tr req = HttpResponse (BodyJson v) ->
  (type_name v <> "dict" ->
   fst (CLClient.claim_tasks self tr)
   = Raise (Exn AttributeError ("'" +:+ type_name v +:+ "' object has no attribute 'get'")))
  /\ (forall resp t,
        v = JObj resp -> dict_get resp "tasks" = Some t ->
        In (type_name t) ["NoneType"; "bool"; "int"] ->
        fst (CLClient.claim_tasks self tr)
        = Raise (Exn TypeError ("'" +:+ type_name t +:+ "' object is not iterable")))
  /\ (forall resp items tasks,
        v = JObj resp -> dict_get resp "tasks" = Some (JArr items) ->
        fst (CLClient.claim_tasks self tr) = Ok tasks ->
        Forall2 (fun item task => CLClient.task_of_item item = Ok task) items tasks).
Proof.
  intros req Hnet. rewrite claim_tasks_run. cbv zeta. fold req. rewrite Hnet.
  cbn [fst]. unfold CLClient.tasks_of_response, get_default, dict_get_default.
  split; [|split].
  - intros Hobj. destruct v; try reflexivity. contradiction.
  - intros resp t -> -> Hin. cbn [mbind Result_bind].
    destruct t; simpl in Hin; try reflexivity;
      repeat (destruct Hin as [Hin|Hin]; [discriminate|]); contradiction.
  - intros resp items tasks -> ->. cbn [mbind Result_bind iterate].
    apply map_result_ok.
Qed.

(** ** config.py *)





(** ** The built-in hook *)



(** * The further properties at the concrete inputs *)

Lemma normalized_section_spellings_sample :
  pyalab_integra_hook._normalize_section_name " Slot_2 " [] = Ok "B".
Proof.
  apply (normalized_section_spellings " Slot_2 " [] "SLOT_2" "B").
  - reflexivity.
  - reflexivity.
  - simpl. tauto.
  - reflexivity.
Defined.

Lemma default_slot_map_sections_sample :
  pyalab_integra_hook._normalize_section_name "SLOT_3 " pyalab_integra_hook.default_slot_map
  = Ok "C".
Proof.
  apply (default_slot_map_sections "SLOT_3 " "slot_3" "C").
  - reflexivity.
  - simpl. tauto.
  - reflexivity.
Defined.

Lemma picked_labware_name_sample :
  pyalab_integra_hook._pick_labware_name "B" "destination" Lab.slot_layout
    [("destination", JStr "Reservoir 1")]
  = Ok "Plate B".
Proof.
  apply (proj1 (proj2 (picked_labware_name "B" "destination" Lab.slot_layout
                         [("destination", JStr "Reservoir 1")] eq_refl eq_refl))
           [("labware", JStr " Plate B ")] " Plate B ").
  - reflexivity.
  - reflexivity.
  - discriminate.
Defined.

Lemma extracted_slots_sample :
  match pyalab_integra_hook._extract_slots Lab.parse "/repo/RP-000001.xml" with
  | Ok slots =>
      pyalab_integra_hook.tag_of Lab.protocol = "VialabProtocol"
      /\ slots <> []
      /\ (length slots <= length (pyalab_integra_hook.find_slots Lab.protocol))%nat
      /\ Forall (fun s =>
                   pyalab_integra_hook.slot_id s <> EmptyString
                   /\ trimmed (pyalab_integra_hook.slot_id s) = true
                   /\ trimmed (pyalab_integra_hook.slot_role s) = true
                   /\ lower (pyalab_integra_hook.slot_orientation s)
                      = pyalab_integra_hook.slot_orientation s
                   /\ strip (pyalab_integra_hook.slot_orientation s)
                      = pyalab_integra_hook.slot_orientation s)
           slots
  | Raise exc =>
      exc_class exc = ValueError
      /\ (pyalab_integra_hook.tag_of Lab.protocol <> "VialabProtocol"
          \/ omap pyalab_integra_hook.slot_of_element
               (pyalab_integra_hook.find_slots Lab.protocol) = [])
  end.
Proof.
  apply (proj2 (extracted_slots Lab.parse "/repo/RP-000001.xml") Lab.protocol).
  - reflexivity.
  - reflexivity.
Defined.

Lemma extracted_slots_of_protocol :
  pyalab_integra_hook._extract_slots Lab.parse "/repo/RP-000001.xml"
  = Ok [{| pyalab_integra_hook.slot_id := "slot_1";
           pyalab_integra_hook.slot_role := "source";
           pyalab_integra_hook.slot_orientation := "landscape" |};
        {| pyalab_integra_hook.slot_id := "slot_2";
           pyalab_integra_hook.slot_role := "destination";
           pyalab_integra_hook.slot_orientation := "portrait" |}].
Proof. reflexivity. Qed.

Lemma run_task_needs_artifact_sample :
  pyalab_integra_hook.run_task Lab.world
    [("artifact_refs", JArr [JStr "x.xml"; JObj [("role", JStr "notes"); ("uri", JStr "a.txt")]])]
  = Raise (Exn ValueError "No XML artifact found in task artifact_refs").
Proof.
  apply (proj1 (proj2 (run_task_needs_artifact Lab.world _))
           [JStr "x.xml"; JObj [("role", JStr "notes"); ("uri", JStr "a.txt")]]).
  - reflexivity.
  - reflexivity.
Defined.

Lemma run_task_without_home :
  pyalab_integra_hook.run_task Lab.homeless_world Lab.task_payload
  = Raise (Exn RuntimeError "Could not determine home directory.").
Proof. reflexivity. Qed.

Lemma xml_artifact_choice_sample :
  pyalab_integra_hook.find_xml_uri
    [JObj [("role", JStr "notes"); ("uri", JStr "first.xml")];
     JObj [("role", JStr "integra_vialab_xml"); ("uri", JStr "plan.xml")]]
    EmptyString
  = "plan.xml"
  /\ pyalab_integra_hook.find_xml_uri
       [JObj [("role", JStr "notes"); ("uri", JStr "first.xml")];
        JObj [("role", JStr "notes"); ("uri", JStr "second.xml")]]
       EmptyString
     = "first.xml".
Proof. split; reflexivity. Qed.

(** Two slots for the same section and orientation: the later labware takes
    the place of the earlier one. *)
Lemma placements_well_formed_sample :
  let slots := [{| pyalab_integra_hook.slot_id := "slot_1";
                   pyalab_integra_hook.slot_role := "source";
                   pyalab_integra_hook.slot_orientation := "landscape" |};
                {| pyalab_integra_hook.slot_id := "slot_2";
                   pyalab_integra_hook.slot_role := "destination";
                   pyalab_integra_hook.slot_orientation := "portrait" |};
                {| pyalab_integra_hook.slot_id := "1";
                   pyalab_integra_hook.slot_role := "waste";
                   pyalab_integra_hook.slot_orientation := "landscape" |}] in
  let deck := [{| pyalab_integra_hook.section := "A";
                  pyalab_integra_hook.orientation_name := "A1_NW_CORNER";
                  pyalab_integra_hook.labware_class := pyalab_integra_hook.Plate;
                  pyalab_integra_hook.labware_name := "Plate A";
                  pyalab_integra_hook.display_name := "waste" |};
               {| pyalab_integra_hook.section := "B";
                  pyalab_integra_hook.orientation_name := "A1_SW_CORNER";
                  pyalab_integra_hook.labware_class := pyalab_integra_hook.Plate;
                  pyalab_integra_hook.labware_name := "Plate B";
                  pyalab_integra_hook.display_name := "destination" |}] in
  pyalab_integra_hook.place_slots Lab.fake_load pyalab_integra_hook.default_slot_map
    Lab.slot_layout [] slots [] = Ok deck
  /\ exists ps,
      Forall2 (fun s p =>
                 pyalab_integra_hook.place_slot Lab.fake_load
                   pyalab_integra_hook.default_slot_map Lab.slot_layout [] s = Ok p)
        slots ps
      /\ deck = fold_left pyalab_integra_hook.set_position ps []
      /\ (length deck <= length slots)%nat
      /\ List.NoDup (map position_of deck)
      /\ Forall (fun p => In (position_of p) (map position_of deck)) ps
      /\ Forall (well_formed Lab.fake_load) deck
      /\ (List.NoDup (map position_of ps) -> deck = ps).
Proof.
  intros slots deck. split; [reflexivity|].
  apply (placements_well_formed Lab.fake_load pyalab_integra_hook.default_slot_map
           Lab.slot_layout [] slots deck).
  - reflexivity.
  - reflexivity.
  - reflexivity.
  - reflexivity.
  - reflexivity.
Defined.

Lemma run_task_payload_accepted_sample :
  let payload :=
    pyalab_integra_hook.result_payload Lab.xml_uri
      "records/robot-artifact/integra_assist/mapped/RP-000001.assistconfig.xml"
      "RP-000001" "EXR-000001" 2 "2026-01-01T00:00:00+00:00" in
  pyalab_integra_hook.run_task Lab.world Lab.task_payload = Ok payload
  /\ exists r entry info,
      pylabrobot_bridge._coerce_result payload = Ok r
      /\ final_status r = "completed"
      /\ logs r = [entry]
      /\ code entry = Some "PYALAB_DECK_MAPPED"
      /\ level entry = "info"
      /\ data entry = Some info
      /\ dict_get info "slotsMapped" <> None
      /\ length (artifacts r) = 1%nat
      /\ failure r = None
      /\ external r <> None.
Proof.
  intros payload. split; [reflexivity|].
  apply (run_task_payload_accepted Lab.world Lab.task_payload payload). reflexivity.
Defined.

Lemma slot_orientation_corner_sample :
  let s := {| pyalab_integra_hook.slot_id := "slot_2";
              pyalab_integra_hook.slot_role := "destination";
              pyalab_integra_hook.slot_orientation := "portrait" |} in
  (same_modulo_case
     (strip (pyalab_integra_hook.attrib_of Lab.portrait_slot "orientation" "landscape"))
     "portrait" = true ->
   pyalab_integra_hook.slot_orientation s = "portrait")
  /\ pyalab_integra_hook._orientation_to_pyalab (pyalab_integra_hook.slot_orientation s)
     = (if String.eqb (pyalab_integra_hook.slot_orientation s) "portrait"
        then "A1_SW_CORNER" else "A1_NW_CORNER").
Proof.
  intros s.
  apply (slot_orientation_corner Lab.portrait_slot s); reflexivity.
Defined.

Lemma parsed_hook_spec_sample :
  pylabrobot_bridge._parse_hook_spec "python_executor_service.pyalab_integra_hook:run_task"
  = Ok ("python_executor_service.pyalab_integra_hook", "run_task").
Proof.
  apply (proj2 (proj2 (parsed_hook_spec
                         "python_executor_service.pyalab_integra_hook:run_task" eq_refl))
           "python_executor_service.pyalab_integra_hook" "run_task").
  - reflexivity.
  - reflexivity.
  - discriminate.
  - discriminate.
Defined.


Lemma run_command_returns_object :
  pylabrobot_bridge._run_command
    (fun text => if String.eqb text "{}" then Some (JObj []) else None)
    {| pylabrobot_bridge.returncode := 0;
       pylabrobot_bridge.stdout := " {} ";
       pylabrobot_bridge.stderr := EmptyString |}
  = Ok [].
Proof. reflexivity. Qed.

Lemma coerce_result_accepts_sample :
  let payload := [("logs", JArr [JStr "note"; JObj [("message", JStr "done")]; JNull]);
                  ("failure", JStr "none")] in
  exists r,
    pylabrobot_bridge._coerce_result payload = Ok r
    /\ final_status r = "failed"
    /\ length (logs r) = 1%nat
    /\ failure r = None.
Proof.
  intros payload. eexists. split; [reflexivity|]. repeat split.
Qed.

Lemma simulation_forced_sample :
  forced_simulation (Lab.simulate_env Lab.failing_hook) Lab.task
  /\ IntegraAssistRunner.run_in (Lab.simulate_env Lab.builtin_hook) Lab.task
     = IntegraAssistRunner.run_in (Lab.simulate_env Lab.failing_hook) Lab.task.
Proof.
  assert (forced_simulation (Lab.simulate_env Lab.failing_hook) Lab.task) as Hforced
    by (left; reflexivity).
  split; [exact Hforced|].
  apply (proj1 (simulation_forced (Lab.simulate_env Lab.failing_hook) Lab.task Hforced)).
  repeat split.
Defined.

Lemma simulated_sleep_overflows :
  IntegraAssistRunner.run_in Lab.oversleeping_env Lab.task
  = Raise (Exn OverflowError "timestamp too large to convert to C _PyTime_t").
Proof. reflexivity. Qed.

Lemma bridge_mode_sample (h : ExecutionTask -> Result dict) :
  bridge_mode (Lab.bridge_env h) Lab.task.
Proof.
  split; [reflexivity|]. split; [discriminate|].
  exists []. split; reflexivity.
Defined.

Lemma bridge_errors_contained_sample :
  exists r,
    IntegraAssistRunner.run_in (Lab.bridge_env Lab.failing_hook) Lab.task = Ok r
    /\ match pylabrobot_bridge.run_integra_task
               (IntegraAssistRunner.hook (Lab.bridge_env Lab.failing_hook)) Lab.task with
       | Ok r' => r = r'
       | Raise exc =>
           final_status r = "failed"
           /\ logs r = [bridge_failure_log
                          (IntegraAssistRunner.iso_now (Lab.bridge_env Lab.failing_hook)) exc]
           /\ failure r = Some (bridge_failure_detail exc)
           /\ artifacts r = [] /\ measurements r = [] /\ external r = None
       end.
Proof.
  apply (bridge_errors_contained (Lab.bridge_env Lab.failing_hook) Lab.task).
  apply bridge_mode_sample.
Defined.

Lemma runtime_parameters_not_mapping_sample :
  IntegraAssistRunner.run_in (Lab.bridge_env Lab.builtin_hook) Lab.null_parameters_task
  = Raise (Exn AttributeError "'NoneType' object has no attribute 'get'").
Proof.
  apply (runtime_parameters_not_mapping (Lab.bridge_env Lab.builtin_hook)
           Lab.null_parameters_task); discriminate.
Defined.

Lemma cycle_count_is_accepted_completes_sample :
  let src : ClaimSource := fun _ => Ok [Sample.unknown_task; Sample.task] in
  exists added,
    ClaimLoop.run_cycle
      (observed_loop Sample.config src Sample.accepting (Sample.fake_registry Sample.done)) []
    = (Ok (Z.of_nat (accepted_completes added)), [] ++ added)
    /\ (accepted_completes added <= length [Sample.unknown_task; Sample.task])%nat
    /\ (length (calls_of added) <= 5 * length [Sample.unknown_task; Sample.task])%nat.
Proof.
  intros src.
  apply (cycle_count_is_accepted_completes Sample.config src Sample.accepting
           (Sample.fake_registry Sample.done) [Sample.unknown_task; Sample.task] []).
  reflexivity.
Defined.

Lemma unknown_adapter_reported_sample :
  let runners := RunnerRegistry.init (fun _ _ => Ok Sample.done) in
  let exc := Exn KeyError "No runner registered for adapter: x" in
  exists out,
    ClaimLoop.run_cycle_task
      (observed_loop Sample.config (fun _ => Ok [Sample.unknown_task]) Sample.accepting
         (RunnerRegistry.get runners))
      Sample.unknown_task 0 []
    = (Ok 0,
       [] ++ [claimed_log Sample.config Sample.unknown_task;
              EvCall (Heartbeat Sample.unknown_task 1 starting) (Ok Sample.ack);
              error_log Sample.config Sample.unknown_task exc;
              EvCall (recovery_call Sample.unknown_task exc) out])
    /\ dict_get (ClaimLoop.executor_exception exc) "message"
       = Some (JStr (py_repr "No runner registered for adapter: x")).
Proof.
  intros runners exc.
  apply (unknown_adapter_reported Sample.config (fun _ => Ok [Sample.unknown_task])
           Sample.accepting runners Sample.unknown_task "x" 0 [] Sample.ack).
  - reflexivity.
  - reflexivity.
  - reflexivity.
  - reflexivity.
Defined.

Lemma unknown_adapter_message :
  py_repr "No runner registered for adapter: x" = "'No runner registered for adapter: x'".
Proof. reflexivity. Qed.


Lemma log_entry_round_trip_sample :
  let entry := {| message := "done"; level := "info"; code := Some "SIMULATED_RUN";
                  data := Some []; timestamp := None |} in
  pylabrobot_bridge.log_of_entry (CLClient.entry_payload entry) = Some entry.
Proof.
  intros entry. apply (proj2 (log_entry_round_trip entry)); discriminate.
Defined.

Lemma claim_response_shape_sample :
  let self := Sample.cl_client (HttpResponse (BodyJson (JObj [("tasks", JNull)]))) in
  fst (CLClient.claim_tasks self [])
  = Raise (Exn TypeError "'NoneType' object is not iterable").
Proof.
  intros self.
  apply (proj1 (proj2 (claim_response_shape self [] (JObj [("tasks", JNull)]) eq_refl))
           [("tasks", JNull)] JNull).
  - reflexivity.
  - reflexivity.
  - simpl. tauto.
Defined.

